(** * Amigo Secreto: the draw subsystem of [app.py]

    A shallow embedding of the Flask application's models and of the
    routes that read or write the draw tables, followed by the properties
    of the draw engine, the token-gated reveal and the status aggregator.

    Conventions of the embedding
    - A table is the list of its rows in insertion order; [filter_by(..).first()]
      is [find], [filter_by(..).all()] is [filter], [query.get(pk)] is [find]
      on the primary key.
    - Python integers and the [Integer] columns are [Z]; [DateTime] values are
      [Z] instants; a nullable column is an [option].
    - What a request reads from its environment (the logged-in user of the
      session, [datetime.utcnow()], [random], [secrets]) is a record [env]
      given to the view.
    - A view is a computation over the database which may return early with
      a response; an unhandled Python exception is the response
      [InternalServerError]. *)

From Stdlib Require Import ZArith List String Bool Lia DecimalString.
Import ListNotations.
Open Scope string_scope.
Open Scope Z_scope.

(** ** Models *)

Module User.
Record t := mk {
  id : Z;
  email : string;
  password_hash : string;
  nome : string;
  created_at : option Z
}.
End User.

(** The informational columns of [Grupo] ([data_evento], [local_evento],
    [valor_minimo], [valor_maximo]) are read by no route modelled here and
    are left out. *)
Module Grupo.
Record t := mk {
  id : Z;
  nome : string;
  descricao : string;
  codigo_acesso : string;
  admin_id : Z;
  created_at : option Z
}.
End Grupo.

Module MembroGrupo.
Record t := mk {
  id : Z;
  usuario_id : Z;
  grupo_id : Z;
  data_ingresso : option Z
}.
End MembroGrupo.

Module SorteioIndividual.
Record t := mk {
  id : Z;
  usuario_id : Z;
  grupo_id : Z;
  amigo_sorteado_id : Z;
  data_sorteio : option Z;
  ultima_visualizacao : option Z;
  vezes_visualizado : option Z;
  token_acesso : string
}.

(** The attribute writes of [registrar_visualizacao], before its commit:
    [self.ultima_visualizacao = datetime.utcnow()] and
    [self.vezes_visualizado += 1]; the latter raises [TypeError] on a
    NULL counter, hence the [option]. *)
Definition registrar_visualizacao_attrs (utcnow : Z) (self : t) : option t :=
  match vezes_visualizado self with
  | None => None
  | Some n =>
      Some (mk (id self) (usuario_id self) (grupo_id self)
               (amigo_sorteado_id self) (data_sorteio self)
               (Some utcnow) (Some (n + 1)) (token_acesso self))
  end.
End SorteioIndividual.

Module SugestaoPresente.
Record t := mk {
  id : Z;
  grupo_id : Z;
  usuario_id : Z;
  descricao : string;
  link : option string;
  created_at : option Z;
  updated_at : option Z
}.
End SugestaoPresente.

(** ** The database *)

Record db := mkDb {
  users : list User.t;
  grupos : list Grupo.t;
  membros : list MembroGrupo.t;
  sorteios : list SorteioIndividual.t;
  sugestoes : list SugestaoPresente.t
}.

Definition empty_db : db := mkDb [] [] [] [] [].

(** The key a fresh row receives from its autoincrement column: above every
    key of the table. *)
Definition next_id (ids : list Z) : Z := 1 + fold_right Z.max 0 ids.

(** ** Queries *)

Definition User_get (uid : Z) (s : db) : option User.t :=
  find (fun u => User.id u =? uid) (users s).

Definition User_by_email (e : string) (s : db) : option User.t :=
  find (fun u => String.eqb (User.email u) e) (users s).

Definition Grupo_get (gid : Z) (s : db) : option Grupo.t :=
  find (fun g => Grupo.id g =? gid) (grupos s).

Definition Grupo_by_codigo (c : string) (s : db) : option Grupo.t :=
  find (fun g => String.eqb (Grupo.codigo_acesso g) c) (grupos s).

(** [MembroGrupo.query.filter_by(usuario_id=.., grupo_id=..).first()] *)
Definition MembroGrupo_first (uid gid : Z) (s : db) : option MembroGrupo.t :=
  find (fun m => (MembroGrupo.usuario_id m =? uid) && (MembroGrupo.grupo_id m =? gid))
       (membros s).

(** [MembroGrupo.query.filter_by(grupo_id=..).all()], also the relationship
    [grupo.membros]. *)
Definition MembroGrupo_all (gid : Z) (s : db) : list MembroGrupo.t :=
  filter (fun m => MembroGrupo.grupo_id m =? gid) (membros s).

(** [SorteioIndividual.query.filter_by(usuario_id=.., grupo_id=..).first()] *)
Definition SorteioIndividual_first (uid gid : Z) (s : db)
  : option SorteioIndividual.t :=
  find (fun d => (SorteioIndividual.usuario_id d =? uid)
                 && (SorteioIndividual.grupo_id d =? gid))
       (sorteios s).

Definition SorteioIndividual_by_token (tok : string) (s : db)
  : option SorteioIndividual.t :=
  find (fun d => String.eqb (SorteioIndividual.token_acesso d) tok) (sorteios s).

Definition SugestaoPresente_get (sid : Z) (s : db) : option SugestaoPresente.t :=
  find (fun x => SugestaoPresente.id x =? sid) (sugestoes s).

Definition SugestaoPresente_grupo (gid : Z) (s : db) : list SugestaoPresente.t :=
  filter (fun x => SugestaoPresente.grupo_id x =? gid) (sugestoes s).

Definition SugestaoPresente_grupo_usuario (gid uid : Z) (s : db)
  : list SugestaoPresente.t :=
  filter (fun x => (SugestaoPresente.grupo_id x =? gid)
                   && (SugestaoPresente.usuario_id x =? uid))
         (sugestoes s).

(** The relationships [membro.usuario] and [sorteio.amigo]: the row the
    foreign key points at, [None] when it dangles. *)
Definition membro_usuario (s : db) (m : MembroGrupo.t) : option User.t :=
  User_get (MembroGrupo.usuario_id m) s.

Definition sorteio_amigo (s : db) (d : SorteioIndividual.t) : option User.t :=
  User_get (SorteioIndividual.amigo_sorteado_id d) s.

(** ** Methods of [Grupo] *)

Definition usuario_ja_sorteou (self : Grupo.t) (usuario_id : Z) (s : db) : bool :=
  match SorteioIndividual_first usuario_id (Grupo.id self) s with
  | Some _ => true
  | None => false
  end.

Definition amigo_do_usuario (self : Grupo.t) (usuario_id : Z) (s : db)
  : option User.t :=
  match SorteioIndividual_first usuario_id (Grupo.id self) s with
  | Some sorteio => sorteio_amigo s sorteio
  | None => None
  end.

(** One dictionary of the list [status_sorteio_membros] builds. *)
Record MembroStatus := mkStatus {
  st_membro : MembroGrupo.t;
  st_ja_sorteou : bool;
  st_data_sorteio : option Z;
  st_amigo_sorteado : option User.t
}.

Definition status_do_membro (self : Grupo.t) (s : db) (membro : MembroGrupo.t)
  : MembroStatus :=
  let sorteio :=
    SorteioIndividual_first (MembroGrupo.usuario_id membro) (Grupo.id self) s in
  mkStatus membro
    (match sorteio with Some _ => true | None => false end)
    (match sorteio with Some d => SorteioIndividual.data_sorteio d | None => None end)
    (match sorteio with Some d => sorteio_amigo s d | None => None end).

Definition status_sorteio_membros (self : Grupo.t) (s : db) : list MembroStatus :=
  map (status_do_membro self s) (MembroGrupo_all (Grupo.id self) s).

(** ** Responses *)

#[local] Unset Elimination Schemes.
Inductive json :=
| JNull
| JBool (b : bool)
| JInt (n : Z)
| JStr (s : string)
| JDateTime (fmt : option string) (t : Z)
    (* the text of instant [t]: [isoformat()] for [None], [strftime(fmt)] otherwise *)
| JList (l : list json)
| JObj (o : list (string * json)).
#[local] Set Elimination Schemes.

Inductive exception := IntegrityError | AttributeError | TypeError | IndexError.

(** The templates rendered by the modelled routes, with their contexts. *)
Inductive page :=
| grupo_html (grupo : Grupo.t) (membros : list MembroGrupo.t)
    (sugestoes : list SugestaoPresente.t) (ja_sorteou : bool)
    (amigo_sorteado : option User.t) (status_membros : list MembroStatus)
| sorteio_tela_html (grupo : Grupo.t) (participantes : list (option User.t))
| ver_sorteio_html (sorteio : SorteioIndividual.t) (grupo : Grupo.t)
    (amigo : option User.t) (sugestoes_amigo : list SugestaoPresente.t).

Inductive response :=
| jsonify (body : json) (status : Z)
| redirect (flashed : option (string * string)) (location : string)
| render_template (p : page)
| abort (status : Z)
| unauthorized        (* [login_required] sends an anonymous session to the login view *)
| InternalServerError (exc : exception).

Definition string_of_Z (z : Z) : string := NilZero.string_of_int (Z.to_int z).

Definition url_for_dashboard : string := "/dashboard".
Definition url_for_login : string := "/login".
Definition url_for_register : string := "/register".
Definition url_for_ver_grupo (grupo_id : Z) : string :=
  String.append "/grupo/" (string_of_Z grupo_id).
Definition url_for_ver_meu_sorteio (token : string) : string :=
  String.append "/meu-sorteio/" token.

(** ** The environment of a request *)

Record env := mkEnv {
  session_user_id : option Z;   (* the user id flask_login keeps in the session *)
  utcnow : Z;                   (* [datetime.utcnow()] *)
  random_index : nat;           (* the randomness [random.choice] consumes *)
  token_urlsafe_32 : string;    (* [secrets.token_urlsafe(32)] *)
  codigo_gerado : string;       (* [secrets.token_hex(5)[:10].upper()] *)
  generate_password_hash : string -> string
}.

(** [random.choice(seq)] is [seq[randbelow(len(seq))]]; it raises
    [IndexError] on an empty sequence. *)
Definition random_choice {A} (e : env) (seq : list A) : option A :=
  nth_error seq (random_index e mod List.length seq)%nat.

(** ** Views: database state with early return *)

Definition view (A : Type) : Type := db -> (A + response) * db.

Definition ret {A} (a : A) : view A := fun s => (inl a, s).

Definition bind {A B} (m : view A) (k : A -> view B) : view B :=
  fun s => match m s with
           | (inl a, s') => k a s'
           | (inr r, s') => (inr r, s')
           end.

Notation "x <- c ;; k" := (bind c (fun x => k))
  (at level 61, c at next level, right associativity).
Notation "c ;;; k" := (bind c (fun _ => k))
  (at level 61, right associativity).

(** [return r] of a view function. *)
Definition respond {A} (r : response) : view A := fun s => (inr r, s).

Definition raise {A} (exc : exception) : view A :=
  respond (InternalServerError exc).

Definition query {A} (q : db -> A) : view A := fun s => (inl (q s), s).

Definition get_or_404 {A} (q : db -> option A) : view A :=
  fun s => match q s with
           | Some a => (inl a, s)
           | None => (inr (abort 404), s)
           end.

(** The response and the database a view leaves. *)
Definition run (v : view response) (s : db) : response * db :=
  match v s with
  | (inl r, s') => (r, s')
  | (inr r, s') => (r, s')
  end.

(** [@login_required] with [load_user]: the view runs for the user the
    session names, if that user exists. *)
Definition login_required (e : env) (f : User.t -> view response) : view response :=
  fun s => match session_user_id e with
           | None => (inr unauthorized, s)
           | Some uid =>
               match User_get uid s with
               | None => (inr unauthorized, s)
               | Some current_user => f current_user s
               end
           end.

(** ** [db.session.add(row); db.session.commit()] per table

    The row receives its key and its column defaults; the commit raises
    [IntegrityError] when a [unique=True] column would repeat. *)

Definition add_commit_user (e : env) (email nome password : string) : view User.t :=
  fun s =>
    if existsb (fun u => String.eqb (User.email u) email) (users s)
    then (inr (InternalServerError IntegrityError), s)
    else
      let row := User.mk (next_id (map User.id (users s))) email
                   (generate_password_hash e password) nome (Some (utcnow e)) in
      (inl row, mkDb (users s ++ [row]) (grupos s) (membros s) (sorteios s)
                     (sugestoes s)).

Definition add_commit_grupo (e : env) (nome descricao codigo : string) (admin_id : Z)
  : view Grupo.t :=
  fun s =>
    if existsb (fun g => String.eqb (Grupo.codigo_acesso g) codigo) (grupos s)
    then (inr (InternalServerError IntegrityError), s)
    else
      let row := Grupo.mk (next_id (map Grupo.id (grupos s))) nome descricao
                   codigo admin_id (Some (utcnow e)) in
      (inl row, mkDb (users s) (grupos s ++ [row]) (membros s) (sorteios s)
                     (sugestoes s)).

Definition add_commit_membro (e : env) (usuario_id grupo_id : Z)
  : view MembroGrupo.t :=
  fun s =>
    let row := MembroGrupo.mk (next_id (map MembroGrupo.id (membros s)))
                 usuario_id grupo_id (Some (utcnow e)) in
    (inl row, mkDb (users s) (grupos s) (membros s ++ [row]) (sorteios s)
                   (sugestoes s)).

Definition add_commit_sorteio (e : env) (usuario_id grupo_id amigo_sorteado_id : Z)
    (token_acesso : string) : view SorteioIndividual.t :=
  fun s =>
    if existsb (fun d => String.eqb (SorteioIndividual.token_acesso d) token_acesso)
               (sorteios s)
    then (inr (InternalServerError IntegrityError), s)
    else
      let row := SorteioIndividual.mk (next_id (map SorteioIndividual.id (sorteios s)))
                   usuario_id grupo_id amigo_sorteado_id
                   (Some (utcnow e)) None (Some 0) token_acesso in
      (inl row, mkDb (users s) (grupos s) (membros s) (sorteios s ++ [row])
                     (sugestoes s)).

Definition add_commit_sugestao (e : env) (grupo_id usuario_id : Z)
    (descricao : string) (link : option string) : view SugestaoPresente.t :=
  fun s =>
    let row := SugestaoPresente.mk (next_id (map SugestaoPresente.id (sugestoes s)))
                 grupo_id usuario_id descricao link
                 (Some (utcnow e)) (Some (utcnow e)) in
    (inl row, mkDb (users s) (grupos s) (membros s) (sorteios s)
                   (sugestoes s ++ [row])).

(** The commit of a modified row: [UPDATE .. WHERE id = row.id]. *)
Definition update_sorteio (row : SorteioIndividual.t) (s : db) : db :=
  mkDb (users s) (grupos s) (membros s)
       (map (fun d => if SorteioIndividual.id d =? SorteioIndividual.id row
                      then row else d) (sorteios s))
       (sugestoes s).

Definition update_sugestao (row : SugestaoPresente.t) (s : db) : db :=
  mkDb (users s) (grupos s) (membros s) (sorteios s)
       (map (fun x => if SugestaoPresente.id x =? SugestaoPresente.id row
                      then row else x) (sugestoes s)).

Definition delete_sugestao (row : SugestaoPresente.t) (s : db) : db :=
  mkDb (users s) (grupos s) (membros s) (sorteios s)
       (filter (fun x => negb (SugestaoPresente.id x =? SugestaoPresente.id row))
               (sugestoes s)).

(** [SorteioIndividual.registrar_visualizacao]: the two attribute writes,
    then the commit. It returns the object as the caller sees it afterwards. *)
Definition registrar_visualizacao (e : env) (self : SorteioIndividual.t)
  : view SorteioIndividual.t :=
  fun s => match SorteioIndividual.registrar_visualizacao_attrs (utcnow e) self with
           | None => (inr (InternalServerError TypeError), s)
           | Some self' => (inl self', update_sorteio self' s)
           end.

(** ** Routes *)

Section Routes.
Variable e : env.

(** [POST /register] *)
Definition register (email nome password : string) : view response :=
  existing <- query (User_by_email email) ;;
  match existing with
  | Some _ =>
      respond (redirect (Some ("Email já cadastrado!", "error")) url_for_register)
  | None =>
      add_commit_user e email nome password ;;;
      respond (redirect (Some ("Cadastro realizado com sucesso! Faça login.", "success"))
                        url_for_login)
  end.

(** [POST /grupo/criar]; a form whose date or values do not parse raises
    before anything is written and is not a request of this model. *)
Definition criar_grupo (nome descricao : string) : view response :=
  login_required e (fun current_user =>
    grupo <- add_commit_grupo e nome descricao (codigo_gerado e)
               (User.id current_user) ;;
    add_commit_membro e (User.id current_user) (Grupo.id grupo) ;;;
    respond (redirect (Some ("Grupo criado com sucesso!", "success"))
                      (url_for_ver_grupo (Grupo.id grupo)))).

(** [GET /grupo/<grupo_id>] *)
Definition ver_grupo (grupo_id : Z) : view response :=
  login_required e (fun current_user =>
    grupo <- get_or_404 (Grupo_get grupo_id) ;;
    membro <- query (MembroGrupo_first (User.id current_user) grupo_id) ;;
    match membro with
    | None =>
        if negb (Grupo.admin_id grupo =? User.id current_user)
        then respond (redirect (Some ("Acesso negado!", "error")) url_for_dashboard)
        else ret tt
    | Some _ => ret tt
    end ;;;
    membros <- query (MembroGrupo_all grupo_id) ;;
    sugestoes <- query (SugestaoPresente_grupo grupo_id) ;;
    ja_sorteou <- query (usuario_ja_sorteou grupo (User.id current_user)) ;;
    amigo_sorteado <- query (amigo_do_usuario grupo (User.id current_user)) ;;
    status_membros <- query (fun s =>
      if Grupo.admin_id grupo =? User.id current_user
      then status_sorteio_membros grupo s else []) ;;
    respond (render_template
               (grupo_html grupo membros sugestoes ja_sorteou amigo_sorteado
                           status_membros))).

(** [POST /grupo/entrar]; [codigo] is the form field after
    [.strip().upper()]. *)
Definition entrar_grupo (codigo : string) : view response :=
  login_required e (fun current_user =>
    grupo <- query (Grupo_by_codigo codigo) ;;
    match grupo with
    | None => respond (redirect (Some ("Código inválido!", "error")) url_for_dashboard)
    | Some grupo =>
        existente <- query (MembroGrupo_first (User.id current_user) (Grupo.id grupo)) ;;
        match existente with
        | Some _ =>
            respond (redirect (Some ("Você já é membro deste grupo!", "warning"))
                              (url_for_ver_grupo (Grupo.id grupo)))
        | None =>
            add_commit_membro e (User.id current_user) (Grupo.id grupo) ;;;
            respond (redirect (Some ("Você entrou no grupo com sucesso!", "success"))
                              (url_for_ver_grupo (Grupo.id grupo)))
        end
    end).

(** [[m.usuario for m in membros if m.usuario_id != current_user.id]] *)
Definition participantes_de (current_user : User.t) (membros : list MembroGrupo.t)
    (s : db) : list (option User.t) :=
  map (membro_usuario s)
      (filter (fun m => negb (MembroGrupo.usuario_id m =? User.id current_user))
              membros).

(** [GET /grupo/<grupo_id>/sorteio] *)
Definition tela_sorteio (grupo_id : Z) : view response :=
  login_required e (fun current_user =>
    grupo <- get_or_404 (Grupo_get grupo_id) ;;
    membro <- query (MembroGrupo_first (User.id current_user) grupo_id) ;;
    match membro with
    | None =>
        respond (redirect (Some ("Você não é membro deste grupo!", "error"))
                          url_for_dashboard)
    | Some _ =>
        sorteio_existente <-
          query (SorteioIndividual_first (User.id current_user) grupo_id) ;;
        match sorteio_existente with
        | Some sorteio_existente =>
            respond (redirect None
                       (url_for_ver_meu_sorteio
                          (SorteioIndividual.token_acesso sorteio_existente)))
        | None =>
            membros <- query (MembroGrupo_all grupo_id) ;;
            participantes <- query (participantes_de current_user membros) ;;
            if (List.length participantes <? 1)%nat
            then respond (redirect
                            (Some ("Não há participantes suficientes para sortear!",
                                   "error"))
                            (url_for_ver_grupo grupo_id))
            else respond (render_template (sorteio_tela_html grupo participantes))
        end
    end).

(** [POST /grupo/<grupo_id>/realizar-sorteio] *)
Definition realizar_sorteio_individual (grupo_id : Z) : view response :=
  login_required e (fun current_user =>
    grupo <- get_or_404 (Grupo_get grupo_id) ;;
    membro <- query (MembroGrupo_first (User.id current_user) grupo_id) ;;
    match membro with
    | None =>
        respond (jsonify (JObj [("error", JStr "Você não é membro deste grupo!")]) 403)
    | Some _ =>
        sorteio_existente <-
          query (SorteioIndividual_first (User.id current_user) grupo_id) ;;
        match sorteio_existente with
        | Some sorteio_existente =>
            respond (jsonify
              (JObj [("error", JStr "Você já realizou o sorteio!");
                     ("redirect",
                      JStr (url_for_ver_meu_sorteio
                              (SorteioIndividual.token_acesso sorteio_existente)))])
              400)
        | None =>
            membros <- query (MembroGrupo_all grupo_id) ;;
            participantes <- query (participantes_de current_user membros) ;;
            if (List.length participantes <? 1)%nat
            then respond (jsonify
                            (JObj [("error", JStr "Não há participantes disponíveis!")])
                            400)
            else
              match random_choice e participantes with
              | None => raise IndexError
              | Some None => raise AttributeError     (* [amigo_sorteado.id] on [None] *)
              | Some (Some amigo_sorteado) =>
                  sorteio <- add_commit_sorteio e (User.id current_user) grupo_id
                               (User.id amigo_sorteado) (token_urlsafe_32 e) ;;
                  respond (jsonify
                    (JObj [("success", JBool true);
                           ("amigo",
                            JObj [("id", JInt (User.id amigo_sorteado));
                                  ("nome", JStr (User.nome amigo_sorteado));
                                  ("email", JStr (User.email amigo_sorteado))]);
                           ("token", JStr (SorteioIndividual.token_acesso sorteio));
                           ("redirect",
                            JStr (url_for_ver_meu_sorteio
                                    (SorteioIndividual.token_acesso sorteio)))])
                    200)
              end
        end
    end).

(** [GET /meu-sorteio/<token>] *)
Definition ver_meu_sorteio (token : string) : view response :=
  login_required e (fun current_user =>
    sorteio <- get_or_404 (SorteioIndividual_by_token token) ;;
    if negb (SorteioIndividual.usuario_id sorteio =? User.id current_user)
    then respond (redirect (Some ("Acesso negado! Este sorteio não é seu.", "error"))
                           url_for_dashboard)
    else
      sorteio <- registrar_visualizacao e sorteio ;;
      grupo <- query (Grupo_get (SorteioIndividual.grupo_id sorteio)) ;;
      match grupo with
      | None => raise AttributeError                   (* [grupo.id] on [None] *)
      | Some grupo =>
          sugestoes_amigo <-
            query (SugestaoPresente_grupo_usuario (Grupo.id grupo)
                     (SorteioIndividual.amigo_sorteado_id sorteio)) ;;
          amigo <- query (fun s => sorteio_amigo s sorteio) ;;
          respond (render_template
                     (ver_sorteio_html sorteio grupo amigo sugestoes_amigo))
      end).
End Routes.

Fixpoint sequence_option {A} (l : list (option A)) : option (list A) :=
  match l with
  | [] => Some []
  | None :: _ => None
  | Some a :: l' =>
      match sequence_option l' with
      | Some r => Some (a :: r)
      | None => None
      end
  end.

Definition json_of_option {A} (f : A -> json) (o : option A) : json :=
  match o with
  | Some a => f a
  | None => JNull
  end.

Section MoreRoutes.
Variable e : env.

(** [POST /grupo/<grupo_id>/sugestao/adicionar]; [descricao] and [link]
    are the form fields after [.strip()], an absent or empty link being
    [None]. *)
Definition adicionar_sugestao (grupo_id : Z) (descricao : string)
    (link : option string) : view response :=
  login_required e (fun current_user =>
    membro <- query (MembroGrupo_first (User.id current_user) grupo_id) ;;
    match membro with
    | None =>
        respond (jsonify (JObj [("error", JStr "Você não é membro deste grupo!")]) 403)
    | Some _ =>
        if String.eqb descricao ""
        then respond (jsonify (JObj [("error", JStr "Descrição é obrigatória!")]) 400)
        else
          sugestao <- add_commit_sugestao e grupo_id (User.id current_user)
                        descricao link ;;
          respond (jsonify
            (JObj [("success", JBool true);
                   ("sugestao",
                    JObj [("id", JInt (SugestaoPresente.id sugestao));
                          ("descricao", JStr (SugestaoPresente.descricao sugestao));
                          ("link", json_of_option JStr (SugestaoPresente.link sugestao));
                          ("usuario_nome", JStr (User.nome current_user));
                          ("data",
                           json_of_option (JDateTime (Some "%d/%m/%Y %H:%M"))
                                          (SugestaoPresente.created_at sugestao))])])
            200)
    end).

(** [POST /sugestao/<sugestao_id>/editar]; the form fields after
    [.strip()], [None] for a field that is absent or empty as sent. *)
Definition editar_sugestao (sugestao_id : Z) (descricao : option string)
    (link : option string) : view response :=
  login_required e (fun current_user =>
    sugestao <- get_or_404 (SugestaoPresente_get sugestao_id) ;;
    if negb (SugestaoPresente.usuario_id sugestao =? User.id current_user)
    then respond (jsonify (JObj [("error", JStr "Você não pode editar esta sugestão!")])
                          403)
    else
      let sugestao' :=
        SugestaoPresente.mk (SugestaoPresente.id sugestao)
          (SugestaoPresente.grupo_id sugestao) (SugestaoPresente.usuario_id sugestao)
          (match descricao with
           | Some d => d
           | None => SugestaoPresente.descricao sugestao
           end)
          link (SugestaoPresente.created_at sugestao) (Some (utcnow e)) in
      (fun s => (inl tt, update_sugestao sugestao' s)) ;;;
      respond (jsonify
        (JObj [("success", JBool true);
               ("sugestao",
                JObj [("id", JInt (SugestaoPresente.id sugestao'));
                      ("descricao", JStr (SugestaoPresente.descricao sugestao'));
                      ("link", json_of_option JStr (SugestaoPresente.link sugestao'))])])
        200)).

(** [POST /sugestao/<sugestao_id>/remover] *)
Definition remover_sugestao (sugestao_id : Z) : view response :=
  login_required e (fun current_user =>
    sugestao <- get_or_404 (SugestaoPresente_get sugestao_id) ;;
    if negb (SugestaoPresente.usuario_id sugestao =? User.id current_user)
    then respond (jsonify (JObj [("error", JStr "Você não pode remover esta sugestão!")])
                          403)
    else
      (fun s => (inl tt, delete_sugestao sugestao s)) ;;;
      respond (jsonify (JObj [("success", JBool true)]) 200)).

(** One element of the ['membros'] list of the status API; [None] when
    [status['membro'].usuario] is [None] and [.nome] raises. *)
Definition status_json (s : db) (status : MembroStatus) : option json :=
  match membro_usuario s (st_membro status) with
  | None => None
  | Some usuario =>
      Some (JObj
        [("id", JInt (MembroGrupo.id (st_membro status)));
         ("usuario_id", JInt (MembroGrupo.usuario_id (st_membro status)));
         ("nome", JStr (User.nome usuario));
         ("email", JStr (User.email usuario));
         ("ja_sorteou", JBool (st_ja_sorteou status));
         ("data_sorteio", json_of_option (JDateTime None) (st_data_sorteio status));
         ("amigo_sorteado",
          json_of_option (fun a => JStr (User.nome a)) (st_amigo_sorteado status))])
  end.

(** [GET /api/grupo/<grupo_id>/status-sorteio] *)
Definition api_status_sorteio (grupo_id : Z) : view response :=
  login_required e (fun current_user =>
    grupo <- get_or_404 (Grupo_get grupo_id) ;;
    if negb (Grupo.admin_id grupo =? User.id current_user)
    then respond (jsonify
                    (JObj [("error",
                            JStr "Acesso negado! Apenas o admin pode ver este status.")])
                    403)
    else
      status_membros <- query (status_sorteio_membros grupo) ;;
      linhas <- query (fun s => sequence_option (map (status_json s) status_membros)) ;;
      match linhas with
      | None => raise AttributeError
      | Some linhas =>
          respond (jsonify
            (JObj [("grupo",
                    JObj [("id", JInt (Grupo.id grupo));
                          ("nome", JStr (Grupo.nome grupo));
                          ("total_membros",
                           JInt (Z.of_nat (List.length status_membros)))]);
                   ("membros", JList linhas)])
            200)
      end).
End MoreRoutes.

(** ** Requests and runs *)

Inductive request :=
| POST_register (email nome password : string)
| POST_criar_grupo (nome descricao : string)
| GET_ver_grupo (grupo_id : Z)
| POST_entrar_grupo (codigo : string)
| GET_tela_sorteio (grupo_id : Z)
| POST_realizar_sorteio (grupo_id : Z)
| GET_ver_meu_sorteio (token : string)
| POST_adicionar_sugestao (grupo_id : Z) (descricao : string) (link : option string)
| POST_editar_sugestao (sugestao_id : Z) (descricao link : option string)
| POST_remover_sugestao (sugestao_id : Z)
| GET_api_status_sorteio (grupo_id : Z).

Definition dispatch (e : env) (r : request) : view response :=
  match r with
  | POST_register email nome password => register e email nome password
  | POST_criar_grupo nome descricao => criar_grupo e nome descricao
  | GET_ver_grupo grupo_id => ver_grupo e grupo_id
  | POST_entrar_grupo codigo => entrar_grupo e codigo
  | GET_tela_sorteio grupo_id => tela_sorteio e grupo_id
  | POST_realizar_sorteio grupo_id => realizar_sorteio_individual e grupo_id
  | GET_ver_meu_sorteio token => ver_meu_sorteio e token
  | POST_adicionar_sugestao grupo_id descricao link =>
      adicionar_sugestao e grupo_id descricao link
  | POST_editar_sugestao sugestao_id descricao link =>
      editar_sugestao e sugestao_id descricao link
  | POST_remover_sugestao sugestao_id => remover_sugestao e sugestao_id
  | GET_api_status_sorteio grupo_id => api_status_sorteio e grupo_id
  end.

Definition handle (e : env) (r : request) (s : db) : response * db :=
  run (dispatch e r) s.

(** The databases the application produces from the empty one, serving one
    request after another. *)
Inductive reachable : db -> Prop :=
| reach_init : reachable empty_db
| reach_step : forall s e r, reachable s -> reachable (snd (handle e r s)).

(** The same, along a run in which the clock [datetime.utcnow()] reads does
    not go back from one request to the next; [t] is its last reading. *)
Inductive reachable_at : Z -> db -> Prop :=
| reach_at_init : forall t, reachable_at t empty_db
| reach_at_step : forall t s e r,
    reachable_at t s -> t <= utcnow e ->
    reachable_at (utcnow e) (snd (handle e r s)).

(** ** Facts of the database, as the claims speak of them *)

Definition sorteio_par (d : SorteioIndividual.t) : Z * Z :=
  (SorteioIndividual.usuario_id d, SorteioIndividual.grupo_id d).

Definition membro_par (m : MembroGrupo.t) : Z * Z :=
  (MembroGrupo.usuario_id m, MembroGrupo.grupo_id m).

Definition is_user (uid : Z) (s : db) : Prop :=
  exists u, In u (users s) /\ User.id u = uid.

Definition is_grupo (gid : Z) (s : db) : Prop :=
  exists g, In g (grupos s) /\ Grupo.id g = gid.

(** A Membership row exists for the pair. *)
Definition is_member (uid gid : Z) (s : db) : Prop :=
  In (uid, gid) (map membro_par (membros s)).

(** A Draw row exists for the pair. *)
Definition has_drawn (uid gid : Z) (s : db) : Prop :=
  In (uid, gid) (map sorteio_par (sorteios s)).

(** The eligible pool: the Membership rows of the group of another user. *)
Definition pool (uid gid : Z) (s : db) : list MembroGrupo.t :=
  filter (fun m => negb (MembroGrupo.usuario_id m =? uid)) (MembroGrupo_all gid s).

(** The request comes from the logged-in user [uid]. *)
Definition logged_in (e : env) (uid : Z) (s : db) : Prop :=
  session_user_id e = Some uid /\ is_user uid s.

(** The invariant of the tables. *)
Record wf (s : db) : Prop := mkWf {
  wf_sorteio_par : NoDup (map sorteio_par (sorteios s));
  wf_sorteio_token : NoDup (map SorteioIndividual.token_acesso (sorteios s));
  wf_sorteio_id : NoDup (map SorteioIndividual.id (sorteios s));
  wf_sorteio_grupo : forall d, In d (sorteios s) ->
      is_grupo (SorteioIndividual.grupo_id d) s;
  wf_sorteio_amigo : forall d, In d (sorteios s) ->
      is_user (SorteioIndividual.amigo_sorteado_id d) s;
  wf_sorteio_outro : forall d, In d (sorteios s) ->
      SorteioIndividual.amigo_sorteado_id d <> SorteioIndividual.usuario_id d;
  wf_sorteio_vezes : forall d, In d (sorteios s) ->
      exists n, SorteioIndividual.vezes_visualizado d = Some n /\ 0 <= n;
  wf_sorteio_data : forall d, In d (sorteios s) ->
      exists t0, SorteioIndividual.data_sorteio d = Some t0;
  wf_membro_usuario : forall m, In m (membros s) ->
      is_user (MembroGrupo.usuario_id m) s;
  wf_membro_grupo : forall m, In m (membros s) ->
      is_grupo (MembroGrupo.grupo_id m) s;
  wf_membro_par : NoDup (map membro_par (membros s))
}.

Arguments wf_sorteio_par {s} _.
Arguments wf_sorteio_token {s} _.
Arguments wf_sorteio_id {s} _.
Arguments wf_sorteio_grupo {s} _.
Arguments wf_sorteio_amigo {s} _.
Arguments wf_sorteio_outro {s} _.
Arguments wf_sorteio_vezes {s} _.
Arguments wf_sorteio_data {s} _.
Arguments wf_membro_usuario {s} _.
Arguments wf_membro_grupo {s} _.
Arguments wf_membro_par {s} _.

(** No Draw row was last viewed after the clock reading [t]. *)
Definition visto_ate (t : Z) (s : db) : Prop :=
  forall d v, In d (sorteios s) ->
    SorteioIndividual.ultima_visualizacao d = Some v -> v <= t.

(** The HTTP status a response goes out with. *)
Definition status_code (r : response) : Z :=
  match r with
  | jsonify _ status => status
  | redirect _ _ => 302
  | render_template _ => 200
  | abort status => status
  | unauthorized => 302
  | InternalServerError _ => 500
  end.

(** ** The answers of the draw routes, by name *)

Definition NotMember : response :=
  jsonify (JObj [("error", JStr "Você não é membro deste grupo!")]) 403.

Definition AlreadyDrawn (token : string) : response :=
  jsonify (JObj [("error", JStr "Você já realizou o sorteio!");
                 ("redirect", JStr (url_for_ver_meu_sorteio token))]) 400.

Definition NoCandidates : response :=
  jsonify (JObj [("error", JStr "Não há participantes disponíveis!")]) 400.

Definition DrawResult (amigo : User.t) (token : string) : response :=
  jsonify (JObj [("success", JBool true);
                 ("amigo", JObj [("id", JInt (User.id amigo));
                                 ("nome", JStr (User.nome amigo));
                                 ("email", JStr (User.email amigo))]);
                 ("token", JStr token);
                 ("redirect", JStr (url_for_ver_meu_sorteio token))]) 200.

(** The row a draw of [usuario_id] in [grupo_id] inserts into [s]. *)
Definition novo_sorteio (e : env) (usuario_id grupo_id amigo_sorteado_id : Z) (s : db)
  : SorteioIndividual.t :=
  SorteioIndividual.mk (next_id (map SorteioIndividual.id (sorteios s)))
    usuario_id grupo_id amigo_sorteado_id (Some (utcnow e)) None (Some 0)
    (token_urlsafe_32 e).

Definition com_sorteio (s : db) (d : SorteioIndividual.t) : db :=
  mkDb (users s) (grupos s) (membros s) (sorteios s ++ [d]) (sugestoes s).

Definition RevealForbidden : response :=
  redirect (Some ("Acesso negado! Este sorteio não é seu.", "error")) url_for_dashboard.

Definition StatusForbidden : response :=
  jsonify (JObj [("error", JStr "Acesso negado! Apenas o admin pode ver este status.")])
          403.

(** The reveal page was rendered. *)
Definition revealed (r : response) : Prop :=
  exists sorteio grupo amigo sugestoes_amigo,
    r = render_template (ver_sorteio_html sorteio grupo amigo sugestoes_amigo).

(** The draw as a view leaves it: last-viewed at [now], counter [n]. *)
Definition viewed (d : SorteioIndividual.t) (now n : Z) : SorteioIndividual.t :=
  SorteioIndividual.mk (SorteioIndividual.id d) (SorteioIndividual.usuario_id d)
    (SorteioIndividual.grupo_id d) (SorteioIndividual.amigo_sorteado_id d)
    (SorteioIndividual.data_sorteio d) (Some now) (Some n)
    (SorteioIndividual.token_acesso d).

(** What an element of the status list says of the Membership row [m] of
    group [gid]. *)
Definition linha_de (gid : Z) (s : db) (m : MembroGrupo.t) (j : json) : Prop :=
  exists usuario ja_sorteou data_sorteio amigo_sorteado,
    j = JObj [("id", JInt (MembroGrupo.id m));
              ("usuario_id", JInt (MembroGrupo.usuario_id m));
              ("nome", JStr (User.nome usuario));
              ("email", JStr (User.email usuario));
              ("ja_sorteou", JBool ja_sorteou);
              ("data_sorteio", data_sorteio);
              ("amigo_sorteado", amigo_sorteado)]
    /\ User_get (MembroGrupo.usuario_id m) s = Some usuario
    /\ (ja_sorteou = true <-> has_drawn (MembroGrupo.usuario_id m) gid s)
    /\ (data_sorteio <> JNull <-> ja_sorteou = true)
    /\ (amigo_sorteado <> JNull <-> ja_sorteou = true)
    /\ (forall d, In d (sorteios s) ->
          sorteio_par d = (MembroGrupo.usuario_id m, gid) ->
          exists amigo,
            User_get (SorteioIndividual.amigo_sorteado_id d) s = Some amigo
            /\ amigo_sorteado = JStr (User.nome amigo)
            /\ data_sorteio
               = json_of_option (JDateTime None) (SorteioIndividual.data_sorteio d)).

Definition ja_sorteou_da_linha (j : json) : bool :=
  match j with
  | JObj [_; _; _; _; (_, JBool b); _; _] => b
  | _ => false
  end.

(** The member of the row [m] has a Draw row in group [gid]. *)
Definition membro_sorteou (gid : Z) (s : db) (m : MembroGrupo.t) : bool :=
  match SorteioIndividual_first (MembroGrupo.usuario_id m) gid s with
  | Some _ => true
  | None => false
  end.

(** The document of the status API for the group [g] with the lines [linhas]. *)
Definition StatusDocument (g : Grupo.t) (total : nat) (linhas : list json) : response :=
  jsonify (JObj [("grupo", JObj [("id", JInt (Grupo.id g));
                                 ("nome", JStr (Grupo.nome g));
                                 ("total_membros", JInt (Z.of_nat total))]);
                 ("membros", JList linhas)]) 200.

(** ** A sample run

    Three users register, the first creates a group, the others join it,
    and the first draws. *)

Definition env_de (sessao : option Z) (agora : Z) (sorte : nat) (token codigo : string)
  : env :=
  mkEnv sessao agora sorte token codigo (fun p => String.append "hash:" p).

Definition run_requests (l : list (env * request)) (s : db) : db :=
  fold_left (fun s er => snd (handle (fst er) (snd er) s)) l s.

(** The clock readings of a list of requests never go back from [t]. *)
Fixpoint clocks_ok (t : Z) (l : list (env * request)) : bool :=
  match l with
  | [] => true
  | er :: l' => (t <=? utcnow (fst er)) && clocks_ok (utcnow (fst er)) l'
  end.

Definition last_clock (t : Z) (l : list (env * request)) : Z :=
  fold_left (fun _ er => utcnow (fst er)) l t.

Definition pedidos_grupo_formado : list (env * request) :=
  [(env_de None 1 0 "" "", POST_register "ana@example.org" "Ana" "a");
   (env_de None 2 0 "" "", POST_register "bia@example.org" "Bia" "b");
   (env_de None 3 0 "" "", POST_register "caio@example.org" "Caio" "c");
   (env_de (Some 1) 4 0 "" "NATAL", POST_criar_grupo "Natal" "Amigo secreto");
   (env_de (Some 2) 5 0 "" "", POST_entrar_grupo "NATAL");
   (env_de (Some 3) 6 0 "" "", POST_entrar_grupo "NATAL")].

Definition db_grupo_formado : db := run_requests pedidos_grupo_formado empty_db.

Definition env_ana_sorteia : env := env_de (Some 1) 7 1 "token-da-ana" "".

Definition db_ana_sorteou : db :=
  snd (handle env_ana_sorteia (POST_realizar_sorteio 1) db_grupo_formado).

(** Bia draws next, and the generator repeats Ana's token. *)
Definition env_bia_colide : env := env_de (Some 2) 8 0 "token-da-ana" "".

(** A group whose admin holds no Membership row. *)
Definition db_admin_de_fora : db :=
  mkDb [User.mk 1 "ana@example.org" "hash:a" "Ana" (Some 1);
        User.mk 2 "bia@example.org" "hash:b" "Bia" (Some 2)]
       [Grupo.mk 1 "Natal" "Amigo secreto" "NATAL" 1 (Some 3)]
       [MembroGrupo.mk 1 2 1 (Some 4)]
       [] [].

(** ** The remaining page routes

    [dashboard] and [lista_sugestoes] render templates of their own; their
    views return the context handed to [render_template]. *)

(** [@login_required] for a view that returns a template context. *)
Definition login_required_ctx {A} (e : env) (f : User.t -> view A) : view A :=
  fun s => match session_user_id e with
           | None => (inr unauthorized, s)
           | Some uid =>
               match User_get uid s with
               | None => (inr unauthorized, s)
               | Some current_user => f current_user s
               end
           end.

(** [Grupo.total_participantes] *)
Definition total_participantes (self : Grupo.t) (s : db) : nat :=
  List.length (MembroGrupo_all (Grupo.id self) s).

(** [GET /dashboard]: the context [(grupos, meus_grupos)]. *)
Definition dashboard (e : env) : view (list Grupo.t * list Grupo.t) :=
  login_required_ctx e (fun current_user =>
    membro_grupos <- query (fun s =>
      filter (fun mg => MembroGrupo.usuario_id mg =? User.id current_user)
             (membros s)) ;;
    let grupos_ids := map MembroGrupo.grupo_id membro_grupos in
    grupos' <- query (fun s =>
      filter (fun g => existsb (fun i => Grupo.id g =? i) grupos_ids) (grupos s)) ;;
    meus_grupos <- query (fun s =>
      filter (fun g => Grupo.admin_id g =? User.id current_user) (grupos s)) ;;
    ret (grupos', meus_grupos)).

(** One value of the dictionary [sugestoes_por_usuario]. *)
Record SugestoesDoUsuario := mkSugestoesDoUsuario {
  su_usuario : option User.t;
  su_sugestoes : list SugestaoPresente.t
}.

(** One turn of the loop of [lista_sugestoes] over the dictionary, kept as
    the list of its items in insertion order. *)
Definition agrupar_sugestao (s : db) (d : list (Z * SugestoesDoUsuario))
    (sugestao : SugestaoPresente.t) : list (Z * SugestoesDoUsuario) :=
  let uid := SugestaoPresente.usuario_id sugestao in
  let d1 :=
    if existsb (fun kv => fst kv =? uid) d then d
    else (d ++ [(uid, mkSugestoesDoUsuario (User_get uid s) [])])%list in
  map (fun kv =>
         if fst kv =? uid
         then (fst kv,
               mkSugestoesDoUsuario (su_usuario (snd kv))
                 (su_sugestoes (snd kv) ++ [sugestao])%list)
         else kv) d1.

Definition sugestoes_por_usuario (s : db) (sugestoes : list SugestaoPresente.t)
  : list (Z * SugestoesDoUsuario) :=
  fold_left (agrupar_sugestao s) sugestoes [].

(** [dict[key]] on the list of items. *)
Definition dict_get {V} (k : Z) (d : list (Z * V)) : option V :=
  option_map snd (find (fun kv => fst kv =? k) d).

(** [GET /grupo/<grupo_id>/sugestoes]: the context
    [(grupo, sugestoes_por_usuario)]. *)
Definition lista_sugestoes (e : env) (grupo_id : Z)
  : view (Grupo.t * list (Z * SugestoesDoUsuario)) :=
  login_required_ctx e (fun current_user =>
    grupo <- get_or_404 (Grupo_get grupo_id) ;;
    membro <- query (MembroGrupo_first (User.id current_user) grupo_id) ;;
    match membro with
    | None =>
        respond (redirect (Some ("Você não é membro deste grupo!", "error"))
                          url_for_dashboard)
    | Some _ =>
        sugestoes <- query (SugestaoPresente_grupo grupo_id) ;;
        por_usuario <- query (fun s => sugestoes_por_usuario s sugestoes) ;;
        ret (grupo, por_usuario)
    end).

(** The suggestions of the author [k] among [l], in the order of [l]. *)
Definition sugestoes_do_autor (k : Z) (l : list SugestaoPresente.t)
  : list SugestaoPresente.t :=
  filter (fun x => SugestaoPresente.usuario_id x =? k) l.

(** The dictionary [d] groups the suggestions [l] by author. *)
Definition agrupado (s : db) (l : list SugestaoPresente.t)
    (d : list (Z * SugestoesDoUsuario)) : Prop :=
  NoDup (map fst d)
  /\ (forall k v, In (k, v) d ->
        In k (map SugestaoPresente.usuario_id l)
        /\ v = mkSugestoesDoUsuario (User_get k s) (sugestoes_do_autor k l))
  /\ (forall k, In k (map SugestaoPresente.usuario_id l) -> In k (map fst d)).

(** The keys and the links the tables keep, beyond [wf]. *)
Record chaves (s : db) : Prop := mkChaves {
  ch_user_id : NoDup (map User.id (users s));
  ch_user_email : NoDup (map User.email (users s));
  ch_grupo_id : NoDup (map Grupo.id (grupos s));
  ch_grupo_codigo : NoDup (map Grupo.codigo_acesso (grupos s));
  ch_membro_id : NoDup (map MembroGrupo.id (membros s));
  ch_sugestao_id : NoDup (map SugestaoPresente.id (sugestoes s));
  ch_admin_membro : forall g, In g (grupos s) ->
      is_member (Grupo.admin_id g) (Grupo.id g) s;
  ch_sorteio_membros : forall d, In d (sorteios s) ->
      is_member (SorteioIndividual.usuario_id d) (SorteioIndividual.grupo_id d) s
      /\ is_member (SorteioIndividual.amigo_sorteado_id d)
                   (SorteioIndividual.grupo_id d) s;
  ch_sugestao_membro : forall x, In x (sugestoes s) ->
      is_member (SugestaoPresente.usuario_id x) (SugestaoPresente.grupo_id x) s
}.

Arguments ch_user_id {s} _.
Arguments ch_user_email {s} _.
Arguments ch_grupo_id {s} _.
Arguments ch_grupo_codigo {s} _.
Arguments ch_membro_id {s} _.
Arguments ch_sugestao_id {s} _.
Arguments ch_admin_membro {s} _.
Arguments ch_sorteio_membros {s} _.
Arguments ch_sugestao_membro {s} _.

(** The reveal requests of one token, one per environment. *)
Definition reveals (token : string) (es : list env) : list (env * request) :=
  map (fun e => (e, GET_ver_meu_sorteio token)) es.

(** The sample run goes on: Bia and Caio leave gift ideas. *)
Definition pedidos_sugestoes : list (env * request) :=
  [(env_de (Some 2) 8 0 "" "", POST_adicionar_sugestao 1 "Livro" None);
   (env_de (Some 3) 9 0 "" "",
    POST_adicionar_sugestao 1 "Caneca" (Some "https://example.org/caneca"));
   (env_de (Some 2) 10 0 "" "", POST_adicionar_sugestao 1 "Chocolate" None)].

Definition db_com_sugestoes : db := run_requests pedidos_sugestoes db_ana_sorteou.

(** ** Lists and queries *)

Lemma next_id_above (ids : list Z) (x : Z) : In x ids -> x < next_id ids.
Proof.
  unfold next_id. induction ids as [|a ids IH]; cbn [fold_right In]; [tauto|].
  intros [->|H]; [|specialize (IH H)]; lia.
Qed.

Lemma next_id_fresh (ids : list Z) : ~ In (next_id ids) ids.
Proof. intros H. apply next_id_above in H. lia. Qed.

Lemma NoDup_snoc {A} (l : list A) (x : A) :
  NoDup l -> ~ In x l -> NoDup (l ++ [x]).
Proof.
  intros Hl Hx. apply NoDup_app; auto.
  - constructor; [simpl; tauto | constructor].
  - intros a Ha [<-|[]]. contradiction.
Qed.

Lemma NoDup_map_eq {A B} (f : A -> B) (l : list A) (x y : A) :
  NoDup (map f l) -> In x l -> In y l -> f x = f y -> x = y.
Proof.
  induction l as [|a l IH]; simpl; [tauto|].
  intros Hn Hx Hy Hf. inversion Hn as [|? ? Ha Hl]; subst.
  destruct Hx as [->|Hx], Hy as [->|Hy]; auto.
  - exfalso. apply Ha. rewrite Hf. now apply in_map.
  - exfalso. apply Ha. rewrite <- Hf. now apply in_map.
Qed.

Section FindPar.
Context {A : Type} (f g : A -> Z).

Lemma find_par_Some a b l x :
  find (fun y => (f y =? a) && (g y =? b)) l = Some x ->
  In x l /\ f x = a /\ g x = b.
Proof.
  intros H. apply find_some in H as [Hin Hb].
  apply andb_true_iff in Hb as [?%Z.eqb_eq ?%Z.eqb_eq]. auto.
Qed.

Lemma find_par_None a b l :
  find (fun y => (f y =? a) && (g y =? b)) l = None <->
  ~ In (a, b) (map (fun y => (f y, g y)) l).
Proof.
  split.
  - intros H Hin. apply in_map_iff in Hin as (y & Hy & Hin).
    injection Hy as <- <-.
    pose proof (find_none _ _ H _ Hin) as Hb. simpl in Hb.
    rewrite !Z.eqb_refl in Hb. discriminate.
  - intros H. destruct (find _ l) as [x|] eqn:E; [|reflexivity].
    apply find_par_Some in E as (Hin & <- & <-).
    exfalso. apply H. apply in_map_iff. eauto.
Qed.

Lemma find_par_In a b l :
  In (a, b) (map (fun y => (f y, g y)) l) ->
  exists x, find (fun y => (f y =? a) && (g y =? b)) l = Some x.
Proof.
  intros H. destruct (find _ l) as [x|] eqn:E; [eauto|].
  apply find_par_None in E. contradiction.
Qed.
End FindPar.

Lemma find_id_Some {A} (f : A -> Z) a l x :
  find (fun y => f y =? a) l = Some x -> In x l /\ f x = a.
Proof. intros H. apply find_some in H as [? ?%Z.eqb_eq]. auto. Qed.

Lemma find_id_In {A} (f : A -> Z) a l :
  (exists x, In x l /\ f x = a) -> exists x, find (fun y => f y =? a) l = Some x.
Proof.
  intros (x & Hin & Hx). destruct (find _ l) as [y|] eqn:E; [eauto|].
  pose proof (find_none _ _ E _ Hin) as Hb. simpl in Hb.
  rewrite Hx, Z.eqb_refl in Hb. discriminate.
Qed.

Lemma User_get_Some uid s u :
  User_get uid s = Some u -> In u (users s) /\ User.id u = uid.
Proof. apply find_id_Some. Qed.

Lemma User_get_is_user uid s : is_user uid s -> exists u, User_get uid s = Some u.
Proof. apply find_id_In. Qed.

Lemma Grupo_get_Some gid s g :
  Grupo_get gid s = Some g -> In g (grupos s) /\ Grupo.id g = gid.
Proof. apply find_id_Some. Qed.

Lemma Grupo_get_is_grupo gid s : is_grupo gid s -> exists g, Grupo_get gid s = Some g.
Proof. apply find_id_In. Qed.

Lemma MembroGrupo_first_Some uid gid s m :
  MembroGrupo_first uid gid s = Some m ->
  In m (membros s) /\ MembroGrupo.usuario_id m = uid /\ MembroGrupo.grupo_id m = gid.
Proof. apply find_par_Some. Qed.

Lemma MembroGrupo_first_None uid gid s :
  MembroGrupo_first uid gid s = None <-> ~ is_member uid gid s.
Proof. apply find_par_None. Qed.

Lemma MembroGrupo_first_member uid gid s :
  is_member uid gid s -> exists m, MembroGrupo_first uid gid s = Some m.
Proof. apply find_par_In. Qed.

Lemma SorteioIndividual_first_Some uid gid s d :
  SorteioIndividual_first uid gid s = Some d ->
  In d (sorteios s) /\ SorteioIndividual.usuario_id d = uid
  /\ SorteioIndividual.grupo_id d = gid.
Proof. apply find_par_Some. Qed.

Lemma SorteioIndividual_first_None uid gid s :
  SorteioIndividual_first uid gid s = None <-> ~ has_drawn uid gid s.
Proof. apply find_par_None. Qed.

Lemma SorteioIndividual_first_drawn uid gid s :
  has_drawn uid gid s -> exists d, SorteioIndividual_first uid gid s = Some d.
Proof. apply find_par_In. Qed.

Lemma token_existsb_false tok l :
  existsb (fun d => String.eqb (SorteioIndividual.token_acesso d) tok) l = false <->
  ~ In tok (map SorteioIndividual.token_acesso l).
Proof.
  split.
  - intros H Hin. apply in_map_iff in Hin as (d & <- & Hin).
    assert (existsb (fun d0 => String.eqb (SorteioIndividual.token_acesso d0)
                                 (SorteioIndividual.token_acesso d)) l = true) as Ht.
    { apply existsb_exists. exists d. split; [assumption | apply String.eqb_refl]. }
    congruence.
  - intros H. destruct (existsb _ l) eqn:E; [|reflexivity].
    apply existsb_exists in E as (d & Hin & Heq%String.eqb_eq).
    exfalso. apply H. rewrite <- Heq. now apply in_map.
Qed.

Lemma SorteioIndividual_by_token_Some tok s d :
  SorteioIndividual_by_token tok s = Some d ->
  In d (sorteios s) /\ SorteioIndividual.token_acesso d = tok.
Proof. intros H. apply find_some in H as [? ?%String.eqb_eq]. auto. Qed.

(** ** The invariant under each write *)

Ltac wf_fields :=
  constructor; unfold is_user, is_grupo, is_member, has_drawn in *; simpl; auto.

(** Rows added to [users] or [grupos], and any change of [sugestoes]. *)
Lemma wf_extend s us gs sg :
  wf s -> incl (users s) us -> incl (grupos s) gs ->
  wf (mkDb us gs (membros s) (sorteios s) sg).
Proof.
  intros [] Hu Hg.
  assert (forall x, is_user x s -> is_user x (mkDb us gs (membros s) (sorteios s) sg))
    as Iu by (intros x (u & ? & ?); exists u; simpl; auto).
  assert (forall x, is_grupo x s -> is_grupo x (mkDb us gs (membros s) (sorteios s) sg))
    as Ig by (intros x (g & ? & ?); exists g; simpl; auto).
  constructor; simpl; auto.
Qed.

Lemma wf_add_membro s row :
  wf s ->
  is_user (MembroGrupo.usuario_id row) s ->
  is_grupo (MembroGrupo.grupo_id row) s ->
  ~ is_member (MembroGrupo.usuario_id row) (MembroGrupo.grupo_id row) s ->
  wf (mkDb (users s) (grupos s) (membros s ++ [row]) (sorteios s) (sugestoes s)).
Proof.
  intros [] Hu Hg Hm. wf_fields.
  - intros m [Hin|[<-|[]]]%in_app_or; auto.
  - intros m [Hin|[<-|[]]]%in_app_or; auto.
  - rewrite map_app. simpl. apply NoDup_snoc; assumption.
Qed.

Lemma wf_add_sorteio s row t0 :
  wf s ->
  ~ has_drawn (SorteioIndividual.usuario_id row) (SorteioIndividual.grupo_id row) s ->
  ~ In (SorteioIndividual.token_acesso row)
       (map SorteioIndividual.token_acesso (sorteios s)) ->
  SorteioIndividual.id row = next_id (map SorteioIndividual.id (sorteios s)) ->
  is_grupo (SorteioIndividual.grupo_id row) s ->
  is_user (SorteioIndividual.amigo_sorteado_id row) s ->
  SorteioIndividual.amigo_sorteado_id row <> SorteioIndividual.usuario_id row ->
  SorteioIndividual.vezes_visualizado row = Some 0 ->
  SorteioIndividual.data_sorteio row = Some t0 ->
  SorteioIndividual.ultima_visualizacao row = None ->
  wf (mkDb (users s) (grupos s) (membros s) (sorteios s ++ [row]) (sugestoes s)).
Proof.
  intros [] Hpar Htok Hid Hg Hu Hne Hv Hd Hl. wf_fields.
  - rewrite map_app. simpl. apply NoDup_snoc; assumption.
  - rewrite map_app. simpl. apply NoDup_snoc; assumption.
  - rewrite map_app. simpl. apply NoDup_snoc; [assumption|].
    rewrite Hid. apply next_id_fresh.
  - intros d [Hin|[<-|[]]]%in_app_or; auto.
  - intros d [Hin|[<-|[]]]%in_app_or; auto.
  - intros d [Hin|[<-|[]]]%in_app_or; auto.
  - intros d [Hin|[<-|[]]]%in_app_or; auto. exists 0. split; [assumption | lia].
  - intros d [Hin|[<-|[]]]%in_app_or; eauto.
Qed.

(** What the commit of a viewed draw does to the table: the row it was read
    from is replaced, every other row stays. *)
Lemma update_sorteio_rows s d d' x :
  NoDup (map SorteioIndividual.id (sorteios s)) ->
  In d (sorteios s) -> SorteioIndividual.id d' = SorteioIndividual.id d ->
  In x (sorteios (update_sorteio d' s)) <->
  (x = d' \/ (In x (sorteios s) /\ x <> d)).
Proof.
  intros Hn Hd Hid. simpl. rewrite in_map_iff. split.
  - intros (y & Hy & Hin).
    destruct (Z.eqb_spec (SorteioIndividual.id y) (SorteioIndividual.id d')) as [E|E].
    + left. auto.
    + right. subst x. split; [assumption|]. intros ->. apply E. auto.
  - intros [->|[Hin Hne]].
    + exists d. split; [|assumption]. rewrite Hid, Z.eqb_refl. reflexivity.
    + exists x. split; [|assumption].
      destruct (Z.eqb_spec (SorteioIndividual.id x) (SorteioIndividual.id d')) as [E|E];
        [|reflexivity].
      exfalso. apply Hne. apply (NoDup_map_eq _ _ _ _ Hn Hin Hd). congruence.
Qed.

Lemma update_sorteio_map {B} (f : SorteioIndividual.t -> B) s d d' :
  NoDup (map SorteioIndividual.id (sorteios s)) ->
  In d (sorteios s) -> SorteioIndividual.id d' = SorteioIndividual.id d ->
  f d' = f d ->
  map f (sorteios (update_sorteio d' s)) = map f (sorteios s).
Proof.
  intros Hn Hd Hid Hf. simpl. rewrite map_map. apply map_ext_in. intros x Hx.
  destruct (Z.eqb_spec (SorteioIndividual.id x) (SorteioIndividual.id d')) as [E|E];
    [|reflexivity].
  rewrite Hf. f_equal. apply (NoDup_map_eq _ _ _ _ Hn Hd Hx). congruence.
Qed.

Lemma registrar_visualizacao_attrs_Some now d d' :
  SorteioIndividual.registrar_visualizacao_attrs now d = Some d' ->
  exists n,
    SorteioIndividual.vezes_visualizado d = Some n /\
    d' = SorteioIndividual.mk (SorteioIndividual.id d) (SorteioIndividual.usuario_id d)
           (SorteioIndividual.grupo_id d) (SorteioIndividual.amigo_sorteado_id d)
           (SorteioIndividual.data_sorteio d) (Some now) (Some (n + 1))
           (SorteioIndividual.token_acesso d).
Proof.
  unfold SorteioIndividual.registrar_visualizacao_attrs.
  destruct (SorteioIndividual.vezes_visualizado d) as [n|]; [|discriminate].
  intros [= <-]. eauto.
Qed.

Lemma wf_update_sorteio s d d' now :
  wf s -> In d (sorteios s) ->
  SorteioIndividual.registrar_visualizacao_attrs now d = Some d' ->
  wf (update_sorteio d' s).
Proof.
  intros W Hd Hr.
  apply registrar_visualizacao_attrs_Some in Hr as (n & Hn & ->).
  set (d' := SorteioIndividual.mk _ _ _ _ _ _ _ _).
  pose proof (wf_sorteio_id W) as Hid.
  assert (forall x, In x (sorteios (update_sorteio d' s)) ->
                    x = d' \/ In x (sorteios s)) as Hrows.
  { intros x Hx. apply (update_sorteio_rows s d d' x Hid Hd eq_refl) in Hx. tauto. }
  constructor.
  - rewrite (update_sorteio_map sorteio_par s d d' Hid Hd eq_refl eq_refl).
    apply (wf_sorteio_par W).
  - rewrite (update_sorteio_map SorteioIndividual.token_acesso s d d' Hid Hd
               eq_refl eq_refl).
    apply (wf_sorteio_token W).
  - rewrite (update_sorteio_map SorteioIndividual.id s d d' Hid Hd eq_refl eq_refl).
    assumption.
  - intros x [->|Hx]%Hrows; [apply (wf_sorteio_grupo W d Hd) | apply (wf_sorteio_grupo W x Hx)].
  - intros x [->|Hx]%Hrows; [apply (wf_sorteio_amigo W d Hd) | apply (wf_sorteio_amigo W x Hx)].
  - intros x [->|Hx]%Hrows; [apply (wf_sorteio_outro W d Hd) | apply (wf_sorteio_outro W x Hx)].
  - intros x [->|Hx]%Hrows; [|apply (wf_sorteio_vezes W x Hx)].
    destruct (wf_sorteio_vezes W d Hd) as (m & Hm & Hpos).
    exists (n + 1). split; [reflexivity|]. rewrite Hn in Hm. injection Hm as ->. lia.
  - intros x [->|Hx]%Hrows; [apply (wf_sorteio_data W d Hd) | apply (wf_sorteio_data W x Hx)].
  - apply (wf_membro_usuario W).
  - apply (wf_membro_grupo W).
  - apply (wf_membro_par W).
Qed.

(** ** Running a view by cases *)

Ltac view_unfold :=
  unfold run, login_required, raise, bind, get_or_404, query, respond, ret,
         add_commit_user, add_commit_grupo, add_commit_membro, add_commit_sorteio,
         add_commit_sugestao, registrar_visualizacao.

Ltac view_case :=
  match goal with
  | |- context [match ?x with _ => _ end] =>
      lazymatch x with
      | context [match _ with _ => _ end] => fail
      | _ => destruct x eqn:?
      end
  end.

Ltac view_cases := repeat (cbn beta iota zeta delta [fst snd]; view_case).

Lemma participantes_chosen e current_user ms s u :
  random_choice e (participantes_de current_user ms s) = Some (Some u) ->
  exists m, In m ms /\ MembroGrupo.usuario_id m <> User.id current_user
            /\ In u (users s) /\ User.id u = MembroGrupo.usuario_id m.
Proof.
  unfold random_choice, participantes_de. intros H.
  apply nth_error_In, in_map_iff in H as (m & Hu & Hm).
  apply filter_In in Hm as [Hin Hne].
  apply User_get_Some in Hu as [Hu Hid].
  exists m. repeat split; auto.
  apply negb_true_iff, Z.eqb_neq in Hne. exact Hne.
Qed.

Lemma MembroGrupo_all_In gid s m :
  In m (MembroGrupo_all gid s) <-> In m (membros s) /\ MembroGrupo.grupo_id m = gid.
Proof.
  unfold MembroGrupo_all. rewrite filter_In, Z.eqb_eq. reflexivity.
Qed.

(** ** Every request keeps the invariant *)

Ltac route_wf W :=
  intros W;
  view_unfold; view_cases; cbn [fst snd]; try assumption.

Lemma User_get_user uid s u : User_get uid s = Some u -> is_user (User.id u) s.
Proof. intros [? ?]%User_get_Some. exists u. auto. Qed.

Lemma register_wf e email nome password s :
  wf s -> wf (snd (run (register e email nome password) s)).
Proof.
  unfold register. route_wf W.
  apply (wf_extend s); [assumption | apply incl_appl, incl_refl | apply incl_refl].
Qed.

Lemma criar_grupo_wf e nome descricao s :
  wf s -> wf (snd (run (criar_grupo e nome descricao) s)).
Proof.
  unfold criar_grupo. route_wf W.
  match goal with
  | |- wf (mkDb (users ?s1) _ _ _ _) => apply (wf_add_membro s1)
  end.
  - apply (wf_extend s); [assumption | apply incl_refl | apply incl_appl, incl_refl].
  - match goal with H : User_get _ _ = Some _ |- _ => apply User_get_user in H as (u & ? & ?) end.
    exists u. auto.
  - eexists. split; [apply in_or_app; right; left; reflexivity | reflexivity].
  - unfold is_member. cbn [membros MembroGrupo.usuario_id MembroGrupo.grupo_id Grupo.id].
    intros (m & Hm & Hin)%in_map_iff.
    destruct (wf_membro_grupo W m Hin) as (g & Hg & Hid).
    injection Hm as _ Hgid.
    pose proof (next_id_above (map Grupo.id (grupos s)) (Grupo.id g)
                  (in_map Grupo.id _ _ Hg)). lia.
Qed.

Lemma entrar_grupo_wf e codigo s :
  wf s -> wf (snd (run (entrar_grupo e codigo) s)).
Proof.
  unfold entrar_grupo. route_wf W.
  apply (wf_add_membro s); cbn [MembroGrupo.usuario_id MembroGrupo.grupo_id].
  - assumption.
  - eapply User_get_user; eassumption.
  - match goal with H : Grupo_by_codigo _ _ = Some ?g |- _ =>
      apply find_some in H as [? _]; exists g; auto end.
  - apply MembroGrupo_first_None. assumption.
Qed.

Lemma realizar_sorteio_individual_wf e grupo_id s :
  wf s -> wf (snd (run (realizar_sorteio_individual e grupo_id) s)).
Proof.
  unfold realizar_sorteio_individual. route_wf W.
  match goal with H : random_choice _ _ = Some (Some _) |- _ =>
    apply participantes_chosen in H as (m & Hm & Hne & Hu & Hid) end.
  apply (wf_add_sorteio s _ (utcnow e));
    cbn [SorteioIndividual.usuario_id SorteioIndividual.grupo_id
         SorteioIndividual.token_acesso SorteioIndividual.id
         SorteioIndividual.amigo_sorteado_id SorteioIndividual.vezes_visualizado
         SorteioIndividual.data_sorteio SorteioIndividual.ultima_visualizacao];
    try reflexivity.
  - assumption.
  - apply SorteioIndividual_first_None. assumption.
  - apply token_existsb_false. assumption.
  - match goal with H : Grupo_get _ _ = Some ?g |- _ =>
      apply Grupo_get_Some in H as [? ?]; exists g; auto end.
  - eexists. eauto.
  - congruence.
Qed.

Lemma ver_meu_sorteio_wf e token s :
  wf s -> wf (snd (run (ver_meu_sorteio e token) s)).
Proof.
  unfold ver_meu_sorteio. route_wf W.
  all: match goal with H : SorteioIndividual_by_token _ _ = Some _ |- _ =>
         apply SorteioIndividual_by_token_Some in H as [? _] end.
  all: eapply wf_update_sorteio; eassumption.
Qed.

Lemma adicionar_sugestao_wf e grupo_id descricao link s :
  wf s -> wf (snd (run (adicionar_sugestao e grupo_id descricao link) s)).
Proof.
  unfold adicionar_sugestao. route_wf W.
  apply (wf_extend s); [assumption | apply incl_refl | apply incl_refl].
Qed.

Lemma editar_sugestao_wf e sugestao_id descricao link s :
  wf s -> wf (snd (run (editar_sugestao e sugestao_id descricao link) s)).
Proof.
  unfold editar_sugestao. route_wf W.
  all: apply (wf_extend s); [assumption | apply incl_refl | apply incl_refl].
Qed.

Lemma remover_sugestao_wf e sugestao_id s :
  wf s -> wf (snd (run (remover_sugestao e sugestao_id) s)).
Proof.
  unfold remover_sugestao. route_wf W.
  apply (wf_extend s); [assumption | apply incl_refl | apply incl_refl].
Qed.

(** The [GET] routes write nothing, whatever they answer. *)
Lemma ver_grupo_readonly e grupo_id s : snd (run (ver_grupo e grupo_id) s) = s.
Proof. unfold ver_grupo. view_unfold. view_cases; reflexivity. Qed.

Lemma tela_sorteio_readonly e grupo_id s : snd (run (tela_sorteio e grupo_id) s) = s.
Proof. unfold tela_sorteio. view_unfold. view_cases; reflexivity. Qed.

Lemma api_status_sorteio_readonly e grupo_id s :
  snd (run (api_status_sorteio e grupo_id) s) = s.
Proof. unfold api_status_sorteio. view_unfold. view_cases; reflexivity. Qed.

Lemma handle_wf e r s : wf s -> wf (snd (handle e r s)).
Proof.
  intros W. unfold handle. destruct r; cbn [dispatch].
  - now apply register_wf.
  - now apply criar_grupo_wf.
  - now rewrite ver_grupo_readonly.
  - now apply entrar_grupo_wf.
  - now rewrite tela_sorteio_readonly.
  - now apply realizar_sorteio_individual_wf.
  - now apply ver_meu_sorteio_wf.
  - now apply adicionar_sugestao_wf.
  - now apply editar_sugestao_wf.
  - now apply remover_sugestao_wf.
  - now rewrite api_status_sorteio_readonly.
Qed.

Lemma empty_db_wf : wf empty_db.
Proof. constructor; simpl; try constructor; intros; contradiction. Qed.

Theorem reachable_wf s : reachable s -> wf s.
Proof.
  induction 1 as [| s e r _ IH].
  - apply empty_db_wf.
  - now apply handle_wf.
Qed.

Lemma reachable_at_reachable t s : reachable_at t s -> reachable s.
Proof. induction 1; [apply reach_init | now apply reach_step]. Qed.

(** ** The clock and the last-viewed timestamps *)

Lemma update_sorteio_In row s x :
  In x (sorteios (update_sorteio row s)) -> x = row \/ In x (sorteios s).
Proof.
  simpl. intros (y & Hy & Hin)%in_map_iff.
  destruct (SorteioIndividual.id y =? SorteioIndividual.id row); subst; auto.
Qed.

Lemma handle_visto_ate e r t s :
  visto_ate t s -> t <= utcnow e -> visto_ate (utcnow e) (snd (handle e r s)).
Proof.
  intros V Ht.
  assert (visto_ate (utcnow e) s) as V'
    by (intros d v Hd Hv; specialize (V d v Hd Hv); lia).
  unfold handle.
  destruct r; cbn [dispatch];
    unfold register, criar_grupo, ver_grupo, entrar_grupo, tela_sorteio,
           realizar_sorteio_individual, ver_meu_sorteio, adicionar_sugestao,
           editar_sugestao, remover_sugestao, api_status_sorteio;
    view_unfold; view_cases; cbn [fst snd]; try assumption.
  - intros d v [Hd|[<-|[]]]%in_app_or Hv; [exact (V' d v Hd Hv) | discriminate Hv].
  - match goal with
    | Hr : SorteioIndividual.registrar_visualizacao_attrs _ _ = Some _ |- _ =>
        apply registrar_visualizacao_attrs_Some in Hr as (n & _ & ->)
    end.
    intros d v [->|Hd]%update_sorteio_In Hv; [|exact (V' d v Hd Hv)].
    cbn in Hv. injection Hv as <-. lia.
  - match goal with
    | Hr : SorteioIndividual.registrar_visualizacao_attrs _ _ = Some _ |- _ =>
        apply registrar_visualizacao_attrs_Some in Hr as (n & _ & ->)
    end.
    intros d v [->|Hd]%update_sorteio_In Hv; [|exact (V' d v Hd Hv)].
    cbn in Hv. injection Hv as <-. lia.
Qed.

Lemma reachable_at_visto_ate t s : reachable_at t s -> visto_ate t s.
Proof.
  induction 1 as [t | t s e r _ IH Ht].
  - intros d v [].
  - now apply handle_visto_ate with t.
Qed.

(** ** The draw route, case by case *)

Lemma login_required_logged e U s (f : User.t -> view response) :
  logged_in e U s ->
  exists u, User_get U s = Some u /\ User.id u = U /\ login_required e f s = f u s.
Proof.
  intros [Hs Hu]. destruct (User_get_is_user _ _ Hu) as (u & Hget).
  exists u. split; [assumption|]. split; [apply (User_get_Some _ _ _ Hget)|].
  unfold login_required. rewrite Hs, Hget. reflexivity.
Qed.

Lemma participantes_pool current_user gid s :
  participantes_de current_user (MembroGrupo_all gid s) s
  = map (membro_usuario s) (pool (User.id current_user) gid s).
Proof. reflexivity. Qed.

Lemma pool_In uid gid s m :
  In m (pool uid gid s) <->
  In m (membros s) /\ MembroGrupo.grupo_id m = gid /\ MembroGrupo.usuario_id m <> uid.
Proof.
  unfold pool. rewrite filter_In, MembroGrupo_all_In, negb_true_iff, Z.eqb_neq. tauto.
Qed.

Lemma random_choice_nonempty {A} e (l : list A) :
  l <> [] -> exists x, random_choice e l = Some x /\ In x l.
Proof.
  intros Hl. unfold random_choice.
  destruct (nth_error l (random_index e mod List.length l)%nat) as [x|] eqn:E.
  - exists x. split; [reflexivity | exact (nth_error_In _ _ E)].
  - apply nth_error_None in E. destruct l as [|a l]; [congruence|].
    pose proof (Nat.mod_upper_bound (random_index e) (List.length (a :: l))) as Hb.
    simpl in *. lia.
Qed.

Ltac run_logged H :=
  let u := fresh "current_user" in
  let Hget := fresh "Hget" in
  let Hid := fresh "Hid" in
  let Hrun := fresh "Hrun" in
  unfold run;
  match goal with
  | |- context [login_required ?e ?f ?s] =>
      destruct (login_required_logged e _ s f H) as (u & Hget & Hid & Hrun);
      rewrite Hrun; clear Hrun; subst
  end.

Lemma realizar_not_member e U G s :
  logged_in e U s -> is_grupo G s -> ~ is_member U G s ->
  run (realizar_sorteio_individual e G) s = (NotMember, s).
Proof.
  intros HU (g & Hg)%Grupo_get_is_grupo Hm%MembroGrupo_first_None.
  unfold realizar_sorteio_individual. run_logged HU.
  view_unfold. rewrite Hg, Hm. reflexivity.
Qed.

Lemma realizar_already e U G s d :
  logged_in e U s -> is_grupo G s -> is_member U G s ->
  SorteioIndividual_first U G s = Some d ->
  run (realizar_sorteio_individual e G) s
  = (AlreadyDrawn (SorteioIndividual.token_acesso d), s).
Proof.
  intros HU (g & Hg)%Grupo_get_is_grupo (m & Hm)%MembroGrupo_first_member Hd.
  unfold realizar_sorteio_individual. run_logged HU.
  view_unfold. rewrite Hg, Hm, Hd. reflexivity.
Qed.

Lemma realizar_no_candidates e U G s :
  logged_in e U s -> is_grupo G s -> is_member U G s -> ~ has_drawn U G s ->
  pool U G s = [] ->
  run (realizar_sorteio_individual e G) s = (NoCandidates, s).
Proof.
  intros HU (g & Hg)%Grupo_get_is_grupo (m & Hm)%MembroGrupo_first_member
         Hd%SorteioIndividual_first_None Hp.
  unfold realizar_sorteio_individual. run_logged HU.
  view_unfold. rewrite Hg, Hm, Hd. cbn beta iota.
  rewrite participantes_pool, Hp. reflexivity.
Qed.

Lemma realizar_chosen e U G s m amigo :
  logged_in e U s -> is_grupo G s -> is_member U G s -> ~ has_drawn U G s ->
  random_choice e (pool U G s) = Some m ->
  User_get (MembroGrupo.usuario_id m) s = Some amigo ->
  run (realizar_sorteio_individual e G) s
  = if existsb (fun d => String.eqb (SorteioIndividual.token_acesso d)
                                    (token_urlsafe_32 e)) (sorteios s)
    then (InternalServerError IntegrityError, s)
    else (DrawResult amigo (token_urlsafe_32 e),
          com_sorteio s (novo_sorteio e U G (User.id amigo) s)).
Proof.
  intros HU (g & Hg)%Grupo_get_is_grupo (m0 & Hm)%MembroGrupo_first_member
         Hd%SorteioIndividual_first_None Hc Ha.
  unfold realizar_sorteio_individual. run_logged HU.
  view_unfold. rewrite Hg, Hm, Hd. cbn beta iota.
  rewrite participantes_pool.
  assert (pool (User.id current_user) G s <> []) as Hne.
  { intros E. rewrite E in Hc. unfold random_choice in Hc.
    destruct (_ mod _)%nat; discriminate. }
  destruct (pool (User.id current_user) G s) as [|m1 p] eqn:Ep; [congruence|].
  rewrite <- Ep in *. 
  replace (List.length (map (membro_usuario s) (pool (User.id current_user) G s)) <? 1)%nat
    with false by (rewrite length_map, Ep; reflexivity).
  assert (random_choice e (map (membro_usuario s) (pool (User.id current_user) G s))
          = Some (Some amigo)) as ->.
  { unfold random_choice in *. rewrite length_map, nth_error_map, Hc. simpl.
    unfold membro_usuario. rewrite Ha. reflexivity. }
  destruct (existsb _ (sorteios s)); reflexivity.
Qed.

(** A draw that answers 200 went through every check. *)
Lemma realizar_success e G s body s' :
  run (realizar_sorteio_individual e G) s = (jsonify body 200, s') ->
  exists current_user m amigo,
    session_user_id e = Some (User.id current_user)
    /\ In current_user (users s)
    /\ is_grupo G s
    /\ is_member (User.id current_user) G s
    /\ ~ has_drawn (User.id current_user) G s
    /\ random_choice e (pool (User.id current_user) G s) = Some m
    /\ In m (pool (User.id current_user) G s)
    /\ User_get (MembroGrupo.usuario_id m) s = Some amigo
    /\ ~ In (token_urlsafe_32 e) (map SorteioIndividual.token_acesso (sorteios s))
    /\ jsonify body 200 = DrawResult amigo (token_urlsafe_32 e)
    /\ s' = com_sorteio s (novo_sorteio e (User.id current_user) G (User.id amigo) s).
Proof.
  unfold realizar_sorteio_individual. view_unfold. view_cases; intros H;
    try discriminate H.
  injection H as <- <-.
  match goal with
  | H : random_choice _ (participantes_de ?u _ _) = Some (Some ?a) |- _ =>
      rename H into Hc; rename u into cur; rename a into amigo
  end.
  match goal with H : User_get ?z _ = Some cur |- _ =>
    apply User_get_Some in H as [Hcur Hz]; subst z end.
  match goal with H : Grupo_get _ _ = Some ?g |- _ =>
    apply Grupo_get_Some in H as [Hg Hgid] end.
  match goal with H : MembroGrupo_first _ _ _ = Some _ |- _ =>
    apply MembroGrupo_first_Some in H as (Hm & Hmu & Hmg) end.
  match goal with H : SorteioIndividual_first _ _ _ = None |- _ =>
    apply SorteioIndividual_first_None in H; rename H into Hd end.
  match goal with H : existsb _ _ = false |- _ =>
    apply token_existsb_false in H; rename H into Htok end.
  rewrite participantes_pool in Hc. unfold random_choice in Hc.
  rewrite length_map, nth_error_map in Hc.
  destruct (nth_error (pool (User.id cur) G s) _) as [m|] eqn:Em; [|discriminate].
  simpl in Hc. injection Hc as Hc.
  exists cur, m, amigo. repeat split; try assumption.
  - eexists; eauto.
  - unfold is_member. apply in_map_iff. eexists. split; [|exact Hm].
    unfold membro_par. congruence.
  - exact (nth_error_In _ _ Em).
Qed.

(** ** The sample run is a run of the application *)

Lemma reachable_at_run_requests l : forall t s,
  reachable_at t s -> clocks_ok t l = true ->
  reachable_at (last_clock t l) (run_requests l s).
Proof.
  induction l as [|[e r] l IH]; intros t s Hs Hc; simpl in *; [assumption|].
  apply andb_true_iff in Hc as [Ht%Z.leb_le Hc].
  apply IH; [|assumption]. now apply reach_at_step with t.
Qed.

Lemma db_grupo_formado_reachable_at : reachable_at 6 db_grupo_formado.
Proof.
  exact (reachable_at_run_requests pedidos_grupo_formado 0 empty_db
           (reach_at_init 0) eq_refl).
Qed.

Lemma db_ana_sorteou_reachable_at : reachable_at 7 db_ana_sorteou.
Proof.
  apply (reach_at_step 6 db_grupo_formado env_ana_sorteia (POST_realizar_sorteio 1)).
  - apply db_grupo_formado_reachable_at.
  - vm_compute. discriminate.
Qed.

Lemma db_ana_sorteou_reachable : reachable db_ana_sorteou.
Proof. exact (reachable_at_reachable 7 _ db_ana_sorteou_reachable_at). Qed.

(** Deciding the facts of a concrete database by running its queries. *)
Lemma is_user_get uid s : User_get uid s <> None -> is_user uid s.
Proof.
  destruct (User_get uid s) as [u|] eqn:E; [|congruence].
  intros _. apply User_get_Some in E as [? ?]. exists u. auto.
Qed.

Lemma is_grupo_get gid s : Grupo_get gid s <> None -> is_grupo gid s.
Proof.
  destruct (Grupo_get gid s) as [g|] eqn:E; [|congruence].
  intros _. apply Grupo_get_Some in E as [? ?]. exists g. auto.
Qed.

Lemma is_member_first uid gid s : MembroGrupo_first uid gid s <> None -> is_member uid gid s.
Proof.
  destruct (MembroGrupo_first uid gid s) as [m|] eqn:E; [|congruence].
  intros _. apply MembroGrupo_first_Some in E as (Hin & <- & <-).
  unfold is_member. now apply (in_map membro_par).
Qed.

Lemma logged_in_get e uid s :
  session_user_id e = Some uid -> User_get uid s <> None -> logged_in e uid s.
Proof. intros ? ?. split; [assumption | now apply is_user_get]. Qed.

(** ** Claims on the draw engine *)

Lemma find_snoc {A} (f : A -> bool) l x :
  find f l = None -> f x = true -> find f (l ++ [x]) = Some x.
Proof.
  induction l as [|a l IH]; simpl; intros Hn Hx; [now rewrite Hx|].
  destruct (f a); [discriminate | auto].
Qed.

(** The draw after a successful draw of the same user in the same group. *)
Lemma realizar_again e e' G s body s' :
  run (realizar_sorteio_individual e G) s = (jsonify body 200, s') ->
  session_user_id e' = session_user_id e ->
  run (realizar_sorteio_individual e' G) s' = (AlreadyDrawn (token_urlsafe_32 e), s').
Proof.
  intros H Hs. apply realizar_success in H
    as (cur & m & amigo & Hse & Hcur & HG & HM & HD & _ & _ & _ & _ & _ & ->).
  apply SorteioIndividual_first_None in HD.
  apply (realizar_already e' (User.id cur) G _
           (novo_sorteio e (User.id cur) G (User.id amigo) s)).
  - split; [congruence|]. exists cur. auto.
  - exact HG.
  - exact HM.
  - unfold SorteioIndividual_first, com_sorteio. cbn [sorteios].
    apply find_snoc; [exact HD|]. cbn. now rewrite !Z.eqb_refl.
Qed.

(** C1. In every database the application reaches, no two Draw rows share
    their (usuario_id, grupo_id); when a member of a group who already has
    a Draw row there asks for a draw, the answer is AlreadyDrawn with the
    redirect to that row's access token, and the database is left as it
    was: no row is inserted; and the draw that follows a successful draw of
    the same user in the same group is answered so, with the token of the
    first. *)
Theorem C1_already_drawn_keeps_one_row s :
  reachable s ->
  NoDup (map sorteio_par (sorteios s))
  /\ (forall e U G d,
        logged_in e U s -> is_grupo G s -> is_member U G s ->
        In d (sorteios s) -> sorteio_par d = (U, G) ->
        run (realizar_sorteio_individual e G) s
        = (AlreadyDrawn (SorteioIndividual.token_acesso d), s))
  /\ (forall e e' G body s',
        run (realizar_sorteio_individual e G) s = (jsonify body 200, s') ->
        session_user_id e' = session_user_id e ->
        run (realizar_sorteio_individual e' G) s'
        = (AlreadyDrawn (token_urlsafe_32 e), s')).
Proof.
  intros W%reachable_wf. split; [apply (wf_sorteio_par W)|].
  split; [|intros e e' G body s'; apply realizar_again].
  intros e U G d HU HG HM Hd Hpar.
  assert (has_drawn U G s) as Hdrawn.
  { unfold has_drawn. rewrite <- Hpar. now apply in_map. }
  destruct (SorteioIndividual_first_drawn _ _ _ Hdrawn) as (d0 & Hfirst).
  rewrite (realizar_already e U G s d0 HU HG HM Hfirst).
  apply SorteioIndividual_first_Some in Hfirst as (Hd0 & Hu0 & Hg0).
  assert (d0 = d) as ->; [|reflexivity].
  apply (NoDup_map_eq sorteio_par (sorteios s) d0 d (wf_sorteio_par W) Hd0 Hd).
  rewrite Hpar. unfold sorteio_par. congruence.
Qed.

Lemma C1_witness :
  reachable db_ana_sorteou /\
  NoDup (map sorteio_par (sorteios db_ana_sorteou)) /\
  run (realizar_sorteio_individual (env_de (Some 1) 8 0 "outro-token" "") 1)
      db_ana_sorteou
  = (AlreadyDrawn "token-da-ana", db_ana_sorteou).
Proof.
  split; [exact db_ana_sorteou_reachable|].
  destruct (C1_already_drawn_keeps_one_row db_ana_sorteou db_ana_sorteou_reachable)
    as (Hn & Hrun & _).
  split; [exact Hn|].
  apply (Hrun (env_de (Some 1) 8 0 "outro-token" "") 1 1
              (SorteioIndividual.mk 1 1 1 3 (Some 7) None (Some 0) "token-da-ana")).
  - apply logged_in_get; [reflexivity | vm_compute; discriminate].
  - apply is_grupo_get. vm_compute. discriminate.
  - apply is_member_first. vm_compute. discriminate.
  - vm_compute. left. reflexivity.
  - reflexivity.
Defined.

(** C2. A draw that succeeds appends one Draw row, of the logged-in user
    in the requested group, whose recipient is the user of a Membership row
    of the pool; the pool holds no row of the drawing user, so the recipient
    is never the drawing user. *)
Theorem C2_recipient_is_not_drawer e G s body s' :
  run (realizar_sorteio_individual e G) s = (jsonify body 200, s') ->
  exists d m,
    sorteios s' = (sorteios s ++ [d])%list
    /\ session_user_id e = Some (SorteioIndividual.usuario_id d)
    /\ SorteioIndividual.grupo_id d = G
    /\ In m (pool (SorteioIndividual.usuario_id d) G s)
    /\ SorteioIndividual.amigo_sorteado_id d = MembroGrupo.usuario_id m
    /\ (forall m', In m' (pool (SorteioIndividual.usuario_id d) G s) ->
          MembroGrupo.usuario_id m' <> SorteioIndividual.usuario_id d)
    /\ SorteioIndividual.amigo_sorteado_id d <> SorteioIndividual.usuario_id d.
Proof.
  intros H. apply realizar_success in H
    as (cur & m & amigo & Hs & _ & _ & _ & _ & _ & Hm & Ha & _ & _ & ->).
  apply User_get_Some in Ha as [_ Ha].
  exists (novo_sorteio e (User.id cur) G (User.id amigo) s), m. cbn.
  repeat split; try assumption.
  - intros m' Hm'. apply pool_In in Hm'. tauto.
  - rewrite Ha. apply pool_In in Hm. tauto.
Qed.

Lemma C2_witness :
  run (realizar_sorteio_individual env_ana_sorteia 1) db_grupo_formado
  = (DrawResult (User.mk 3 "caio@example.org" "hash:c" "Caio" (Some 3)) "token-da-ana",
     db_ana_sorteou)
  /\ exists d,
       sorteios db_ana_sorteou = (sorteios db_grupo_formado ++ [d])%list
       /\ SorteioIndividual.amigo_sorteado_id d <> SorteioIndividual.usuario_id d.
Proof.
  assert (run (realizar_sorteio_individual env_ana_sorteia 1) db_grupo_formado
          = (DrawResult (User.mk 3 "caio@example.org" "hash:c" "Caio" (Some 3))
                        "token-da-ana", db_ana_sorteou)) as Hrun
    by (vm_compute; reflexivity).
  split; [exact Hrun|].
  destruct (C2_recipient_is_not_drawer env_ana_sorteia 1 db_grupo_formado _ _ Hrun)
    as (d & m & Hd & _ & _ & _ & _ & _ & Hne).
  exists d. split; assumption.
Defined.

(** C3. A draw that succeeds appends one Draw row whose recipient holds a
    Membership row of the group in the database the draw ran on; the draw
    leaves the Membership table as it was, so the recipient is a member
    when the draw is stored. *)
Theorem C3_recipient_is_member e G s body s' :
  run (realizar_sorteio_individual e G) s = (jsonify body 200, s') ->
  exists d,
    sorteios s' = (sorteios s ++ [d])%list
    /\ SorteioIndividual.grupo_id d = G
    /\ membros s' = membros s
    /\ is_member (SorteioIndividual.amigo_sorteado_id d) G s
    /\ is_member (SorteioIndividual.amigo_sorteado_id d) G s'.
Proof.
  intros H. apply realizar_success in H
    as (cur & m & amigo & _ & _ & _ & _ & _ & _ & Hm & Ha & _ & _ & ->).
  apply User_get_Some in Ha as [_ Ha]. apply pool_In in Hm as (Hin & Hg & _).
  exists (novo_sorteio e (User.id cur) G (User.id amigo) s). cbn.
  assert (is_member (User.id amigo) G s) as HM.
  { unfold is_member. apply in_map_iff. exists m. split; [|assumption].
    unfold membro_par. congruence. }
  repeat split; assumption.
Qed.

Lemma C3_witness :
  run (realizar_sorteio_individual env_ana_sorteia 1) db_grupo_formado
  = (DrawResult (User.mk 3 "caio@example.org" "hash:c" "Caio" (Some 3)) "token-da-ana",
     db_ana_sorteou)
  /\ exists d,
       sorteios db_ana_sorteou = (sorteios db_grupo_formado ++ [d])%list
       /\ is_member (SorteioIndividual.amigo_sorteado_id d) 1 db_grupo_formado.
Proof.
  assert (run (realizar_sorteio_individual env_ana_sorteia 1) db_grupo_formado
          = (DrawResult (User.mk 3 "caio@example.org" "hash:c" "Caio" (Some 3))
                        "token-da-ana", db_ana_sorteou)) as Hrun
    by (vm_compute; reflexivity).
  split; [exact Hrun|].
  destruct (C3_recipient_is_member env_ana_sorteia 1 db_grupo_formado _ _ Hrun)
    as (d & Hd & _ & _ & Hm & _).
  exists d. split; assumption.
Defined.

(** C4. For a logged-in user and an existing group the draw route checks,
    in this order: membership, else NotMember (403); no Draw row of the
    user in the group, else AlreadyDrawn (400) with the redirect to the
    stored token; a non-empty pool, else NoCandidates (400). The three
    answers differ from one another. Past the three checks a member of the
    pool is chosen, and when its user row exists and the generated token is
    not stored yet the answer is the success document with the recipient's
    id, name and e-mail and the token, and the new row is stored. *)
Theorem C4_checks_in_order e U G s :
  logged_in e U s -> is_grupo G s ->
  (~ is_member U G s ->
     run (realizar_sorteio_individual e G) s = (NotMember, s))
  /\ (is_member U G s -> has_drawn U G s ->
        exists d, In d (sorteios s) /\ sorteio_par d = (U, G)
                  /\ run (realizar_sorteio_individual e G) s
                     = (AlreadyDrawn (SorteioIndividual.token_acesso d), s))
  /\ (is_member U G s -> ~ has_drawn U G s -> pool U G s = [] ->
        run (realizar_sorteio_individual e G) s = (NoCandidates, s))
  /\ (is_member U G s -> ~ has_drawn U G s -> pool U G s <> [] ->
        exists m, random_choice e (pool U G s) = Some m /\ In m (pool U G s)
          /\ forall amigo,
               User_get (MembroGrupo.usuario_id m) s = Some amigo ->
               ~ In (token_urlsafe_32 e)
                    (map SorteioIndividual.token_acesso (sorteios s)) ->
               run (realizar_sorteio_individual e G) s
               = (DrawResult amigo (token_urlsafe_32 e),
                  com_sorteio s (novo_sorteio e U G (User.id amigo) s)))
  /\ (forall token,
        status_code NotMember = 403
        /\ status_code (AlreadyDrawn token) = 400
        /\ status_code NoCandidates = 400
        /\ NotMember <> AlreadyDrawn token
        /\ NotMember <> NoCandidates
        /\ AlreadyDrawn token <> NoCandidates).
Proof.
  intros HU HG. repeat apply conj.
  - intros HM. exact (realizar_not_member e U G s HU HG HM).
  - intros HM HD. destruct (SorteioIndividual_first_drawn _ _ _ HD) as (d & Hd).
    exists d. pose proof (SorteioIndividual_first_Some _ _ _ _ Hd) as (Hin & Hu & Hg).
    repeat split; [assumption | unfold sorteio_par; congruence |].
    exact (realizar_already e U G s d HU HG HM Hd).
  - intros HM HD Hp. exact (realizar_no_candidates e U G s HU HG HM HD Hp).
  - intros HM HD Hp. destruct (random_choice_nonempty e _ Hp) as (m & Hc & Hin).
    exists m. repeat split; [assumption..|].
    intros amigo Ha Htok. rewrite (realizar_chosen e U G s m amigo); try assumption.
    apply token_existsb_false in Htok. rewrite Htok. reflexivity.
  - intros token. repeat split; discriminate.
Qed.

Lemma C4_witness :
  logged_in env_ana_sorteia 1 db_grupo_formado /\ is_grupo 1 db_grupo_formado
  /\ is_member 1 1 db_grupo_formado /\ ~ has_drawn 1 1 db_grupo_formado
  /\ pool 1 1 db_grupo_formado <> []
  /\ run (realizar_sorteio_individual env_ana_sorteia 1) db_grupo_formado
     = (DrawResult (User.mk 3 "caio@example.org" "hash:c" "Caio" (Some 3))
                   "token-da-ana",
        db_ana_sorteou).
Proof.
  assert (logged_in env_ana_sorteia 1 db_grupo_formado) as HU
    by (apply logged_in_get; [reflexivity | vm_compute; discriminate]).
  assert (is_grupo 1 db_grupo_formado) as HG
    by (apply is_grupo_get; vm_compute; discriminate).
  assert (is_member 1 1 db_grupo_formado) as HM
    by (apply is_member_first; vm_compute; discriminate).
  assert (~ has_drawn 1 1 db_grupo_formado) as HD
    by (apply SorteioIndividual_first_None; vm_compute; reflexivity).
  assert (pool 1 1 db_grupo_formado <> []) as HP by (vm_compute; discriminate).
  do 5 (split; [assumption|]).
  destruct (C4_checks_in_order env_ana_sorteia 1 1 db_grupo_formado HU HG)
    as (_ & _ & _ & Hdraw & _).
  destruct (Hdraw HM HD HP) as (m & Hc & _ & Hrun).
  vm_compute in Hc. injection Hc as <-.
  rewrite (Hrun (User.mk 3 "caio@example.org" "hash:c" "Caio" (Some 3))).
  - vm_compute. reflexivity.
  - vm_compute. reflexivity.
  - vm_compute. tauto.
Defined.

(** C10. The admin of a group who holds no Membership row in it is refused
    the draw with NotMember (403) and nothing is written, while the group
    page is rendered for that same user. *)
Theorem C10_admin_without_membership e A G g s :
  logged_in e A s -> Grupo_get G s = Some g -> Grupo.admin_id g = A ->
  ~ is_member A G s ->
  run (realizar_sorteio_individual e G) s = (NotMember, s)
  /\ status_code NotMember = 403
  /\ run (ver_grupo e G) s
     = (render_template
          (grupo_html g (MembroGrupo_all G s) (SugestaoPresente_grupo G s)
             (usuario_ja_sorteou g A s) (amigo_do_usuario g A s)
             (status_sorteio_membros g s)),
        s).
Proof.
  intros HU Hg Hadmin HM. split; [|split; [reflexivity|]].
  - apply (realizar_not_member e A G s HU); [|assumption].
    apply is_grupo_get. congruence.
  - apply MembroGrupo_first_None in HM. apply Z.eqb_eq in Hadmin.
    unfold ver_grupo. run_logged HU. view_unfold.
    rewrite Hg, HM. cbn beta iota. rewrite Hadmin. reflexivity.
Qed.

Lemma C10_witness :
  logged_in (env_de (Some 1) 5 0 "token" "") 1 db_admin_de_fora
  /\ ~ is_member 1 1 db_admin_de_fora
  /\ run (realizar_sorteio_individual (env_de (Some 1) 5 0 "token" "") 1)
         db_admin_de_fora
     = (NotMember, db_admin_de_fora)
  /\ exists p, run (ver_grupo (env_de (Some 1) 5 0 "token" "") 1) db_admin_de_fora
               = (render_template p, db_admin_de_fora).
Proof.
  assert (logged_in (env_de (Some 1) 5 0 "token" "") 1 db_admin_de_fora) as HU
    by (apply logged_in_get; [reflexivity | vm_compute; discriminate]).
  assert (~ is_member 1 1 db_admin_de_fora) as HM
    by (apply MembroGrupo_first_None; vm_compute; reflexivity).
  destruct (C10_admin_without_membership (env_de (Some 1) 5 0 "token" "") 1 1
              (Grupo.mk 1 "Natal" "Amigo secreto" "NATAL" 1 (Some 3))
              db_admin_de_fora HU eq_refl eq_refl HM) as (Hdraw & _ & Hview).
  split; [exact HU|]. split; [exact HM|]. split; [exact Hdraw|].
  eexists. exact Hview.
Defined.

(** ** Claims on the reveal gate *)

Lemma ver_meu_sorteio_forbidden e R token d s :
  logged_in e R s -> SorteioIndividual_by_token token s = Some d ->
  SorteioIndividual.usuario_id d <> R ->
  run (ver_meu_sorteio e token) s = (RevealForbidden, s).
Proof.
  intros HU Hd Hne%Z.eqb_neq.
  unfold ver_meu_sorteio. run_logged HU. view_unfold.
  rewrite Hd. cbn beta iota. rewrite Hne. reflexivity.
Qed.

Lemma ver_meu_sorteio_owner e token d n g s :
  logged_in e (SorteioIndividual.usuario_id d) s ->
  SorteioIndividual_by_token token s = Some d ->
  SorteioIndividual.vezes_visualizado d = Some n ->
  Grupo_get (SorteioIndividual.grupo_id d) s = Some g ->
  run (ver_meu_sorteio e token) s
  = (render_template
       (ver_sorteio_html (viewed d (utcnow e) (n + 1)) g
          (sorteio_amigo s d)
          (SugestaoPresente_grupo_usuario (Grupo.id g)
             (SorteioIndividual.amigo_sorteado_id d) s)),
     update_sorteio (viewed d (utcnow e) (n + 1)) s).
Proof.
  intros HU Hd Hn Hg.
  unfold ver_meu_sorteio. run_logged HU. view_unfold.
  rewrite Hd. cbn beta iota.
  match goal with H : User.id _ = _ |- _ => rewrite H end.
  rewrite Z.eqb_refl. cbn [negb].
  unfold SorteioIndividual.registrar_visualizacao_attrs. rewrite Hn.
  cbn beta iota. fold (viewed d (utcnow e) (n + 1)).
  change (Grupo_get (SorteioIndividual.grupo_id (viewed d (utcnow e) (n + 1)))
            (update_sorteio (viewed d (utcnow e) (n + 1)) s))
    with (Grupo_get (SorteioIndividual.grupo_id d) s).
  rewrite Hg. reflexivity.
Qed.

Lemma by_token_of_row s d :
  wf s -> In d (sorteios s) ->
  SorteioIndividual_by_token (SorteioIndividual.token_acesso d) s = Some d.
Proof.
  intros W Hd. unfold SorteioIndividual_by_token.
  destruct (find _ (sorteios s)) as [d0|] eqn:E.
  - apply find_some in E as [Hd0 Heq%String.eqb_eq]. f_equal.
    exact (NoDup_map_eq _ _ _ _ (wf_sorteio_token W) Hd0 Hd Heq).
  - pose proof (find_none _ _ E _ Hd) as Hb. simpl in Hb.
    rewrite String.eqb_refl in Hb. discriminate.
Qed.

(** C5. In every database the application reaches, a logged-in user who
    presents the token of a Draw row gets the reveal page exactly when that
    user is the row's drawer; any other logged-in user, the token being the
    valid token of the row, gets the access-denied flash with the redirect
    to the dashboard. *)
Theorem C5_only_the_drawer_views s e R d :
  reachable s -> logged_in e R s -> In d (sorteios s) ->
  (revealed (fst (run (ver_meu_sorteio e (SorteioIndividual.token_acesso d)) s))
   <-> R = SorteioIndividual.usuario_id d)
  /\ (R <> SorteioIndividual.usuario_id d ->
      fst (run (ver_meu_sorteio e (SorteioIndividual.token_acesso d)) s)
      = RevealForbidden).
Proof.
  intros W%reachable_wf HU Hd.
  pose proof (by_token_of_row s d W Hd) as Htok.
  assert (R <> SorteioIndividual.usuario_id d ->
          run (ver_meu_sorteio e (SorteioIndividual.token_acesso d)) s
          = (RevealForbidden, s)) as Hden.
  { intros Hne. apply (ver_meu_sorteio_forbidden e R _ d s HU Htok). congruence. }
  split; [split|].
  - intros Hrev. destruct (Z.eq_dec R (SorteioIndividual.usuario_id d)) as [|Hne];
      [assumption|].
    rewrite (Hden Hne) in Hrev. destruct Hrev as (? & ? & ? & ? & Hr). discriminate Hr.
  - intros ->.
    destruct (wf_sorteio_vezes W d Hd) as (n & Hn & _).
    destruct (Grupo_get_is_grupo _ _ (wf_sorteio_grupo W d Hd)) as (g & Hg).
    rewrite (ver_meu_sorteio_owner e _ d n g s HU Htok Hn Hg).
    cbn [fst]. unfold revealed. eauto.
  - intros Hne. rewrite (Hden Hne). reflexivity.
Qed.

Lemma C5_witness :
  reachable db_ana_sorteou
  /\ (revealed (fst (run (ver_meu_sorteio (env_de (Some 1) 8 0 "" "") "token-da-ana")
                         db_ana_sorteou)) <-> 1 = 1)
  /\ fst (run (ver_meu_sorteio (env_de (Some 2) 8 0 "" "") "token-da-ana")
              db_ana_sorteou) = RevealForbidden.
Proof.
  split; [exact db_ana_sorteou_reachable|].
  assert (In (SorteioIndividual.mk 1 1 1 3 (Some 7) None (Some 0) "token-da-ana")
             (sorteios db_ana_sorteou)) as Hd by (vm_compute; left; reflexivity).
  split.
  - refine (proj1 (C5_only_the_drawer_views db_ana_sorteou (env_de (Some 1) 8 0 "" "")
                     1 _ db_ana_sorteou_reachable _ Hd)).
    apply logged_in_get; [reflexivity | vm_compute; discriminate].
  - refine (proj2 (C5_only_the_drawer_views db_ana_sorteou (env_de (Some 2) 8 0 "" "")
                     2 _ db_ana_sorteou_reachable _ Hd) _).
    + apply logged_in_get; [reflexivity | vm_compute; discriminate].
    + cbn. discriminate.
Defined.

(** C9. When the logged-in user is not the drawer of the Draw row the
    token resolves to, the reveal answers access-denied and the database is
    left exactly as it was: the row's view counter and last-viewed
    timestamp, and every other row, are unchanged. *)
Theorem C9_denied_view_changes_nothing e R token d s :
  logged_in e R s -> SorteioIndividual_by_token token s = Some d ->
  R <> SorteioIndividual.usuario_id d ->
  run (ver_meu_sorteio e token) s = (RevealForbidden, s)
  /\ SorteioIndividual_by_token token (snd (run (ver_meu_sorteio e token) s)) = Some d.
Proof.
  intros HU Hd Hne.
  assert (run (ver_meu_sorteio e token) s = (RevealForbidden, s)) as Hrun
    by (apply (ver_meu_sorteio_forbidden e R token d s HU Hd); congruence).
  split; [assumption|]. rewrite Hrun. exact Hd.
Qed.

Lemma C9_witness :
  run (ver_meu_sorteio (env_de (Some 2) 8 0 "" "") "token-da-ana") db_ana_sorteou
  = (RevealForbidden, db_ana_sorteou).
Proof.
  refine (proj1 (C9_denied_view_changes_nothing (env_de (Some 2) 8 0 "" "") 2
                   "token-da-ana"
                   (SorteioIndividual.mk 1 1 1 3 (Some 7) None (Some 0) "token-da-ana")
                   db_ana_sorteou _ _ _)).
  - apply logged_in_get; [reflexivity | vm_compute; discriminate].
  - vm_compute. reflexivity.
  - cbn. discriminate.
Defined.

(** What any request does to a Draw row: it leaves it, or it is the reveal
    that stores it viewed once more. *)
Lemma handle_row s e r d :
  wf s -> In d (sorteios s) ->
  In d (sorteios (snd (handle e r s)))
  \/ exists n, SorteioIndividual.vezes_visualizado d = Some n
              /\ In (viewed d (utcnow e) (n + 1)) (sorteios (snd (handle e r s))).
Proof.
  intros W Hd. unfold handle.
  destruct r; cbn [dispatch];
    unfold register, criar_grupo, ver_grupo, entrar_grupo, tela_sorteio,
           realizar_sorteio_individual, ver_meu_sorteio, adicionar_sugestao,
           editar_sugestao, remover_sugestao, api_status_sorteio;
    view_unfold; view_cases; cbn [fst snd];
    try (left; solve [assumption | cbn; apply in_or_app; auto]).
  all: match goal with
       | H : SorteioIndividual_by_token _ _ = Some ?d0,
         Hr : SorteioIndividual.registrar_visualizacao_attrs _ ?d0 = Some ?d1 |- _ =>
           apply SorteioIndividual_by_token_Some in H as [Hd0 _];
           apply registrar_visualizacao_attrs_Some in Hr as (n & Hn & Hd1);
           destruct (Z.eq_dec (SorteioIndividual.id d) (SorteioIndividual.id d0))
             as [Heq|Hne];
           [ right; exists n;
             assert (d = d0) as ->
               by exact (NoDup_map_eq _ _ _ _ (wf_sorteio_id W) Hd Hd0 Heq);
             split; [assumption|];
             apply (update_sorteio_rows s d0 d1 _ (wf_sorteio_id W) Hd0);
             [subst d1; reflexivity | left; subst d1; reflexivity]
           | left;
             apply (update_sorteio_rows s d0 d1 d (wf_sorteio_id W) Hd0);
             [subst d1; reflexivity | right; split; [assumption | congruence]] ]
       end.
Qed.

(** No request removes a Draw row or changes its token. *)
Lemma handle_keeps_token s e r d :
  wf s -> In d (sorteios s) ->
  exists d', In d' (sorteios (snd (handle e r s)))
             /\ SorteioIndividual.id d' = SorteioIndividual.id d
             /\ SorteioIndividual.token_acesso d' = SorteioIndividual.token_acesso d.
Proof.
  intros W Hd. destruct (handle_row s e r d W Hd) as [H|(n & _ & H)].
  - exists d. auto.
  - exists (viewed d (utcnow e) (n + 1)). auto.
Qed.

(** C6. Along a run whose clock does not go back, for every Draw row: the
    reveal by its drawer answers the reveal page and stores the row with
    its view counter one higher and its last-viewed timestamp at the clock
    reading of the request, leaving every other row; the counter was not
    negative and the timestamp it replaces was not later; and whatever the
    next request is, the row is still there with a counter that is not
    lower and a last-viewed timestamp that is not earlier. *)
Theorem C6_view_is_recorded t s e d :
  reachable_at t s -> t <= utcnow e -> In d (sorteios s) ->
  exists n,
    SorteioIndividual.vezes_visualizado d = Some n /\ 0 <= n
    /\ (forall v, SorteioIndividual.ultima_visualizacao d = Some v -> v <= utcnow e)
    /\ (logged_in e (SorteioIndividual.usuario_id d) s ->
        revealed (fst (run (ver_meu_sorteio e (SorteioIndividual.token_acesso d)) s))
        /\ SorteioIndividual_by_token (SorteioIndividual.token_acesso d)
             (snd (run (ver_meu_sorteio e (SorteioIndividual.token_acesso d)) s))
           = Some (viewed d (utcnow e) (n + 1))
        /\ (forall x,
              In x (sorteios
                      (snd (run (ver_meu_sorteio e (SorteioIndividual.token_acesso d))
                                s)))
              <-> x = viewed d (utcnow e) (n + 1) \/ (In x (sorteios s) /\ x <> d)))
    /\ (forall r,
          exists d' n',
            In d' (sorteios (snd (handle e r s)))
            /\ SorteioIndividual.id d' = SorteioIndividual.id d
            /\ SorteioIndividual.vezes_visualizado d' = Some n' /\ n <= n'
            /\ (forall v, SorteioIndividual.ultima_visualizacao d = Some v ->
                   exists v', SorteioIndividual.ultima_visualizacao d' = Some v'
                              /\ v <= v')).
Proof.
  intros Hreach Ht Hd.
  pose proof (reachable_wf _ (reachable_at_reachable _ _ Hreach)) as W.
  pose proof (reachable_at_visto_ate _ _ Hreach) as V.
  destruct (wf_sorteio_vezes W d Hd) as (n & Hn & Hpos).
  assert (forall v, SorteioIndividual.ultima_visualizacao d = Some v -> v <= utcnow e)
    as Hprev by (intros v Hv; pose proof (V d v Hd Hv); lia).
  exists n. split; [assumption|]. split; [assumption|]. split; [assumption|]. split.
  - intros HU.
    pose proof (by_token_of_row s d W Hd) as Htok.
    destruct (Grupo_get_is_grupo _ _ (wf_sorteio_grupo W d Hd)) as (g & Hg).
    pose proof (ver_meu_sorteio_owner e _ d n g s HU Htok Hn Hg) as Hrun.
    assert (wf (update_sorteio (viewed d (utcnow e) (n + 1)) s)) as W'.
    { apply (wf_update_sorteio s d _ (utcnow e) W Hd).
      unfold SorteioIndividual.registrar_visualizacao_attrs. rewrite Hn. reflexivity. }
    assert (forall x, In x (sorteios (update_sorteio (viewed d (utcnow e) (n + 1)) s))
                      <-> x = viewed d (utcnow e) (n + 1)
                          \/ (In x (sorteios s) /\ x <> d)) as Hrows.
    { intros x. apply update_sorteio_rows; [apply (wf_sorteio_id W) | assumption |].
      reflexivity. }
    rewrite Hrun. cbn [fst snd].
    split; [unfold revealed; eauto|]. split; [|exact Hrows].
    apply (by_token_of_row _ (viewed d (utcnow e) (n + 1)) W').
    apply Hrows. left. reflexivity.
  - intros r. destruct (handle_row s e r d W Hd) as [H|(n0 & Hn0 & H)].
    + exists d, n. repeat split; try assumption; try lia.
      intros v Hv. exists v. split; [assumption | lia].
    + rewrite Hn in Hn0. injection Hn0 as <-.
      exists (viewed d (utcnow e) (n + 1)), (n + 1).
      repeat split; try assumption; try lia.
      intros v Hv. exists (utcnow e). split; [reflexivity | auto].
Qed.

Lemma C6_witness :
  reachable_at 7 db_ana_sorteou /\ 7 <= 9
  /\ SorteioIndividual_by_token "token-da-ana"
       (snd (run (ver_meu_sorteio (env_de (Some 1) 9 0 "" "") "token-da-ana")
                 db_ana_sorteou))
     = Some (SorteioIndividual.mk 1 1 1 3 (Some 7) (Some 9) (Some 1) "token-da-ana").
Proof.
  split; [exact db_ana_sorteou_reachable_at|]. split; [lia|].
  destruct (C6_view_is_recorded 7 db_ana_sorteou (env_de (Some 1) 9 0 "" "")
              (SorteioIndividual.mk 1 1 1 3 (Some 7) None (Some 0) "token-da-ana")
              db_ana_sorteou_reachable_at) as (n & Hn & _ & _ & Hview & _).
  - cbn. lia.
  - vm_compute. left. reflexivity.
  - cbn in Hn. injection Hn as <-.
    destruct Hview as (_ & Hrow & _); [|exact Hrow].
    apply logged_in_get; [reflexivity | vm_compute; discriminate].
Defined.

(** ** Claims on the access token *)

Lemma token_existsb_true tok l :
  In tok (map SorteioIndividual.token_acesso l) ->
  existsb (fun d => String.eqb (SorteioIndividual.token_acesso d) tok) l = true.
Proof.
  intros H. destruct (existsb _ l) eqn:E; [reflexivity|].
  apply token_existsb_false in E. contradiction.
Qed.

(** C7, as the code has it. In every database the application reaches the
    tokens of the Draw rows are pairwise distinct; no request removes a row
    or changes its token; a draw that succeeds stores the token generated
    in that request, which no stored row had; and a draw that passed the
    three checks with a generated token some row already holds is not
    retried: the unique constraint rejects the insert, the request ends in
    the integrity error and no row is written. *)
Theorem C7_tokens_unique_by_constraint s :
  reachable s ->
  NoDup (map SorteioIndividual.token_acesso (sorteios s))
  /\ (forall e r d, In d (sorteios s) ->
        exists d', In d' (sorteios (snd (handle e r s)))
                   /\ SorteioIndividual.id d' = SorteioIndividual.id d
                   /\ SorteioIndividual.token_acesso d'
                      = SorteioIndividual.token_acesso d)
  /\ (forall e G body s',
        run (realizar_sorteio_individual e G) s = (jsonify body 200, s') ->
        exists d, sorteios s' = (sorteios s ++ [d])%list
                  /\ SorteioIndividual.token_acesso d = token_urlsafe_32 e
                  /\ ~ In (token_urlsafe_32 e)
                          (map SorteioIndividual.token_acesso (sorteios s)))
  /\ (forall e U G,
        logged_in e U s -> is_grupo G s -> is_member U G s -> ~ has_drawn U G s ->
        pool U G s <> [] ->
        In (token_urlsafe_32 e) (map SorteioIndividual.token_acesso (sorteios s)) ->
        run (realizar_sorteio_individual e G) s
        = (InternalServerError IntegrityError, s)).
Proof.
  intros W%reachable_wf. split; [apply (wf_sorteio_token W)|].
  split; [intros e r d Hd; exact (handle_keeps_token s e r d W Hd)|]. split.
  - intros e G body s' H. apply realizar_success in H
      as (cur & m & amigo & _ & _ & _ & _ & _ & _ & _ & _ & Htok & _ & ->).
    eexists. split; [reflexivity|]. split; [reflexivity | assumption].
  - intros e U G HU HG HM HD Hp Htok.
    destruct (random_choice_nonempty e _ Hp) as (m & Hc & Hin).
    apply pool_In in Hin as (Hin & _ & _).
    destruct (User_get_is_user _ _ (wf_membro_usuario W m Hin)) as (amigo & Ha).
    rewrite (realizar_chosen e U G s m amigo HU HG HM HD Hc Ha).
    rewrite (token_existsb_true _ _ Htok). reflexivity.
Qed.

Lemma C7_witness :
  reachable db_ana_sorteou
  /\ NoDup (map SorteioIndividual.token_acesso (sorteios db_ana_sorteou)).
Proof.
  split; [exact db_ana_sorteou_reachable|].
  exact (proj1 (C7_tokens_unique_by_constraint db_ana_sorteou
                  db_ana_sorteou_reachable)).
Defined.

(** C7 as stated fails: Bia is a member who has not drawn, her pool is not
    empty, the generator hands her the token Ana's row holds, and the draw
    is neither given another token nor retried; it ends in the integrity
    error, with no Draw row for Bia. *)
Lemma C7_counterexample :
  reachable db_ana_sorteou
  /\ logged_in env_bia_colide 2 db_ana_sorteou
  /\ is_member 2 1 db_ana_sorteou
  /\ ~ has_drawn 2 1 db_ana_sorteou
  /\ pool 2 1 db_ana_sorteou <> []
  /\ run (realizar_sorteio_individual env_bia_colide 1) db_ana_sorteou
     = (InternalServerError IntegrityError, db_ana_sorteou)
  /\ ~ has_drawn 2 1
       (snd (run (realizar_sorteio_individual env_bia_colide 1) db_ana_sorteou)).
Proof.
  split; [exact db_ana_sorteou_reachable|].
  split; [apply logged_in_get; [reflexivity | vm_compute; discriminate]|].
  split; [apply is_member_first; vm_compute; discriminate|].
  split; [apply SorteioIndividual_first_None; vm_compute; reflexivity|].
  split; [vm_compute; discriminate|].
  split; [vm_compute; reflexivity|].
  apply SorteioIndividual_first_None. vm_compute. reflexivity.
Qed.

(** ** Claims on the status aggregator *)

Lemma status_json_linha s g m :
  wf s -> In m (membros s) ->
  exists j, status_json s (status_do_membro g s m) = Some j
            /\ linha_de (Grupo.id g) s m j
            /\ ja_sorteou_da_linha j = membro_sorteou (Grupo.id g) s m.
Proof.
  intros W Hm.
  destruct (User_get_is_user _ _ (wf_membro_usuario W m Hm)) as (usuario & Hu).
  unfold status_json, status_do_membro, membro_sorteou. cbn [st_membro].
  unfold membro_usuario. rewrite Hu.
  eexists. split; [reflexivity|]. split; [|reflexivity].
  exists usuario. do 3 eexists. split; [reflexivity|]. split; [assumption|].
  cbn [st_ja_sorteou st_data_sorteio st_amigo_sorteado].
  destruct (SorteioIndividual_first (MembroGrupo.usuario_id m) (Grupo.id g) s)
    as [d|] eqn:Ed.
  - pose proof (SorteioIndividual_first_Some _ _ _ _ Ed) as (Hd & Hdu & Hdg).
    destruct (wf_sorteio_data W d Hd) as (t0 & Ht0).
    destruct (User_get_is_user _ _ (wf_sorteio_amigo W d Hd)) as (amigo & Ha).
    unfold sorteio_amigo. rewrite Ht0, Ha. cbn [json_of_option].
    split; [|split; [|split]].
    + split; [intros _|reflexivity].
      unfold has_drawn. apply in_map_iff. exists d. split; [|assumption].
      unfold sorteio_par. congruence.
    + split; [reflexivity | discriminate].
    + split; [reflexivity | discriminate].
    + intros d' Hd' Hpar. assert (d' = d) as ->.
      { apply (NoDup_map_eq sorteio_par _ d' d (wf_sorteio_par W) Hd' Hd).
        rewrite Hpar. unfold sorteio_par. congruence. }
      exists amigo. rewrite Ht0. auto.
  - apply SorteioIndividual_first_None in Ed. cbn [json_of_option].
    split; [|split; [|split]].
    + split; [discriminate | contradiction].
    + split; [congruence | discriminate].
    + split; [congruence | discriminate].
    + intros d' Hd' Hpar. exfalso. apply Ed. unfold has_drawn. rewrite <- Hpar.
      now apply in_map.
Qed.

Lemma status_json_linhas s g ms :
  wf s -> (forall m, In m ms -> In m (membros s)) ->
  exists linhas,
    sequence_option (map (status_json s) (map (status_do_membro g s) ms)) = Some linhas
    /\ Forall2 (linha_de (Grupo.id g) s) ms linhas
    /\ List.length (filter ja_sorteou_da_linha linhas)
       = List.length (filter (membro_sorteou (Grupo.id g) s) ms).
Proof.
  intros W. induction ms as [|m ms IH]; intros Hms.
  - exists []. repeat split. constructor.
  - destruct IH as (linhas & Hseq & Hall & Hcount);
      [intros m' Hm'; apply Hms; now right|].
    destruct (status_json_linha s g m W (Hms m (or_introl eq_refl)))
      as (j & Hj & Hlinha & Hja).
    exists (j :: linhas). cbn [map sequence_option filter]. rewrite Hj, Hseq.
    split; [reflexivity|]. split; [now constructor|].
    rewrite Hja. destruct (membro_sorteou (Grupo.id g) s m); cbn [List.length]; lia.
Qed.

Lemma membros_do_grupo_NoDup s gid :
  wf s -> NoDup (map MembroGrupo.usuario_id (MembroGrupo_all gid s)).
Proof.
  intros W. pose proof (wf_membro_par W) as Hn. unfold MembroGrupo_all.
  induction (membros s) as [|m l IH]; cbn [filter map]; [constructor|].
  cbn [map] in Hn. inversion Hn as [|? ? Hm Hl]; subst.
  destruct (Z.eqb_spec (MembroGrupo.grupo_id m) gid) as [E|E]; [|auto].
  cbn [map]. constructor; [|auto].
  intros (m' & Hu & Hin)%in_map_iff. apply filter_In in Hin as [Hin Hg%Z.eqb_eq].
  apply Hm. apply in_map_iff. exists m'. split; [|assumption].
  unfold membro_par. congruence.
Qed.

(** C8. In every database the application reaches, the status API of a
    group refuses every logged-in user but the group's admin with 403, and
    gives the admin one line per Membership row of the group, in the order
    of the rows, no user appearing twice; a line has [ja_sorteou] true
    exactly when a Draw row of that member exists in the group, and its
    [data_sorteio] and [amigo_sorteado] are not null exactly when
    [ja_sorteou] is true, the latter being the recipient's name; the lines
    with [ja_sorteou] true are as many as the members who have drawn. In
    both cases the database is left as it was. *)
Theorem C8_group_draw_status s e U G g :
  reachable s -> logged_in e U s -> Grupo_get G s = Some g ->
  (U <> Grupo.admin_id g ->
     run (api_status_sorteio e G) s = (StatusForbidden, s)
     /\ status_code StatusForbidden = 403)
  /\ (U = Grupo.admin_id g ->
      exists linhas,
        run (api_status_sorteio e G) s
        = (StatusDocument g (List.length (MembroGrupo_all G s)) linhas, s)
        /\ Forall2 (linha_de G s) (MembroGrupo_all G s) linhas
        /\ NoDup (map MembroGrupo.usuario_id (MembroGrupo_all G s))
        /\ List.length linhas = List.length (MembroGrupo_all G s)
        /\ List.length (filter ja_sorteou_da_linha linhas)
           = List.length (filter (membro_sorteou G s) (MembroGrupo_all G s))).
Proof.
  intros W%reachable_wf HU Hg.
  pose proof (Grupo_get_Some _ _ _ Hg) as [_ Hgid]. split.
  - intros Hne. split; [|reflexivity].
    assert ((Grupo.admin_id g =? U) = false) as Hb by (apply Z.eqb_neq; congruence).
    unfold api_status_sorteio. run_logged HU. view_unfold.
    rewrite Hg. cbn beta iota. rewrite Hb. reflexivity.
  - intros Hadmin.
    destruct (status_json_linhas s g (MembroGrupo_all G s) W)
      as (linhas & Hseq & Hall & Hcount).
    { intros m Hm. apply MembroGrupo_all_In in Hm. tauto. }
    rewrite Hgid in Hall, Hcount.
    exists linhas. split; [|split; [assumption|split; [|split; [|assumption]]]].
    + assert ((Grupo.admin_id g =? U) = true) as Hb by (apply Z.eqb_eq; congruence).
      clear Hadmin. unfold api_status_sorteio. run_logged HU. view_unfold.
      rewrite Hg. cbn beta iota. rewrite Hb. cbn beta iota.
      unfold status_sorteio_membros. cbn [negb]. cbn beta iota.
      rewrite Hseq, length_map. reflexivity.
    + exact (membros_do_grupo_NoDup s G W).
    + symmetry. exact (Forall2_length Hall).
Qed.

Lemma C8_witness :
  reachable db_ana_sorteou
  /\ List.length (MembroGrupo_all 1 db_ana_sorteou) = 3%nat
  /\ List.length (filter (membro_sorteou 1 db_ana_sorteou)
                         (MembroGrupo_all 1 db_ana_sorteou)) = 1%nat
  /\ exists linhas,
       run (api_status_sorteio (env_de (Some 1) 9 0 "" "") 1) db_ana_sorteou
       = (StatusDocument (Grupo.mk 1 "Natal" "Amigo secreto" "NATAL" 1 (Some 4)) 3 linhas,
          db_ana_sorteou)
       /\ List.length linhas = 3%nat
       /\ List.length (filter ja_sorteou_da_linha linhas) = 1%nat.
Proof.
  split; [exact db_ana_sorteou_reachable|].
  split; [vm_compute; reflexivity|]. split; [vm_compute; reflexivity|].
  destruct (C8_group_draw_status db_ana_sorteou (env_de (Some 1) 9 0 "" "") 1 1
              (Grupo.mk 1 "Natal" "Amigo secreto" "NATAL" 1 (Some 4))
              db_ana_sorteou_reachable) as (_ & Hadmin).
  - apply logged_in_get; [reflexivity | vm_compute; discriminate].
  - vm_compute. reflexivity.
  - destruct (Hadmin eq_refl) as (linhas & Hrun & _ & _ & Hlen & Hcount).
    exists linhas. split; [exact Hrun|]. split; [exact Hlen | exact Hcount].
Defined.

(** ** What a request writes, table by table *)

Lemma existsb_eqb_false {A} (f : A -> string) k l :
  existsb (fun x => String.eqb (f x) k) l = false <-> ~ In k (map f l).
Proof.
  split.
  - intros H (x & <- & Hin)%in_map_iff.
    assert (existsb (fun y => String.eqb (f y) (f x)) l = true) as Ht.
    { apply existsb_exists. exists x. split; [assumption | apply String.eqb_refl]. }
    congruence.
  - intros H. destruct (existsb _ l) eqn:E; [|reflexivity].
    apply existsb_exists in E as (x & Hin & Heq%String.eqb_eq).
    exfalso. apply H. rewrite <- Heq. now apply in_map.
Qed.

Ltac handle_cases :=
  unfold handle;
  match goal with r : request |- _ => destruct r end; cbn [dispatch];
  unfold register, criar_grupo, ver_grupo, entrar_grupo, tela_sorteio,
         realizar_sorteio_individual, ver_meu_sorteio, adicionar_sugestao,
         editar_sugestao, remover_sugestao, api_status_sorteio;
  view_unfold; view_cases; cbn [fst snd].

Lemma handle_users e r s :
  users (snd (handle e r s)) = users s
  \/ exists email nome password,
       r = POST_register email nome password
       /\ ~ In email (map User.email (users s))
       /\ users (snd (handle e r s))
          = (users s ++ [User.mk (next_id (map User.id (users s))) email
                           (generate_password_hash e password) nome
                           (Some (utcnow e))])%list.
Proof.
  handle_cases; try (left; reflexivity).
  right. do 3 eexists. split; [reflexivity|]. split; [|reflexivity].
  now apply existsb_eqb_false.
Qed.

Lemma handle_grupos e r s :
  grupos (snd (handle e r s)) = grupos s
  \/ exists current_user nome descricao,
       r = POST_criar_grupo nome descricao
       /\ session_user_id e = Some (User.id current_user)
       /\ In current_user (users s)
       /\ ~ In (codigo_gerado e) (map Grupo.codigo_acesso (grupos s))
       /\ grupos (snd (handle e r s))
          = (grupos s ++ [Grupo.mk (next_id (map Grupo.id (grupos s))) nome descricao
                            (codigo_gerado e) (User.id current_user)
                            (Some (utcnow e))])%list
       /\ membros (snd (handle e r s))
          = (membros s ++ [MembroGrupo.mk (next_id (map MembroGrupo.id (membros s)))
                             (User.id current_user)
                             (next_id (map Grupo.id (grupos s)))
                             (Some (utcnow e))])%list.
Proof.
  handle_cases; try (left; reflexivity).
  right.
  match goal with H : User_get ?z _ = Some ?u |- _ =>
    apply User_get_Some in H as [Hin Hz]; subst z; exists u end.
  do 2 eexists. split; [reflexivity|]. split; [reflexivity|]. split; [assumption|].
  split; [now apply existsb_eqb_false|]. split; reflexivity.
Qed.

Lemma handle_membros e r s :
  membros (snd (handle e r s)) = membros s
  \/ exists row,
       membros (snd (handle e r s)) = (membros s ++ [row])%list
       /\ MembroGrupo.id row = next_id (map MembroGrupo.id (membros s))
       /\ session_user_id e = Some (MembroGrupo.usuario_id row)
       /\ is_user (MembroGrupo.usuario_id row) s.
Proof.
  handle_cases; try (left; reflexivity).
  all: right; eexists; split; [reflexivity|]; split; [reflexivity|];
    cbn [MembroGrupo.usuario_id];
    match goal with H : User_get ?z _ = Some ?u |- _ =>
      pose proof (User_get_user _ _ _ H); apply User_get_Some in H as [Hin Hz];
      subst z end;
    split; [reflexivity | assumption].
Qed.

Lemma handle_sorteios e r s d' :
  In d' (sorteios (snd (handle e r s))) ->
  (exists d, In d (sorteios s)
             /\ SorteioIndividual.usuario_id d' = SorteioIndividual.usuario_id d
             /\ SorteioIndividual.grupo_id d' = SorteioIndividual.grupo_id d
             /\ SorteioIndividual.amigo_sorteado_id d'
                = SorteioIndividual.amigo_sorteado_id d)
  \/ (is_member (SorteioIndividual.usuario_id d') (SorteioIndividual.grupo_id d') s
      /\ is_member (SorteioIndividual.amigo_sorteado_id d')
                   (SorteioIndividual.grupo_id d') s).
Proof.
  handle_cases; intros Hd'; try (left; exists d'; auto; fail).
  - apply in_app_or in Hd' as [Hd'|[<-|[]]]; [left; exists d'; auto|].
    right. cbn.
    match goal with H : random_choice _ _ = Some (Some _) |- _ =>
      apply participantes_chosen in H as (m & Hm & _ & _ & Hid) end.
    apply MembroGrupo_all_In in Hm as [Hm Hg].
    split.
    + apply is_member_first. congruence.
    + unfold is_member. apply in_map_iff. exists m. split; [|assumption].
      unfold membro_par. congruence.
  - apply update_sorteio_In in Hd' as [->|Hd']; [|left; exists d'; auto].
    match goal with
    | H : SorteioIndividual_by_token _ _ = Some ?d0,
      Hr : SorteioIndividual.registrar_visualizacao_attrs _ ?d0 = Some _ |- _ =>
        apply SorteioIndividual_by_token_Some in H as [Hd0 _];
        apply registrar_visualizacao_attrs_Some in Hr as (n & _ & ->);
        left; exists d0; auto
    end.
  - apply update_sorteio_In in Hd' as [->|Hd']; [|left; exists d'; auto].
    match goal with
    | H : SorteioIndividual_by_token _ _ = Some ?d0,
      Hr : SorteioIndividual.registrar_visualizacao_attrs _ ?d0 = Some _ |- _ =>
        apply SorteioIndividual_by_token_Some in H as [Hd0 _];
        apply registrar_visualizacao_attrs_Some in Hr as (n & _ & ->);
        left; exists d0; auto
    end.
Qed.

Lemma handle_sugestoes e r s :
  sugestoes (snd (handle e r s)) = sugestoes s
  \/ (exists row,
        sugestoes (snd (handle e r s)) = (sugestoes s ++ [row])%list
        /\ SugestaoPresente.id row = next_id (map SugestaoPresente.id (sugestoes s))
        /\ is_member (SugestaoPresente.usuario_id row)
                     (SugestaoPresente.grupo_id row) s)
  \/ (exists x x',
        In x (sugestoes s)
        /\ SugestaoPresente.id x' = SugestaoPresente.id x
        /\ SugestaoPresente.usuario_id x' = SugestaoPresente.usuario_id x
        /\ SugestaoPresente.grupo_id x' = SugestaoPresente.grupo_id x
        /\ sugestoes (snd (handle e r s)) = sugestoes (update_sugestao x' s))
  \/ (exists x,
        In x (sugestoes s)
        /\ sugestoes (snd (handle e r s)) = sugestoes (delete_sugestao x s)).
Proof.
  handle_cases; try (left; reflexivity).
  - right. left. eexists. split; [reflexivity|]. split; [reflexivity|].
    cbn. apply is_member_first. congruence.
  - right. right. left.
    match goal with
    | H : SugestaoPresente_get _ _ = Some ?x |- context [update_sugestao ?x' s] =>
        apply find_id_Some in H as [Hin _]; exists x, x'
    end.
    repeat split; assumption.
  - right. right. left.
    match goal with
    | H : SugestaoPresente_get _ _ = Some ?x |- context [update_sugestao ?x' s] =>
        apply find_id_Some in H as [Hin _]; exists x, x'
    end.
    repeat split; assumption.
  - right. right. right.
    match goal with H : SugestaoPresente_get _ _ = Some ?x |- _ =>
      apply find_id_Some in H as [Hin _]; exists x end.
    split; [assumption | reflexivity].
Qed.

Lemma is_member_persists e r s uid gid :
  is_member uid gid s -> is_member uid gid (snd (handle e r s)).
Proof.
  unfold is_member. intros H.
  destruct (handle_membros e r s) as [->|(row & -> & _)]; [assumption|].
  rewrite map_app. apply in_or_app. now left.
Qed.

Lemma NoDup_map_filter {A B} (f : A -> B) (p : A -> bool) l :
  NoDup (map f l) -> NoDup (map f (filter p l)).
Proof.
  induction l as [|a l IH]; cbn [map filter]; [auto|].
  intros H. inversion H as [|? ? Ha Hl]; subst.
  destruct (p a); [|auto]. cbn [map]. constructor; [|auto].
  intros (x & Hx & Hin)%in_map_iff. apply filter_In in Hin as [Hin _].
  apply Ha. rewrite <- Hx. now apply in_map.
Qed.

Lemma update_sugestao_ids x' s :
  map SugestaoPresente.id (sugestoes (update_sugestao x' s))
  = map SugestaoPresente.id (sugestoes s).
Proof.
  cbn [update_sugestao sugestoes]. rewrite map_map. apply map_ext. intros x.
  destruct (Z.eqb_spec (SugestaoPresente.id x) (SugestaoPresente.id x')); congruence.
Qed.

(** ** Every request keeps the keys and the links *)

Lemma handle_chaves e r s : wf s -> chaves s -> chaves (snd (handle e r s)).
Proof.
  intros W C. constructor.
  - destruct (handle_users e r s) as [->|(? & ? & ? & _ & _ & ->)];
      [apply (ch_user_id C)|].
    rewrite map_app. apply NoDup_snoc; [apply (ch_user_id C) | apply next_id_fresh].
  - destruct (handle_users e r s) as [->|(? & ? & ? & _ & Hn & ->)];
      [apply (ch_user_email C)|].
    rewrite map_app. apply NoDup_snoc; [apply (ch_user_email C) | exact Hn].
  - destruct (handle_grupos e r s) as [->|(? & ? & ? & _ & _ & _ & _ & -> & _)];
      [apply (ch_grupo_id C)|].
    rewrite map_app. apply NoDup_snoc; [apply (ch_grupo_id C) | apply next_id_fresh].
  - destruct (handle_grupos e r s) as [->|(? & ? & ? & _ & _ & _ & Hn & -> & _)];
      [apply (ch_grupo_codigo C)|].
    rewrite map_app. apply NoDup_snoc; [apply (ch_grupo_codigo C) | exact Hn].
  - destruct (handle_membros e r s) as [->|(row & -> & Hid & _)];
      [apply (ch_membro_id C)|].
    rewrite map_app. apply NoDup_snoc; [apply (ch_membro_id C)|].
    cbn [map]. rewrite Hid. apply next_id_fresh.
  - destruct (handle_sugestoes e r s)
      as [->|[(row & -> & Hid & _)|[(x & x' & _ & _ & _ & _ & ->)|(x & _ & ->)]]].
    + apply (ch_sugestao_id C).
    + rewrite map_app. apply NoDup_snoc; [apply (ch_sugestao_id C)|].
      cbn [map]. rewrite Hid. apply next_id_fresh.
    + rewrite update_sugestao_ids. apply (ch_sugestao_id C).
    + apply NoDup_map_filter, (ch_sugestao_id C).
  - intros g Hg.
    destruct (handle_grupos e r s)
      as [Hsame|(cur & nome & descricao & _ & _ & _ & _ & Hgs & Hms)].
    + rewrite Hsame in Hg. apply is_member_persists, (ch_admin_membro C), Hg.
    + rewrite Hgs in Hg. apply in_app_or in Hg as [Hg|[<-|[]]].
      * apply is_member_persists, (ch_admin_membro C), Hg.
      * unfold is_member. rewrite Hms, map_app. apply in_or_app. right. now left.
  - intros d' Hd'.
    destruct (handle_sorteios e r s d' Hd') as [(d & Hd & -> & -> & ->)|[H1 H2]].
    + destruct (ch_sorteio_membros C d Hd) as [H1 H2].
      split; now apply is_member_persists.
    + split; now apply is_member_persists.
  - intros x' Hx'. 
    destruct (handle_sugestoes e r s)
      as [Hs|[(row & Hs & _ & Hm)|[(x & x1 & Hx & _ & Hu & Hg & Hs)|(x & _ & Hs)]]];
      rewrite Hs in Hx'.
    + apply is_member_persists, (ch_sugestao_membro C), Hx'.
    + apply in_app_or in Hx' as [Hx'|[<-|[]]];
        [apply is_member_persists, (ch_sugestao_membro C), Hx'
        | now apply is_member_persists].
    + cbn [update_sugestao sugestoes] in Hx'.
      apply in_map_iff in Hx' as (y & Hy & Hin).
      destruct (SugestaoPresente.id y =? SugestaoPresente.id x1); subst x'.
      * rewrite Hu, Hg. apply is_member_persists, (ch_sugestao_membro C), Hx.
      * apply is_member_persists, (ch_sugestao_membro C), Hin.
    + cbn [delete_sugestao sugestoes] in Hx'. apply filter_In in Hx' as [Hx' _].
      apply is_member_persists, (ch_sugestao_membro C), Hx'.
Qed.

Lemma empty_db_chaves : chaves empty_db.
Proof. constructor; simpl; try constructor; intros; contradiction. Qed.

Lemma reachable_chaves s : reachable s -> chaves s.
Proof.
  induction 1 as [| s e r Hs IH].
  - apply empty_db_chaves.
  - apply handle_chaves; [now apply reachable_wf | assumption].
Qed.

Lemma db_com_sugestoes_reachable : reachable db_com_sugestoes.
Proof.
  unfold db_com_sugestoes.
  generalize db_ana_sorteou_reachable. generalize db_ana_sorteou.
  induction pedidos_sugestoes as [|[e r] l IH]; intros s Hs; [exact Hs|].
  cbn [run_requests fold_left]. apply IH. now apply reach_step.
Qed.

Lemma db_grupo_formado_reachable : reachable db_grupo_formado.
Proof. exact (reachable_at_reachable 6 _ db_grupo_formado_reachable_at). Qed.

(** ** Registration and the user table *)

Lemma User_by_email_None email s :
  User_by_email email s = None <-> ~ In email (map User.email (users s)).
Proof.
  unfold User_by_email. split.
  - intros H (u & <- & Hin)%in_map_iff.
    pose proof (find_none _ _ H _ Hin) as Hb. cbn in Hb.
    rewrite String.eqb_refl in Hb. discriminate.
  - intros H. destruct (find _ (users s)) as [u|] eqn:E; [|reflexivity].
    apply find_some in E as [Hin Heq%String.eqb_eq].
    exfalso. apply H. rewrite <- Heq. now apply in_map.
Qed.

(** X1. In every database the application reaches, the e-mails of the
    users are pairwise distinct and so are their ids. Registering an e-mail
    that is taken writes nothing and sends back to the form with the error
    flash; registering a new one appends the user row, with the next id and
    the hash of the password, and sends to the login page. *)
Theorem X1_register_unique_email s e email nome password :
  reachable s ->
  NoDup (map User.email (users s))
  /\ NoDup (map User.id (users s))
  /\ (In email (map User.email (users s)) ->
      run (register e email nome password) s
      = (redirect (Some ("Email já cadastrado!", "error")) url_for_register, s))
  /\ (~ In email (map User.email (users s)) ->
      run (register e email nome password) s
      = (redirect (Some ("Cadastro realizado com sucesso! Faça login.", "success"))
                  url_for_login,
         mkDb (users s ++ [User.mk (next_id (map User.id (users s))) email
                             (generate_password_hash e password) nome
                             (Some (utcnow e))])%list
              (grupos s) (membros s) (sorteios s) (sugestoes s))).
Proof.
  intros C%reachable_chaves.
  split; [apply (ch_user_email C)|]. split; [apply (ch_user_id C)|]. split.
  - intros Hin. unfold register. view_unfold.
    destruct (User_by_email email s) eqn:E; [reflexivity|].
    apply User_by_email_None in E. contradiction.
  - intros Hn. unfold register. view_unfold.
    rewrite (proj2 (User_by_email_None email s) Hn).
    rewrite (proj2 (existsb_eqb_false User.email email (users s)) Hn). reflexivity.
Qed.

Lemma X1_witness :
  reachable db_grupo_formado
  /\ run (register (env_de None 7 0 "" "") "ana@example.org" "Outra Ana" "x")
         db_grupo_formado
     = (redirect (Some ("Email já cadastrado!", "error")) url_for_register,
        db_grupo_formado).
Proof.
  split; [exact db_grupo_formado_reachable|].
  apply (X1_register_unique_email db_grupo_formado (env_de None 7 0 "" "")
           "ana@example.org" "Outra Ana" "x" db_grupo_formado_reachable).
  vm_compute. left. reflexivity.
Defined.

(** ** Groups and memberships *)

Lemma find_eqb_str_snoc {A} (f : A -> string) k l x :
  ~ In k (map f l) -> f x = k ->
  find (fun y => String.eqb (f y) k) (l ++ [x]) = Some x.
Proof.
  intros Hn Hx. apply find_snoc.
  - destruct (find _ l) as [y|] eqn:E; [|reflexivity].
    apply find_some in E as [Hin Heq%String.eqb_eq].
    exfalso. apply Hn. rewrite <- Heq. now apply in_map.
  - rewrite Hx. apply String.eqb_refl.
Qed.

Lemma Grupo_by_codigo_Some_iff s c g :
  NoDup (map Grupo.codigo_acesso (grupos s)) ->
  Grupo_by_codigo c s = Some g <-> In g (grupos s) /\ Grupo.codigo_acesso g = c.
Proof.
  intros Hn. unfold Grupo_by_codigo. split.
  - intros H. apply find_some in H as [Hin Heq%String.eqb_eq]. auto.
  - intros [Hin Hc]. destruct (find _ (grupos s)) as [g0|] eqn:E.
    + apply find_some in E as [Hin0 Heq%String.eqb_eq]. f_equal.
      apply (NoDup_map_eq Grupo.codigo_acesso _ g0 g Hn Hin0 Hin). congruence.
    + pose proof (find_none _ _ E _ Hin) as Hb. cbn in Hb.
      rewrite Hc, String.eqb_refl in Hb. discriminate.
Qed.

Lemma Grupo_get_Some_iff s i g :
  NoDup (map Grupo.id (grupos s)) ->
  Grupo_get i s = Some g <-> In g (grupos s) /\ Grupo.id g = i.
Proof.
  intros Hn. split; [apply Grupo_get_Some|].
  intros [Hin Hi]. destruct (Grupo_get_is_grupo i s) as (g0 & Hg0); [exists g; auto|].
  rewrite Hg0. f_equal. apply Grupo_get_Some in Hg0 as [Hin0 Hi0].
  apply (NoDup_map_eq Grupo.id _ g0 g Hn Hin0 Hin). congruence.
Qed.

(** X4. In every database the application reaches, the ids of the groups
    are pairwise distinct and so are their access codes: the lookup by
    access code, used to join, and the lookup by id, used by every group
    route, each find a group exactly when it is the stored group with that
    code, respectively that id. *)
Theorem X4_group_keys_identify s :
  reachable s ->
  NoDup (map Grupo.id (grupos s))
  /\ NoDup (map Grupo.codigo_acesso (grupos s))
  /\ (forall c g, Grupo_by_codigo c s = Some g
                  <-> In g (grupos s) /\ Grupo.codigo_acesso g = c)
  /\ (forall i g, Grupo_get i s = Some g <-> In g (grupos s) /\ Grupo.id g = i).
Proof.
  intros C%reachable_chaves.
  split; [apply (ch_grupo_id C)|]. split; [apply (ch_grupo_codigo C)|]. split.
  - intros c g. apply Grupo_by_codigo_Some_iff, (ch_grupo_codigo C).
  - intros i g. apply Grupo_get_Some_iff, (ch_grupo_id C).
Qed.

Lemma X4_witness :
  reachable db_grupo_formado
  /\ Grupo_by_codigo "NATAL" db_grupo_formado
     = Some (Grupo.mk 1 "Natal" "Amigo secreto" "NATAL" 1 (Some 4)).
Proof.
  split; [exact db_grupo_formado_reachable|].
  apply (proj1 (proj2 (proj2 (X4_group_keys_identify db_grupo_formado
                                db_grupo_formado_reachable)))).
  split; [vm_compute; left; reflexivity | reflexivity].
Defined.

Lemma entrar_grupo_ja_membro e U codigo g s :
  logged_in e U s -> Grupo_by_codigo codigo s = Some g ->
  is_member U (Grupo.id g) s ->
  run (entrar_grupo e codigo) s
  = (redirect (Some ("Você já é membro deste grupo!", "warning"))
              (url_for_ver_grupo (Grupo.id g)), s).
Proof.
  intros HU Hg (m & Hm)%MembroGrupo_first_member.
  unfold entrar_grupo. run_logged HU. view_unfold. rewrite Hg. cbn beta iota.
  rewrite Hm. reflexivity.
Qed.

(** X2. For a logged-in user, joining by access code: a code of no group
    writes nothing and flashes the error; the code of a group the user is
    already in writes nothing and flashes the warning; otherwise exactly
    one Membership row of the user in that group is appended, after which
    the user is a member and joining again with the same code writes
    nothing. *)
Theorem X2_join_group_once e U codigo s :
  logged_in e U s ->
  (Grupo_by_codigo codigo s = None ->
     run (entrar_grupo e codigo) s
     = (redirect (Some ("Código inválido!", "error")) url_for_dashboard, s))
  /\ (forall g, Grupo_by_codigo codigo s = Some g ->
        (is_member U (Grupo.id g) s ->
           run (entrar_grupo e codigo) s
           = (redirect (Some ("Você já é membro deste grupo!", "warning"))
                       (url_for_ver_grupo (Grupo.id g)), s))
        /\ (~ is_member U (Grupo.id g) s ->
            exists s',
              s' = mkDb (users s) (grupos s)
                     (membros s ++ [MembroGrupo.mk
                                      (next_id (map MembroGrupo.id (membros s)))
                                      U (Grupo.id g) (Some (utcnow e))])%list
                     (sorteios s) (sugestoes s)
              /\ run (entrar_grupo e codigo) s
                 = (redirect (Some ("Você entrou no grupo com sucesso!", "success"))
                             (url_for_ver_grupo (Grupo.id g)), s')
              /\ is_member U (Grupo.id g) s'
              /\ forall e', session_user_id e' = Some U ->
                   run (entrar_grupo e' codigo) s'
                   = (redirect (Some ("Você já é membro deste grupo!", "warning"))
                               (url_for_ver_grupo (Grupo.id g)), s'))).
Proof.
  intros HU. split; [|intros g Hg; split].
  - intros Hn. unfold entrar_grupo. run_logged HU. view_unfold. rewrite Hn.
    reflexivity.
  - now apply entrar_grupo_ja_membro.
  - intros Hm. eexists. split; [reflexivity|].
    assert (is_member U (Grupo.id g)
              (mkDb (users s) (grupos s)
                 (membros s ++ [MembroGrupo.mk
                                  (next_id (map MembroGrupo.id (membros s)))
                                  U (Grupo.id g) (Some (utcnow e))])%list
                 (sorteios s) (sugestoes s))) as Hm'.
    { unfold is_member. cbn [membros]. rewrite map_app. apply in_or_app.
      right. left. reflexivity. }
    split; [|split; [exact Hm'|]].
    + apply MembroGrupo_first_None in Hm.
      unfold entrar_grupo. run_logged HU. view_unfold. rewrite Hg. cbn beta iota.
      rewrite Hm. reflexivity.
    + intros e' He'. apply (entrar_grupo_ja_membro e' U codigo g); [|exact Hg|exact Hm'].
      split; [exact He' | exact (proj2 HU)].
Qed.

Lemma X2_witness :
  logged_in (env_de (Some 2) 9 0 "" "") 2 db_grupo_formado
  /\ run (entrar_grupo (env_de (Some 2) 9 0 "" "") "NATAL") db_grupo_formado
     = (redirect (Some ("Você já é membro deste grupo!", "warning"))
                 (url_for_ver_grupo 1), db_grupo_formado).
Proof.
  assert (logged_in (env_de (Some 2) 9 0 "" "") 2 db_grupo_formado) as HU
    by (apply logged_in_get; [reflexivity | vm_compute; discriminate]).
  split; [exact HU|].
  apply (proj2 (X2_join_group_once (env_de (Some 2) 9 0 "" "") 2 "NATAL"
                  db_grupo_formado HU)
               (Grupo.mk 1 "Natal" "Amigo secreto" "NATAL" 1 (Some 4)) eq_refl).
  apply is_member_first. vm_compute. discriminate.
Defined.

Lemma filter_nil_iff {A} (p : A -> bool) l :
  (forall x, In x l -> p x = false) -> filter p l = [].
Proof.
  induction l as [|a l IH]; cbn [filter]; [reflexivity|]. intros H.
  rewrite (H a (or_introl eq_refl)). apply IH. intros x Hx. apply H. now right.
Qed.

(** X3. In every database the application reaches, the admin of every
    group is a user and holds a Membership row of that group. Creating a
    group, for a logged-in user: when the generated access code is taken
    the unique constraint rejects the group, the request ends in the
    integrity error and nothing is written; otherwise the group is stored
    with the user as admin and the generated code, and the creator's
    Membership row is stored with it, the creator being the group's only
    member. *)
Theorem X3_creator_is_admin_and_member s :
  reachable s ->
  (forall g, In g (grupos s) ->
     is_member (Grupo.admin_id g) (Grupo.id g) s /\ is_user (Grupo.admin_id g) s)
  /\ (forall e U nome descricao,
        logged_in e U s ->
        (In (codigo_gerado e) (map Grupo.codigo_acesso (grupos s)) ->
           run (criar_grupo e nome descricao) s
           = (InternalServerError IntegrityError, s))
        /\ (~ In (codigo_gerado e) (map Grupo.codigo_acesso (grupos s)) ->
            exists g m s',
              g = Grupo.mk (next_id (map Grupo.id (grupos s))) nome descricao
                    (codigo_gerado e) U (Some (utcnow e))
              /\ m = MembroGrupo.mk (next_id (map MembroGrupo.id (membros s))) U
                       (Grupo.id g) (Some (utcnow e))
              /\ s' = mkDb (users s) (grupos s ++ [g])%list (membros s ++ [m])%list
                        (sorteios s) (sugestoes s)
              /\ run (criar_grupo e nome descricao) s
                 = (redirect (Some ("Grupo criado com sucesso!", "success"))
                             (url_for_ver_grupo (Grupo.id g)), s')
              /\ Grupo_by_codigo (codigo_gerado e) s' = Some g
              /\ MembroGrupo_all (Grupo.id g) s' = [m])).
Proof.
  intros R. pose proof (reachable_wf s R) as W. pose proof (reachable_chaves s R) as C.
  split.
  - intros g Hg. pose proof (ch_admin_membro C g Hg) as Hm. split; [exact Hm|].
    unfold is_member in Hm. apply in_map_iff in Hm as (m & Hpar & Hin).
    injection Hpar as <- _. exact (wf_membro_usuario W m Hin).
  - intros e U nome descricao HU. split.
    + intros Hin. unfold criar_grupo. run_logged HU. view_unfold.
      destruct (existsb _ (grupos s)) eqn:E; [reflexivity|].
      apply existsb_eqb_false in E. contradiction.
    + intros Hn. do 3 eexists. split; [reflexivity|]. split; [reflexivity|].
      split; [reflexivity|]. split; [|split].
      * unfold criar_grupo. run_logged HU. view_unfold.
        rewrite (proj2 (existsb_eqb_false Grupo.codigo_acesso _ (grupos s)) Hn).
        reflexivity.
      * unfold Grupo_by_codigo. cbn [grupos].
        apply find_eqb_str_snoc; [exact Hn | reflexivity].
      * unfold MembroGrupo_all. cbn [membros Grupo.id]. rewrite filter_app.
        rewrite filter_nil_iff.
        -- cbn. rewrite Z.eqb_refl. reflexivity.
        -- intros m Hm. apply Z.eqb_neq. intros Heq.
           destruct (wf_membro_grupo W m Hm) as (g & Hg & Hid).
           pose proof (next_id_above (map Grupo.id (grupos s)) (Grupo.id g)
                         (in_map Grupo.id _ _ Hg)). lia.
Qed.

Lemma X3_witness :
  reachable db_grupo_formado
  /\ is_member 1 1 db_grupo_formado
  /\ run (criar_grupo (env_de (Some 2) 9 0 "" "NATAL") "Outro" "") db_grupo_formado
     = (InternalServerError IntegrityError, db_grupo_formado).
Proof.
  split; [exact db_grupo_formado_reachable|].
  destruct (X3_creator_is_admin_and_member db_grupo_formado db_grupo_formado_reachable)
    as [Hadmin Hcriar].
  split.
  - apply (Hadmin (Grupo.mk 1 "Natal" "Amigo secreto" "NATAL" 1 (Some 4))).
    vm_compute. left. reflexivity.
  - apply (Hcriar (env_de (Some 2) 9 0 "" "NATAL") 2 "Outro" "").
    + apply logged_in_get; [reflexivity | vm_compute; discriminate].
    + vm_compute. left. reflexivity.
Defined.

Lemma MembroGrupo_all_step e r s gid :
  MembroGrupo_all gid (snd (handle e r s)) = MembroGrupo_all gid s
  \/ exists row, MembroGrupo_all gid (snd (handle e r s))
                 = (MembroGrupo_all gid s ++ [row])%list.
Proof.
  unfold MembroGrupo_all.
  destruct (handle_membros e r s) as [->|(row & -> & _)]; [now left|].
  rewrite filter_app. cbn [filter].
  destruct (MembroGrupo.grupo_id row =? gid).
  - right. eauto.
  - left. apply app_nil_r.
Qed.

(** X5. [total_participantes] of a group counts its Membership rows: it is
    the number of lines of the group's draw status; in every database the
    application reaches these rows are of pairwise distinct users and, for
    a stored group, at least one (the admin's); and no request lowers the
    count or raises it by more than one. *)
Theorem X5_total_participantes s g :
  reachable s ->
  total_participantes g s = List.length (status_sorteio_membros g s)
  /\ NoDup (map MembroGrupo.usuario_id (MembroGrupo_all (Grupo.id g) s))
  /\ (In g (grupos s) -> (1 <= total_participantes g s)%nat)
  /\ (forall e r,
        (total_participantes g s <= total_participantes g (snd (handle e r s))
         <= S (total_participantes g s))%nat).
Proof.
  intros R. pose proof (reachable_wf s R) as W. pose proof (reachable_chaves s R) as C.
  split; [|split; [|split]].
  - unfold total_participantes, status_sorteio_membros. now rewrite length_map.
  - apply (membros_do_grupo_NoDup s (Grupo.id g) W).
  - intros Hg. pose proof (ch_admin_membro C g Hg) as Hm.
    apply in_map_iff in Hm as (m & Hpar & Hin). injection Hpar as _ Hgid.
    assert (In m (MembroGrupo_all (Grupo.id g) s)) as Hall
      by (apply MembroGrupo_all_In; auto).
    unfold total_participantes.
    destruct (MembroGrupo_all (Grupo.id g) s); [destruct Hall | cbn; lia].
  - intros e r. unfold total_participantes.
    destruct (MembroGrupo_all_step e r s (Grupo.id g)) as [->|(row & ->)].
    + lia.
    + rewrite length_app. cbn. lia.
Qed.

Lemma X5_witness :
  reachable db_grupo_formado
  /\ total_participantes (Grupo.mk 1 "Natal" "Amigo secreto" "NATAL" 1 (Some 4))
       db_grupo_formado = 3%nat
  /\ NoDup (map MembroGrupo.usuario_id (MembroGrupo_all 1 db_grupo_formado)).
Proof.
  split; [exact db_grupo_formado_reachable|]. split; [vm_compute; reflexivity|].
  exact (proj1 (proj2 (X5_total_participantes db_grupo_formado
                         (Grupo.mk 1 "Natal" "Amigo secreto" "NATAL" 1 (Some 4))
                         db_grupo_formado_reachable))).
Defined.

(** ** The draw screen and the group page *)

Lemma tela_sorteio_run e U G g s :
  logged_in e U s -> Grupo_get G s = Some g ->
  run (tela_sorteio e G) s
  = (match MembroGrupo_first U G s with
     | None => redirect (Some ("Você não é membro deste grupo!", "error"))
                        url_for_dashboard
     | Some _ =>
         match SorteioIndividual_first U G s with
         | Some d => redirect None
                       (url_for_ver_meu_sorteio (SorteioIndividual.token_acesso d))
         | None =>
             match pool U G s with
             | [] => redirect
                       (Some ("Não há participantes suficientes para sortear!",
                              "error"))
                       (url_for_ver_grupo G)
             | _ :: _ =>
                 render_template
                   (sorteio_tela_html g (map (membro_usuario s) (pool U G s)))
             end
         end
     end, s).
Proof.
  intros HU Hg. unfold tela_sorteio. run_logged HU. view_unfold. rewrite Hg.
  cbn beta iota.
  destruct (MembroGrupo_first (User.id current_user) G s); [|reflexivity].
  destruct (SorteioIndividual_first (User.id current_user) G s); [reflexivity|].
  cbn beta iota. rewrite participantes_pool.
  destruct (pool (User.id current_user) G s); reflexivity.
Qed.

(** X6. The draw screen makes the checks of the draw itself, in the same
    order, and writes nothing: for a logged-in user and a stored group it
    redirects a non-member to the dashboard, a member who has drawn to the
    reveal of the stored token, a member with an empty pool to the group
    page, and otherwise renders the screen with the users of the pool.
    So the screen is rendered exactly when the draw passes its three
    checks, and the recipient of a draw that succeeds is one of the
    participants the screen lists. *)
Theorem X6_draw_screen_agrees_with_draw e U G g s :
  logged_in e U s -> Grupo_get G s = Some g ->
  snd (run (tela_sorteio e G) s) = s
  /\ (~ is_member U G s ->
      fst (run (tela_sorteio e G) s)
      = redirect (Some ("Você não é membro deste grupo!", "error")) url_for_dashboard)
  /\ (forall d, is_member U G s -> SorteioIndividual_first U G s = Some d ->
      fst (run (tela_sorteio e G) s)
      = redirect None (url_for_ver_meu_sorteio (SorteioIndividual.token_acesso d)))
  /\ (is_member U G s -> ~ has_drawn U G s -> pool U G s = [] ->
      fst (run (tela_sorteio e G) s)
      = redirect (Some ("Não há participantes suficientes para sortear!", "error"))
                 (url_for_ver_grupo G))
  /\ ((exists p, fst (run (tela_sorteio e G) s) = render_template p)
      <-> is_member U G s /\ ~ has_drawn U G s /\ pool U G s <> [])
  /\ (is_member U G s -> ~ has_drawn U G s -> pool U G s <> [] ->
      fst (run (tela_sorteio e G) s)
      = render_template (sorteio_tela_html g (map (membro_usuario s) (pool U G s))))
  /\ (forall e' body s',
        session_user_id e' = Some U ->
        run (realizar_sorteio_individual e' G) s = (jsonify body 200, s') ->
        exists amigo,
          In (Some amigo) (map (membro_usuario s) (pool U G s))
          /\ jsonify body 200 = DrawResult amigo (token_urlsafe_32 e')).
Proof.
  intros HU Hg. rewrite (tela_sorteio_run e U G g s HU Hg). cbn [fst snd].
  split; [reflexivity|]. split; [|split; [|split; [|split; [|split]]]].
  - intros Hm%MembroGrupo_first_None. rewrite Hm. reflexivity.
  - intros d (m & Hm)%MembroGrupo_first_member Hd. rewrite Hm, Hd. reflexivity.
  - intros (m & Hm)%MembroGrupo_first_member Hd%SorteioIndividual_first_None Hp.
    rewrite Hm, Hd, Hp. reflexivity.
  - split.
    + intros (p & Hp).
      destruct (MembroGrupo_first U G s) as [m|] eqn:Em; [|discriminate Hp].
      destruct (SorteioIndividual_first U G s) as [d|] eqn:Ed; [discriminate Hp|].
      destruct (pool U G s) eqn:Ep; [discriminate Hp|].
      split; [apply is_member_first; congruence|].
      split; [now apply SorteioIndividual_first_None | discriminate].
    + intros ((m & Hm)%MembroGrupo_first_member
              & Hd%SorteioIndividual_first_None & Hp).
      rewrite Hm, Hd. destruct (pool U G s); [congruence | eauto].
  - intros (m & Hm)%MembroGrupo_first_member Hd%SorteioIndividual_first_None Hp.
    rewrite Hm, Hd. destruct (pool U G s); [congruence | reflexivity].
  - intros e' body s' He' H. apply realizar_success in H
      as (cur & m & amigo & Hs & _ & _ & _ & _ & _ & Hm & Ha & _ & Hbody & _).
    assert (User.id cur = U) as <- by congruence.
    exists amigo. split; [|exact Hbody].
    apply in_map_iff. exists m. split; [exact Ha | exact Hm].
Qed.

Lemma X6_witness :
  logged_in (env_de (Some 2) 8 0 "" "") 2 db_ana_sorteou
  /\ run (tela_sorteio (env_de (Some 2) 8 0 "" "") 1) db_ana_sorteou
     = (render_template
          (sorteio_tela_html (Grupo.mk 1 "Natal" "Amigo secreto" "NATAL" 1 (Some 4))
             [Some (User.mk 1 "ana@example.org" "hash:a" "Ana" (Some 1));
              Some (User.mk 3 "caio@example.org" "hash:c" "Caio" (Some 3))]),
        db_ana_sorteou).
Proof.
  assert (logged_in (env_de (Some 2) 8 0 "" "") 2 db_ana_sorteou) as HU
    by (apply logged_in_get; [reflexivity | vm_compute; discriminate]).
  split; [exact HU|].
  destruct (X6_draw_screen_agrees_with_draw (env_de (Some 2) 8 0 "" "") 2 1
              (Grupo.mk 1 "Natal" "Amigo secreto" "NATAL" 1 (Some 4))
              db_ana_sorteou HU eq_refl) as (Hs & _ & _ & _ & _ & Hr & _).
  rewrite (surjective_pairing (run _ _)), Hs, Hr.
  - vm_compute. reflexivity.
  - apply is_member_first. vm_compute. discriminate.
  - apply SorteioIndividual_first_None. vm_compute. reflexivity.
  - vm_compute. discriminate.
Defined.

(** X7. The group page, for a logged-in user and a stored group, writes
    nothing; it is refused, with the flash and the redirect to the
    dashboard, exactly to a user who neither holds a Membership row of the
    group nor is its admin; everyone else gets the page with the group's
    members and suggestions and the user's own draw, and only the admin
    gets the members' draw status with it: for any other member that list
    is empty. *)
Theorem X7_group_page_access e U G g s :
  logged_in e U s -> Grupo_get G s = Some g ->
  snd (run (ver_grupo e G) s) = s
  /\ (fst (run (ver_grupo e G) s)
      = redirect (Some ("Acesso negado!", "error")) url_for_dashboard
      <-> ~ is_member U G s /\ Grupo.admin_id g <> U)
  /\ (is_member U G s \/ Grupo.admin_id g = U ->
      fst (run (ver_grupo e G) s)
      = render_template
          (grupo_html g (MembroGrupo_all G s) (SugestaoPresente_grupo G s)
             (usuario_ja_sorteou g U s) (amigo_do_usuario g U s)
             (if Grupo.admin_id g =? U then status_sorteio_membros g s else [])))
  /\ (is_member U G s -> Grupo.admin_id g <> U ->
      fst (run (ver_grupo e G) s)
      = render_template
          (grupo_html g (MembroGrupo_all G s) (SugestaoPresente_grupo G s)
             (usuario_ja_sorteou g U s) (amigo_do_usuario g U s) [])).
Proof.
  intros HU Hg.
  assert (run (ver_grupo e G) s
          = (match MembroGrupo_first U G s with
             | None =>
                 if negb (Grupo.admin_id g =? U)
                 then redirect (Some ("Acesso negado!", "error")) url_for_dashboard
                 else render_template
                        (grupo_html g (MembroGrupo_all G s) (SugestaoPresente_grupo G s)
                           (usuario_ja_sorteou g U s) (amigo_do_usuario g U s)
                           (if Grupo.admin_id g =? U
                            then status_sorteio_membros g s else []))
             | Some _ =>
                 render_template
                   (grupo_html g (MembroGrupo_all G s) (SugestaoPresente_grupo G s)
                      (usuario_ja_sorteou g U s) (amigo_do_usuario g U s)
                      (if Grupo.admin_id g =? U
                       then status_sorteio_membros g s else []))
             end, s)) as Hrun.
  { unfold ver_grupo. run_logged HU. view_unfold. rewrite Hg. cbn beta iota.
    destruct (MembroGrupo_first (User.id current_user) G s); [reflexivity|].
    destruct (Grupo.admin_id g =? User.id current_user); reflexivity. }
  rewrite Hrun. cbn [fst snd]. split; [reflexivity|]. split; [|split].
  - split.
    + intros H. destruct (MembroGrupo_first U G s) eqn:Em; [discriminate H|].
      destruct (Z.eqb_spec (Grupo.admin_id g) U); [discriminate H|].
      split; [now apply MembroGrupo_first_None | assumption].
    + intros [Hm%MembroGrupo_first_None Hne%Z.eqb_neq]. rewrite Hm, Hne. reflexivity.
  - intros [(m & Hm)%MembroGrupo_first_member | Hadmin%Z.eqb_eq].
    + rewrite Hm. reflexivity.
    + rewrite Hadmin. destruct (MembroGrupo_first U G s); reflexivity.
  - intros (m & Hm)%MembroGrupo_first_member Hne%Z.eqb_neq. rewrite Hm, Hne.
    reflexivity.
Qed.

Lemma X7_witness :
  logged_in (env_de (Some 2) 8 0 "" "") 2 db_ana_sorteou
  /\ is_member 2 1 db_ana_sorteou
  /\ fst (run (ver_grupo (env_de (Some 2) 8 0 "" "") 1) db_ana_sorteou)
     = render_template
         (grupo_html (Grupo.mk 1 "Natal" "Amigo secreto" "NATAL" 1 (Some 4))
            (MembroGrupo_all 1 db_ana_sorteou) [] false None []).
Proof.
  assert (logged_in (env_de (Some 2) 8 0 "" "") 2 db_ana_sorteou) as HU
    by (apply logged_in_get; [reflexivity | vm_compute; discriminate]).
  assert (is_member 2 1 db_ana_sorteou) as HM
    by (apply is_member_first; vm_compute; discriminate).
  split; [exact HU|]. split; [exact HM|].
  destruct (X7_group_page_access (env_de (Some 2) 8 0 "" "") 2 1
              (Grupo.mk 1 "Natal" "Amigo secreto" "NATAL" 1 (Some 4))
              db_ana_sorteou HU eq_refl) as (_ & _ & _ & Hr).
  rewrite (Hr HM); [vm_compute; reflexivity | cbn; discriminate].
Defined.

(** ** The draw as the group and the reveal see it *)

(** X8. [usuario_ja_sorteou] is true exactly when a Draw row of the user
    exists in the group. In every database the application reaches,
    [amigo_do_usuario] gives a user exactly when the user has drawn, and
    that user is the recipient of the user's Draw row in the group, is
    another user, and is a member of the group. *)
Theorem X8_group_draw_lookups s g U :
  reachable s ->
  (usuario_ja_sorteou g U s = true <-> has_drawn U (Grupo.id g) s)
  /\ (amigo_do_usuario g U s = None <-> ~ has_drawn U (Grupo.id g) s)
  /\ (forall amigo, amigo_do_usuario g U s = Some amigo ->
        User.id amigo <> U
        /\ is_member (User.id amigo) (Grupo.id g) s
        /\ exists d, In d (sorteios s) /\ sorteio_par d = (U, Grupo.id g)
                     /\ SorteioIndividual.amigo_sorteado_id d = User.id amigo).
Proof.
  intros R. pose proof (reachable_wf s R) as W. pose proof (reachable_chaves s R) as C.
  unfold usuario_ja_sorteou, amigo_do_usuario.
  destruct (SorteioIndividual_first U (Grupo.id g) s) as [d|] eqn:Ed.
  - pose proof (SorteioIndividual_first_Some _ _ _ _ Ed) as (Hd & Hu & Hg).
    assert (has_drawn U (Grupo.id g) s) as HD.
    { unfold has_drawn. apply in_map_iff. exists d. split; [|assumption].
      unfold sorteio_par. congruence. }
    destruct (User_get_is_user _ _ (wf_sorteio_amigo W d Hd)) as (a & Ha).
    unfold sorteio_amigo. rewrite Ha.
    split; [tauto|]. split; [split; [discriminate | contradiction]|].
    intros amigo [= <-]. apply User_get_Some in Ha as [_ Ha].
    pose proof (wf_sorteio_outro W d Hd) as Hne.
    destruct (ch_sorteio_membros C d Hd) as [_ Hm].
    split; [congruence|]. split; [congruence|].
    exists d. split; [assumption|]. split; [unfold sorteio_par; congruence | congruence].
  - apply SorteioIndividual_first_None in Ed.
    split; [split; [discriminate | contradiction]|].
    split; [tauto | discriminate].
Qed.

Lemma X8_witness :
  reachable db_ana_sorteou
  /\ amigo_do_usuario (Grupo.mk 1 "Natal" "Amigo secreto" "NATAL" 1 (Some 4)) 1
       db_ana_sorteou
     = Some (User.mk 3 "caio@example.org" "hash:c" "Caio" (Some 3))
  /\ is_member 3 1 db_ana_sorteou.
Proof.
  split; [exact db_ana_sorteou_reachable|]. split; [vm_compute; reflexivity|].
  exact (proj1 (proj2 (proj2 (proj2 (X8_group_draw_lookups db_ana_sorteou
           (Grupo.mk 1 "Natal" "Amigo secreto" "NATAL" 1 (Some 4)) 1
           db_ana_sorteou_reachable))
         (User.mk 3 "caio@example.org" "hash:c" "Caio" (Some 3)) eq_refl))).
Defined.

Lemma by_token_snoc s d :
  ~ In (SorteioIndividual.token_acesso d)
       (map SorteioIndividual.token_acesso (sorteios s)) ->
  SorteioIndividual_by_token (SorteioIndividual.token_acesso d) (com_sorteio s d)
  = Some d.
Proof.
  intros Hn. unfold SorteioIndividual_by_token, com_sorteio. cbn [sorteios].
  now apply find_eqb_str_snoc.
Qed.

(** X9. What a successful draw answers is what is stored and revealed: in
    the database it leaves, the token of the answer resolves to the new
    Draw row; the reveal of that token by the same user renders the page
    with the recipient named in the answer and stores the first view;
    [amigo_do_usuario] gives that recipient; and the draw screen sends the
    user to the reveal of that token. *)
Theorem X9_draw_then_reveal e e' G s body s' :
  run (realizar_sorteio_individual e G) s = (jsonify body 200, s') ->
  session_user_id e' = session_user_id e ->
  exists U amigo d g,
    session_user_id e = Some U
    /\ jsonify body 200 = DrawResult amigo (token_urlsafe_32 e)
    /\ d = novo_sorteio e U G (User.id amigo) s
    /\ Grupo_get G s' = Some g
    /\ SorteioIndividual_by_token (token_urlsafe_32 e) s' = Some d
    /\ run (ver_meu_sorteio e' (token_urlsafe_32 e)) s'
       = (render_template
            (ver_sorteio_html (viewed d (utcnow e') 1) g (Some amigo)
               (SugestaoPresente_grupo_usuario (Grupo.id g) (User.id amigo) s')),
          update_sorteio (viewed d (utcnow e') 1) s')
    /\ amigo_do_usuario g U s' = Some amigo
    /\ usuario_ja_sorteou g U s' = true
    /\ run (tela_sorteio e' G) s'
       = (redirect None (url_for_ver_meu_sorteio (token_urlsafe_32 e)), s').
Proof.
  intros H He'. apply realizar_success in H
    as (cur & m & amigo & Hs & Hcur & HG & HM & HD & _ & Hm & Ha & Htok & Hbody & ->).
  destruct (Grupo_get_is_grupo _ _ HG) as (g & Hg).
  set (d := novo_sorteio e (User.id cur) G (User.id amigo) s).
  assert (User_get (User.id amigo) s = Some amigo) as Ha'.
  { pose proof (User_get_Some _ _ _ Ha) as [_ Hid]. now rewrite Hid. }
  assert (logged_in e' (User.id cur) (com_sorteio s d)) as HU'.
  { split; [congruence|]. exists cur. auto. }
  assert (SorteioIndividual_first (User.id cur) G (com_sorteio s d) = Some d) as Hfirst.
  { unfold SorteioIndividual_first, com_sorteio. cbn [sorteios].
    apply find_snoc; [now apply SorteioIndividual_first_None|].
    cbn. now rewrite !Z.eqb_refl. }
  pose proof (Grupo_get_Some _ _ _ Hg) as [_ Hgid].
  exists (User.id cur), amigo, d, g.
  split; [assumption|]. split; [assumption|]. split; [reflexivity|].
  split; [exact Hg|]. split; [exact (by_token_snoc s d Htok)|].
  split; [|split; [|split]].
  - rewrite (ver_meu_sorteio_owner e' (token_urlsafe_32 e) d 0 g (com_sorteio s d)
               HU' (by_token_snoc s d Htok) eq_refl Hg).
    unfold sorteio_amigo.
    change (User_get (SorteioIndividual.amigo_sorteado_id d) (com_sorteio s d))
      with (User_get (User.id amigo) s).
    rewrite Ha'. reflexivity.
  - unfold amigo_do_usuario. rewrite Hgid, Hfirst. exact Ha'.
  - unfold usuario_ja_sorteou. rewrite Hgid, Hfirst. reflexivity.
  - rewrite (tela_sorteio_run e' (User.id cur) G g (com_sorteio s d) HU' Hg).
    destruct (MembroGrupo_first_member _ _ _ HM) as (m0 & Hm0).
    change (MembroGrupo_first (User.id cur) G (com_sorteio s d))
      with (MembroGrupo_first (User.id cur) G s).
    rewrite Hm0, Hfirst. reflexivity.
Qed.

Lemma X9_witness :
  run (realizar_sorteio_individual env_ana_sorteia 1) db_grupo_formado
  = (DrawResult (User.mk 3 "caio@example.org" "hash:c" "Caio" (Some 3)) "token-da-ana",
     db_ana_sorteou)
  /\ exists d sug,
       run (ver_meu_sorteio (env_de (Some 1) 9 0 "" "") "token-da-ana") db_ana_sorteou
       = (render_template
            (ver_sorteio_html d (Grupo.mk 1 "Natal" "Amigo secreto" "NATAL" 1 (Some 4))
               (Some (User.mk 3 "caio@example.org" "hash:c" "Caio" (Some 3))) sug),
          update_sorteio d db_ana_sorteou).
Proof.
  assert (run (realizar_sorteio_individual env_ana_sorteia 1) db_grupo_formado
          = (DrawResult (User.mk 3 "caio@example.org" "hash:c" "Caio" (Some 3))
                        "token-da-ana", db_ana_sorteou)) as Hrun
    by (vm_compute; reflexivity).
  split; [exact Hrun|].
  destruct (X9_draw_then_reveal env_ana_sorteia (env_de (Some 1) 9 0 "" "") 1
              db_grupo_formado _ _ Hrun eq_refl)
    as (U & amigo & d & g & HU & _ & _ & Hg & _ & Hview & Hamigo & _).
  vm_compute in HU. injection HU as <-.
  vm_compute in Hg. injection Hg as <-.
  vm_compute in Hamigo. injection Hamigo as <-.
  do 2 eexists. exact Hview.
Defined.

(** X10. In every database the application reaches, every Draw row links
    two different users who are both members of the row's group, which is
    stored; this holds for as long as the row is stored, not only when the
    draw is made. *)
Theorem X10_draw_rows_link_members s d :
  reachable s -> In d (sorteios s) ->
  is_grupo (SorteioIndividual.grupo_id d) s
  /\ is_member (SorteioIndividual.usuario_id d) (SorteioIndividual.grupo_id d) s
  /\ is_member (SorteioIndividual.amigo_sorteado_id d) (SorteioIndividual.grupo_id d) s
  /\ is_user (SorteioIndividual.usuario_id d) s
  /\ is_user (SorteioIndividual.amigo_sorteado_id d) s
  /\ SorteioIndividual.amigo_sorteado_id d <> SorteioIndividual.usuario_id d.
Proof.
  intros R Hd. pose proof (reachable_wf s R) as W.
  pose proof (reachable_chaves s R) as C.
  destruct (ch_sorteio_membros C d Hd) as [Hu Ha].
  split; [exact (wf_sorteio_grupo W d Hd)|]. split; [exact Hu|]. split; [exact Ha|].
  split; [|split; [exact (wf_sorteio_amigo W d Hd) | exact (wf_sorteio_outro W d Hd)]].
  apply in_map_iff in Hu as (m & Hpar & Hin). injection Hpar as <- _.
  exact (wf_membro_usuario W m Hin).
Qed.

Lemma X10_witness :
  reachable db_ana_sorteou
  /\ is_member 1 1 db_ana_sorteou /\ is_member 3 1 db_ana_sorteou.
Proof.
  split; [exact db_ana_sorteou_reachable|].
  destruct (X10_draw_rows_link_members db_ana_sorteou
              (SorteioIndividual.mk 1 1 1 3 (Some 7) None (Some 0) "token-da-ana")
              db_ana_sorteou_reachable) as (_ & Hu & Ha & _).
  - vm_compute. left. reflexivity.
  - split; [exact Hu | exact Ha].
Defined.

(** ** Gift suggestions *)


Lemma find_id_unique {A} (f : A -> Z) l x :
  NoDup (map f l) -> In x l -> find (fun y => f y =? f x) l = Some x.
Proof.
  intros Hn Hin. destruct (find_id_In f (f x) l) as (y & Hy); [eauto|].
  rewrite Hy. f_equal. apply find_id_Some in Hy as [Hy Heq].
  exact (NoDup_map_eq f l y x Hn Hy Hin Heq).
Qed.





(** X13. Removing a suggestion by its author deletes the row with that id
    and nothing else: the lookup by the id finds nothing afterwards, the
    suggestions left are those of another id, the other tables are as they
    were, and removing it again is answered 404. *)
Theorem X13_author_removes_suggestion e U sid x s :
  logged_in e U s -> SugestaoPresente_get sid s = Some x ->
  SugestaoPresente.usuario_id x = U ->
  exists s',
    run (remover_sugestao e sid) s = (jsonify (JObj [("success", JBool true)]) 200, s')
    /\ SugestaoPresente_get sid s' = None
    /\ (forall y, In y (sugestoes s')
                  <-> In y (sugestoes s) /\ SugestaoPresente.id y <> sid)
    /\ users s' = users s /\ grupos s' = grupos s /\ membros s' = membros s
    /\ sorteios s' = sorteios s
    /\ forall e', session_user_id e' = Some U ->
         run (remover_sugestao e' sid) s' = (abort 404, s').
Proof.
  intros HU Hx Hu%Z.eqb_eq. pose proof (find_id_Some _ _ _ _ Hx) as [Hin Hid].
  exists (delete_sugestao x s).
  assert (forall y, In y (sugestoes (delete_sugestao x s))
                    <-> In y (sugestoes s) /\ SugestaoPresente.id y <> sid) as Hrows.
  { intros y. cbn [delete_sugestao sugestoes].
    rewrite filter_In, negb_true_iff, Z.eqb_neq, Hid. reflexivity. }
  assert (SugestaoPresente_get sid (delete_sugestao x s) = None) as Hnone.
  { destruct (SugestaoPresente_get sid (delete_sugestao x s)) as [y|] eqn:E;
      [|reflexivity].
    apply find_id_Some in E as [Hy Hyid]. apply Hrows in Hy. tauto. }
  split; [|split; [exact Hnone|split; [exact Hrows|]]].
  - unfold remover_sugestao. run_logged HU. view_unfold. rewrite Hx.
    cbn beta iota. rewrite Hu. reflexivity.
  - repeat (split; [reflexivity|]).
    intros e' He'. unfold remover_sugestao.
    assert (logged_in e' U (delete_sugestao x s)) as HU'
      by (split; [exact He' | exact (proj2 HU)]).
    run_logged HU'. view_unfold. rewrite Hnone. reflexivity.
Qed.

Lemma X13_witness :
  logged_in (env_de (Some 2) 11 0 "" "") 2 db_com_sugestoes
  /\ exists s',
       run (remover_sugestao (env_de (Some 2) 11 0 "" "") 1) db_com_sugestoes
       = (jsonify (JObj [("success", JBool true)]) 200, s')
       /\ SugestaoPresente_get 1 s' = None.
Proof.
  assert (logged_in (env_de (Some 2) 11 0 "" "") 2 db_com_sugestoes) as HU
    by (apply logged_in_get; [reflexivity | vm_compute; discriminate]).
  split; [exact HU|].
  destruct (X13_author_removes_suggestion (env_de (Some 2) 11 0 "" "") 2 1
              (SugestaoPresente.mk 1 1 2 "Livro" None (Some 8) (Some 8))
              db_com_sugestoes HU) as (s' & Hrun & Hnone & _).
  - vm_compute. reflexivity.
  - reflexivity.
  - exists s'. split; assumption.
Defined.

(** X14. In every database the application reaches, the ids of the
    suggestions are pairwise distinct, so the lookup by id finds each
    stored suggestion; and every suggestion is of a stored user who holds
    a Membership row of the suggestion's group, which is stored. *)
Theorem X14_suggestions_belong_to_members s x :
  reachable s -> In x (sugestoes s) ->
  NoDup (map SugestaoPresente.id (sugestoes s))
  /\ SugestaoPresente_get (SugestaoPresente.id x) s = Some x
  /\ is_member (SugestaoPresente.usuario_id x) (SugestaoPresente.grupo_id x) s
  /\ is_user (SugestaoPresente.usuario_id x) s
  /\ is_grupo (SugestaoPresente.grupo_id x) s.
Proof.
  intros R Hx. pose proof (reachable_wf s R) as W.
  pose proof (reachable_chaves s R) as C.
  pose proof (ch_sugestao_membro C x Hx) as Hm.
  split; [apply (ch_sugestao_id C)|].
  split; [exact (find_id_unique SugestaoPresente.id _ x (ch_sugestao_id C) Hx)|].
  split; [exact Hm|].
  apply in_map_iff in Hm as (m & Hpar & Hin). injection Hpar as <- <-.
  split; [exact (wf_membro_usuario W m Hin) | exact (wf_membro_grupo W m Hin)].
Qed.

Lemma X14_witness :
  reachable db_com_sugestoes
  /\ SugestaoPresente_get 2 db_com_sugestoes
     = Some (SugestaoPresente.mk 2 1 3 "Caneca" (Some "https://example.org/caneca")
               (Some 9) (Some 9))
  /\ is_member 3 1 db_com_sugestoes.
Proof.
  split; [exact db_com_sugestoes_reachable|].
  destruct (X14_suggestions_belong_to_members db_com_sugestoes
              (SugestaoPresente.mk 2 1 3 "Caneca" (Some "https://example.org/caneca")
                 (Some 9) (Some 9))
              db_com_sugestoes_reachable) as (_ & Hget & Hm & _).
  - vm_compute. right. left. reflexivity.
  - split; [exact Hget | exact Hm].
Defined.

Lemma SugestaoPresente_get_update sid x x' s :
  SugestaoPresente_get sid s = Some x -> SugestaoPresente.id x' = sid ->
  SugestaoPresente_get sid (update_sugestao x' s) = Some x'.
Proof.
  unfold SugestaoPresente_get. cbn [update_sugestao sugestoes]. intros H <-.
  induction (sugestoes s) as [|y l IH]; [discriminate H|].
  cbn [find map] in *.
  destruct (Z.eqb_spec (SugestaoPresente.id y) (SugestaoPresente.id x')) as [E|E].
  - rewrite Z.eqb_refl. reflexivity.
  - destruct (Z.eqb_spec (SugestaoPresente.id y) (SugestaoPresente.id x'));
      [contradiction|].
    apply IH. exact H.
Qed.

Lemma has_drawn_first uid gid s :
  SorteioIndividual_first uid gid s <> None -> has_drawn uid gid s.
Proof.
  destruct (SorteioIndividual_first uid gid s) as [d|] eqn:E; [|congruence].
  intros _. apply SorteioIndividual_first_Some in E as (Hin & <- & <-).
  unfold has_drawn. now apply (in_map sorteio_par).
Qed.

(** X15. Editing a suggestion by its author keeps the row's id, group,
    author and creation time, stores the link sent and, when a description
    is sent, that description, else the old one; the lookup by the id finds
    the edited row; the suggestions of another id and the other tables are
    as they were. *)
Theorem X15_author_edits_suggestion e U sid descricao link x s :
  logged_in e U s -> SugestaoPresente_get sid s = Some x ->
  SugestaoPresente.usuario_id x = U ->
  exists x' body s',
    run (editar_sugestao e sid descricao link) s = (jsonify body 200, s')
    /\ SugestaoPresente_get sid s' = Some x'
    /\ SugestaoPresente.id x' = sid
    /\ SugestaoPresente.grupo_id x' = SugestaoPresente.grupo_id x
    /\ SugestaoPresente.usuario_id x' = U
    /\ SugestaoPresente.created_at x' = SugestaoPresente.created_at x
    /\ SugestaoPresente.link x' = link
    /\ SugestaoPresente.descricao x'
       = match descricao with
         | Some d => d
         | None => SugestaoPresente.descricao x
         end
    /\ (forall y, In y (sugestoes s) -> SugestaoPresente.id y <> sid ->
                  In y (sugestoes s'))
    /\ List.length (sugestoes s') = List.length (sugestoes s)
    /\ users s' = users s /\ grupos s' = grupos s /\ membros s' = membros s
    /\ sorteios s' = sorteios s.
Proof.
  intros HU Hx Hu. pose proof (find_id_Some _ _ _ _ Hx) as [Hin Hid].
  set (x' := SugestaoPresente.mk (SugestaoPresente.id x) (SugestaoPresente.grupo_id x)
               (SugestaoPresente.usuario_id x)
               (match descricao with
                | Some d => d
                | None => SugestaoPresente.descricao x
                end)
               link (SugestaoPresente.created_at x) (Some (utcnow e))).
  assert (exists body, run (editar_sugestao e sid descricao link) s
                       = (jsonify body 200, update_sugestao x' s)) as (body & Hrun).
  { apply Z.eqb_eq in Hu. unfold editar_sugestao. run_logged HU. view_unfold.
    rewrite Hx. cbn beta iota zeta. rewrite Hu. eexists. reflexivity. }
  exists x', body, (update_sugestao x' s).
  split; [exact Hrun|].
  split; [exact (SugestaoPresente_get_update sid x x' s Hx Hid)|].
  split; [exact Hid|]. split; [reflexivity|]. split; [exact Hu|].
  split; [reflexivity|]. split; [reflexivity|]. split; [reflexivity|].
  split; [|split; [|repeat split]].
  - intros y Hy Hne. cbn [update_sugestao sugestoes]. apply in_map_iff.
    exists y. split; [|exact Hy].
    destruct (Z.eqb_spec (SugestaoPresente.id y) (SugestaoPresente.id x'));
      [|reflexivity].
    exfalso. apply Hne. cbn in *. congruence.
  - cbn [update_sugestao sugestoes]. apply length_map.
Qed.

Lemma X15_witness :
  logged_in (env_de (Some 3) 11 0 "" "") 3 db_com_sugestoes
  /\ exists x' r s',
       run (editar_sugestao (env_de (Some 3) 11 0 "" "") 2 (Some "Caneca azul") None)
           db_com_sugestoes = (r, s')
       /\ SugestaoPresente_get 2 s' = Some x'
       /\ SugestaoPresente.descricao x' = "Caneca azul"
       /\ SugestaoPresente.link x' = None.
Proof.
  assert (logged_in (env_de (Some 3) 11 0 "" "") 3 db_com_sugestoes) as HU
    by (apply logged_in_get; [reflexivity | vm_compute; discriminate]).
  split; [exact HU|].
  destruct (X15_author_edits_suggestion (env_de (Some 3) 11 0 "" "") 3 2
              (Some "Caneca azul") None
              (SugestaoPresente.mk 2 1 3 "Caneca" (Some "https://example.org/caneca")
                 (Some 9) (Some 9))
              db_com_sugestoes HU)
    as (x' & body & s' & Hrun & Hget & _ & _ & _ & _ & Hl & Hd & _).
  - vm_compute. reflexivity.
  - reflexivity.
  - exists x', (jsonify body 200), s'. repeat split; assumption.
Defined.

(** ** What every route refuses and what no route does *)





(** X18. No route deletes a user, a group, a membership or a draw: after
    any request the user, group and Membership tables are the old ones with
    at most one row appended, and in every database the application reaches
    a user who has drawn in a group still has. So users, groups and
    memberships, once stored, stay. *)
Theorem X18_nothing_but_suggestions_is_deleted e r s :
  reachable s ->
  (exists l, users (snd (handle e r s)) = (users s ++ l)%list
             /\ (List.length l <= 1)%nat)
  /\ (exists l, grupos (snd (handle e r s)) = (grupos s ++ l)%list
                /\ (List.length l <= 1)%nat)
  /\ (exists l, membros (snd (handle e r s)) = (membros s ++ l)%list
                /\ (List.length l <= 1)%nat)
  /\ (forall uid, is_user uid s -> is_user uid (snd (handle e r s)))
  /\ (forall gid, is_grupo gid s -> is_grupo gid (snd (handle e r s)))
  /\ (forall uid gid, is_member uid gid s -> is_member uid gid (snd (handle e r s)))
  /\ (forall uid gid, has_drawn uid gid s -> has_drawn uid gid (snd (handle e r s))).
Proof.
  intros W%reachable_wf.
  assert (exists l, users (snd (handle e r s)) = (users s ++ l)%list
                    /\ (List.length l <= 1)%nat) as Hu.
  { destruct (handle_users e r s) as [->|(? & ? & ? & _ & _ & ->)].
    - exists []. rewrite app_nil_r. split; [reflexivity | cbn; lia].
    - eexists. split; [reflexivity | cbn; lia]. }
  assert (exists l, grupos (snd (handle e r s)) = (grupos s ++ l)%list
                    /\ (List.length l <= 1)%nat) as Hg.
  { destruct (handle_grupos e r s) as [->|(? & ? & ? & _ & _ & _ & _ & -> & _)].
    - exists []. rewrite app_nil_r. split; [reflexivity | cbn; lia].
    - eexists. split; [reflexivity | cbn; lia]. }
  assert (exists l, membros (snd (handle e r s)) = (membros s ++ l)%list
                    /\ (List.length l <= 1)%nat) as Hm.
  { destruct (handle_membros e r s) as [->|(row & -> & _)].
    - exists []. rewrite app_nil_r. split; [reflexivity | cbn; lia].
    - eexists. split; [reflexivity | cbn; lia]. }
  split; [exact Hu|]. split; [exact Hg|]. split; [exact Hm|].
  split; [|split; [|split]].
  - intros uid (u & Hin & Hid). destruct Hu as (l & Hl & _).
    exists u. rewrite Hl. split; [apply in_or_app; now left | exact Hid].
  - intros gid (g & Hin & Hid). destruct Hg as (l & Hl & _).
    exists g. rewrite Hl. split; [apply in_or_app; now left | exact Hid].
  - intros uid gid. apply is_member_persists.
  - intros uid gid (d & Hpar & Hd)%in_map_iff.
    unfold has_drawn. apply in_map_iff.
    destruct (handle_row s e r d W Hd) as [H|(n & _ & H)].
    + exists d. auto.
    + exists (viewed d (utcnow e) (n + 1)). auto.
Qed.

Lemma X18_witness :
  reachable db_ana_sorteou
  /\ has_drawn 1 1
       (snd (handle (env_de (Some 1) 9 0 "" "") (GET_ver_meu_sorteio "token-da-ana")
                    db_ana_sorteou)).
Proof.
  split; [exact db_ana_sorteou_reachable|].
  apply (X18_nothing_but_suggestions_is_deleted (env_de (Some 1) 9 0 "" "")
           (GET_ver_meu_sorteio "token-da-ana") db_ana_sorteou
           db_ana_sorteou_reachable).
  apply has_drawn_first. vm_compute. discriminate.
Defined.

(** ** The pool and the choice *)

(** X19. The pool of a user in a group depends on the Membership table
    alone: no request but creating or joining a group changes it, so a
    draw removes nobody from anybody's pool and a recipient already drawn
    stays eligible for the others. And the choice reaches the whole pool:
    for every row of the pool whose user is stored there is a value of the
    randomness with which the draw of a member who has not drawn answers
    with that user. *)
Theorem X19_pool_is_stable_and_covered e U G s :
  (forall r,
     (forall nome descricao, r <> POST_criar_grupo nome descricao) ->
     (forall codigo, r <> POST_entrar_grupo codigo) ->
     pool U G (snd (handle e r s)) = pool U G s)
  /\ (forall m amigo,
        is_user U s -> is_grupo G s -> is_member U G s -> ~ has_drawn U G s ->
        In m (pool U G s) -> User_get (MembroGrupo.usuario_id m) s = Some amigo ->
        exists i, (i < List.length (pool U G s))%nat
          /\ forall e',
               session_user_id e' = Some U -> random_index e' = i ->
               ~ In (token_urlsafe_32 e')
                    (map SorteioIndividual.token_acesso (sorteios s)) ->
               run (realizar_sorteio_individual e' G) s
               = (DrawResult amigo (token_urlsafe_32 e'),
                  com_sorteio s (novo_sorteio e' U G (User.id amigo) s))).
Proof.
  split.
  - intros r Hc He. unfold pool, MembroGrupo_all.
    assert (membros (snd (handle e r s)) = membros s) as ->; [|reflexivity].
    handle_cases; try reflexivity.
    + exfalso. eapply Hc. reflexivity.
    + exfalso. eapply He. reflexivity.
  - intros m amigo HU HG HM HD Hm Ha.
    destruct (In_nth_error _ _ Hm) as (i & Hi).
    assert (i < List.length (pool U G s))%nat as Hlt
      by (apply nth_error_Some; congruence).
    exists i. split; [exact Hlt|].
    intros e' Hs Hr Htok.
    assert (random_choice e' (pool U G s) = Some m) as Hc.
    { unfold random_choice. rewrite Hr, Nat.mod_small; assumption. }
    rewrite (realizar_chosen e' U G s m amigo (conj Hs HU) HG HM HD Hc Ha).
    apply token_existsb_false in Htok. rewrite Htok. reflexivity.
Qed.

Lemma X19_witness :
  pool 2 1 (snd (handle env_ana_sorteia (POST_realizar_sorteio 1) db_grupo_formado))
  = pool 2 1 db_grupo_formado
  /\ In (MembroGrupo.mk 3 3 1 (Some 6)) (pool 2 1 db_ana_sorteou).
Proof.
  split.
  - apply (proj1 (X19_pool_is_stable_and_covered env_ana_sorteia 2 1 db_grupo_formado)).
    + intros nome descricao H. discriminate H.
    + intros codigo H. discriminate H.
  - vm_compute. right. left. reflexivity.
Defined.

(** ** Repeated reveals *)

Lemma reveals_add_up es : forall s d n,
  wf s -> In d (sorteios s) -> SorteioIndividual.vezes_visualizado d = Some n ->
  is_user (SorteioIndividual.usuario_id d) s ->
  (forall e, In e es -> session_user_id e = Some (SorteioIndividual.usuario_id d)) ->
  exists d',
    SorteioIndividual_by_token (SorteioIndividual.token_acesso d)
      (run_requests (reveals (SorteioIndividual.token_acesso d) es) s) = Some d'
    /\ SorteioIndividual.vezes_visualizado d' = Some (n + Z.of_nat (List.length es))
    /\ SorteioIndividual.id d' = SorteioIndividual.id d
    /\ sorteio_par d' = sorteio_par d
    /\ SorteioIndividual.amigo_sorteado_id d' = SorteioIndividual.amigo_sorteado_id d.
Proof.
  induction es as [|e es IH]; intros s d n W Hd Hn Hu Hes.
  - exists d. cbn. rewrite Z.add_0_r. rewrite (by_token_of_row s d W Hd). auto.
  - assert (logged_in e (SorteioIndividual.usuario_id d) s) as HU
      by (split; [apply Hes; now left | exact Hu]).
    destruct (Grupo_get_is_grupo _ _ (wf_sorteio_grupo W d Hd)) as (g & Hg).
    pose proof (ver_meu_sorteio_owner e _ d n g s HU (by_token_of_row s d W Hd) Hn Hg)
      as Hrun.
    set (d1 := viewed d (utcnow e) (n + 1)) in *.
    assert (snd (handle e (GET_ver_meu_sorteio (SorteioIndividual.token_acesso d)) s)
            = update_sorteio d1 s) as Hs1.
    { unfold handle. cbn [dispatch]. now rewrite Hrun. }
    cbn [reveals map run_requests fold_left fst snd]. rewrite Hs1.
    destruct (IH (update_sorteio d1 s) d1 (n + 1)) as (d' & Hget & Hv & Hid & Hpar & Ha).
    + rewrite <- Hs1. now apply handle_wf.
    + apply (update_sorteio_rows s d d1 d1 (wf_sorteio_id W) Hd eq_refl).
      left. reflexivity.
    + reflexivity.
    + exact Hu.
    + intros e0 He0. apply Hes. now right.
    + exists d'. split; [exact Hget|]. split; [|auto].
      rewrite Hv. f_equal. cbn [List.length]. lia.
Qed.

Lemma drawer_is_user s d :
  reachable s -> In d (sorteios s) -> is_user (SorteioIndividual.usuario_id d) s.
Proof.
  intros R Hd. pose proof (reachable_wf s R) as W.
  destruct (ch_sorteio_membros (reachable_chaves s R) d Hd) as [Hu _].
  apply in_map_iff in Hu as (m & Hpar & Hin). injection Hpar as <- _.
  exact (wf_membro_usuario W m Hin).
Qed.

(** X20. The view counter has no cap and no deduplication: in every
    database the application reaches, after any number of reveals of a
    Draw row by its drawer, one after another, the row the token resolves
    to is the same draw (same id, drawer, group and recipient) with its
    counter raised by exactly that number. *)
Theorem X20_reveals_add_up s d es :
  reachable s -> In d (sorteios s) ->
  (forall e, In e es -> session_user_id e = Some (SorteioIndividual.usuario_id d)) ->
  exists n d',
    SorteioIndividual.vezes_visualizado d = Some n
    /\ SorteioIndividual_by_token (SorteioIndividual.token_acesso d)
         (run_requests (reveals (SorteioIndividual.token_acesso d) es) s) = Some d'
    /\ SorteioIndividual.vezes_visualizado d' = Some (n + Z.of_nat (List.length es))
    /\ SorteioIndividual.id d' = SorteioIndividual.id d
    /\ sorteio_par d' = sorteio_par d
    /\ SorteioIndividual.amigo_sorteado_id d' = SorteioIndividual.amigo_sorteado_id d.
Proof.
  intros R Hd Hes. pose proof (reachable_wf s R) as W.
  destruct (wf_sorteio_vezes W d Hd) as (n & Hn & _).
  pose proof (drawer_is_user s d R Hd) as Hu.
  destruct (reveals_add_up es s d n W Hd Hn Hu Hes) as (d' & H).
  exists n, d'. split; [exact Hn | exact H].
Qed.

Lemma X20_witness :
  reachable db_ana_sorteou
  /\ exists d',
       SorteioIndividual_by_token "token-da-ana"
         (run_requests (reveals "token-da-ana"
                          [env_de (Some 1) 8 0 "" ""; env_de (Some 1) 9 0 "" "";
                           env_de (Some 1) 9 0 "" ""])
                       db_ana_sorteou) = Some d'
       /\ SorteioIndividual.vezes_visualizado d' = Some 3.
Proof.
  split; [exact db_ana_sorteou_reachable|].
  destruct (X20_reveals_add_up db_ana_sorteou
              (SorteioIndividual.mk 1 1 1 3 (Some 7) None (Some 0) "token-da-ana")
              [env_de (Some 1) 8 0 "" ""; env_de (Some 1) 9 0 "" "";
               env_de (Some 1) 9 0 "" ""]
              db_ana_sorteou_reachable) as (n & d' & Hn & Hget & Hv & _).
  - vm_compute. left. reflexivity.
  - intros e [<-|[<-|[<-|[]]]]; reflexivity.
  - cbn in Hn. injection Hn as <-. exists d'. split; [exact Hget | exact Hv].
Defined.

(** ** The dashboard and the suggestion list *)

(** X21. The dashboard of a logged-in user writes nothing and lists, as
    the user's groups, the stored groups in which the user holds a
    Membership row and, as the groups the user runs, the stored groups
    whose admin the user is; in every database the application reaches the
    second list is within the first. *)
Theorem X21_dashboard_lists e U s :
  reachable s -> logged_in e U s ->
  exists grupos' meus_grupos,
    dashboard e s = (inl (grupos', meus_grupos), s)
    /\ (forall g, In g grupos' <-> In g (grupos s) /\ is_member U (Grupo.id g) s)
    /\ (forall g, In g meus_grupos <-> In g (grupos s) /\ Grupo.admin_id g = U)
    /\ incl meus_grupos grupos'.
Proof.
  intros R [Hs Hu]. pose proof (reachable_chaves s R) as C.
  destruct (User_get_is_user _ _ Hu) as (u & Hget).
  pose proof (User_get_Some _ _ _ Hget) as [_ Hid].
  unfold dashboard, login_required_ctx. rewrite Hs, Hget. view_unfold.
  do 2 eexists. split; [reflexivity|].
  assert (forall g,
            In g (filter (fun g0 => existsb (fun i => Grupo.id g0 =? i)
                            (map MembroGrupo.grupo_id
                               (filter (fun mg => MembroGrupo.usuario_id mg =? User.id u)
                                       (membros s))))
                         (grupos s))
            <-> In g (grupos s) /\ is_member U (Grupo.id g) s) as H1.
  { intros g. rewrite filter_In, existsb_exists. unfold is_member.
    rewrite in_map_iff. split.
    - intros [Hg (i & (mg & Hi & Hmg)%in_map_iff & Heq%Z.eqb_eq)].
      apply filter_In in Hmg as [Hmg Hmu%Z.eqb_eq]. split; [exact Hg|].
      exists mg. split; [|exact Hmg]. unfold membro_par. congruence.
    - intros [Hg (mg & Hpar & Hmg)]. injection Hpar as Hmu Hmg'.
      split; [exact Hg|]. exists (Grupo.id g). split; [|apply Z.eqb_refl].
      apply in_map_iff. exists mg. split; [exact Hmg'|].
      apply filter_In. split; [exact Hmg | apply Z.eqb_eq; congruence]. }
  assert (forall g,
            In g (filter (fun g0 => Grupo.admin_id g0 =? User.id u) (grupos s))
            <-> In g (grupos s) /\ Grupo.admin_id g = U) as H2.
  { intros g. rewrite filter_In, Z.eqb_eq, Hid. reflexivity. }
  split; [exact H1|]. split; [exact H2|].
  intros g [Hg Ha]%H2. apply H1. split; [exact Hg|].
  rewrite <- Ha. exact (ch_admin_membro C g Hg).
Qed.

Lemma X21_witness :
  reachable db_ana_sorteou /\ logged_in (env_de (Some 2) 9 0 "" "") 2 db_ana_sorteou
  /\ dashboard (env_de (Some 2) 9 0 "" "") db_ana_sorteou
     = (inl ([Grupo.mk 1 "Natal" "Amigo secreto" "NATAL" 1 (Some 4)], []),
        db_ana_sorteou).
Proof.
  assert (logged_in (env_de (Some 2) 9 0 "" "") 2 db_ana_sorteou) as HU
    by (apply logged_in_get; [reflexivity | vm_compute; discriminate]).
  split; [exact db_ana_sorteou_reachable|]. split; [exact HU|].
  destruct (X21_dashboard_lists (env_de (Some 2) 9 0 "" "") 2 db_ana_sorteou
              db_ana_sorteou_reachable HU) as (gs & ms & Hrun & _).
  rewrite Hrun. vm_compute in Hrun. exact (eq_sym Hrun).
Defined.

Lemma existsb_key_false {V} k (d : list (Z * V)) :
  existsb (fun kv => fst kv =? k) d = false <-> ~ In k (map fst d).
Proof.
  split.
  - intros H (kv & <- & Hin)%in_map_iff.
    assert (existsb (fun kv0 => fst kv0 =? fst kv) d = true) as Ht
      by (apply existsb_exists; exists kv; split; [assumption | apply Z.eqb_refl]).
    congruence.
  - intros H. destruct (existsb _ d) eqn:E; [|reflexivity].
    apply existsb_exists in E as (kv & Hin & Heq%Z.eqb_eq).
    exfalso. apply H. rewrite <- Heq. now apply in_map.
Qed.

Lemma agrupar_sugestao_keys s d x :
  map fst (agrupar_sugestao s d x)
  = if existsb (fun kv => fst kv =? SugestaoPresente.usuario_id x) d
    then map fst d
    else (map fst d ++ [SugestaoPresente.usuario_id x])%list.
Proof.
  unfold agrupar_sugestao. cbn zeta. rewrite map_map.
  rewrite (map_ext _ fst);
    [|intros [k v]; cbn; destruct (k =? SugestaoPresente.usuario_id x); reflexivity].
  destruct (existsb _ d); [reflexivity|]. now rewrite map_app.
Qed.

Lemma agrupado_step s l d x :
  agrupado s l d -> agrupado s (l ++ [x]) (agrupar_sugestao s d x).
Proof.
  intros (Hn & Hv & Hk). set (uid := SugestaoPresente.usuario_id x).
  assert (forall k, sugestoes_do_autor k (l ++ [x])
                    = (sugestoes_do_autor k l ++ if uid =? k then [x] else [])%list) as Hf.
  { intros k. unfold sugestoes_do_autor. rewrite filter_app. cbn [filter]. reflexivity. }
  split; [|split].
  - rewrite agrupar_sugestao_keys. fold uid.
    destruct (existsb _ d) eqn:E; [exact Hn|].
    apply NoDup_snoc; [exact Hn | now apply existsb_key_false].
  - intros k v Hin. unfold agrupar_sugestao in Hin. cbn zeta in Hin. fold uid in Hin.
    apply in_map_iff in Hin as ([k0 v0] & Heq & Hin0). cbn [fst snd] in Heq.
    assert (In (k0, v0) d
            \/ (~ In uid (map fst d)
                /\ (k0, v0) = (uid, mkSugestoesDoUsuario (User_get uid s) []))) as Hsrc.
    { destruct (existsb (fun kv => fst kv =? uid) d) eqn:E; [now left|].
      apply in_app_or in Hin0 as [H|[H|[]]]; [now left|].
      right. split; [now apply existsb_key_false | now symmetry]. }
    rewrite map_app, Hf. cbn [map].
    destruct (Z.eqb_spec k0 uid) as [Ek|Ek]; injection Heq as <- <-.
    + split; [apply in_or_app; right; left; symmetry; exact Ek|].
      rewrite (proj2 (Z.eqb_eq uid k0)) by (symmetry; exact Ek).
      destruct Hsrc as [Hd|[Hnew [= _ ->]]].
      * destruct (Hv k0 v0 Hd) as [_ ->]. reflexivity.
      * cbn [su_usuario su_sugestoes]. subst k0. f_equal.
        replace (sugestoes_do_autor uid l) with (@nil SugestaoPresente.t); [reflexivity|].
        symmetry. apply filter_nil_iff. intros y Hy. apply Z.eqb_neq. intros Hyu.
        apply Hnew, Hk. rewrite <- Hyu. now apply in_map.
    + destruct Hsrc as [Hd|[_ [= Hk0 _]]]; [|contradiction].
      destruct (Hv k0 v0 Hd) as [Hin ->].
      split; [apply in_or_app; now left|].
      rewrite (proj2 (Z.eqb_neq uid k0)) by (intros H; apply Ek; symmetry; exact H).
      now rewrite app_nil_r.
  - intros k Hin. rewrite agrupar_sugestao_keys. fold uid.
    rewrite map_app in Hin. apply in_app_or in Hin as [Hin|[<-|[]]].
    + destruct (existsb _ d); [auto | apply in_or_app; left; auto].
    + destruct (existsb (fun kv => fst kv =? uid) d) eqn:E.
      * destruct (in_dec Z.eq_dec uid (map fst d)) as [H|H]; [exact H|].
        apply existsb_key_false in H. congruence.
      * apply in_or_app. right. now left.
Qed.

Lemma sugestoes_por_usuario_agrupado s l : agrupado s l (sugestoes_por_usuario s l).
Proof.
  unfold sugestoes_por_usuario.
  induction l as [|x l IH] using rev_ind.
  - cbn. split; [constructor|]. split; [intros k v []|intros k []].
  - rewrite fold_left_app. cbn [fold_left]. now apply agrupado_step.
Qed.

Lemma dict_get_In {V} k (v : V) d :
  NoDup (map fst d) -> In (k, v) d -> dict_get k d = Some v.
Proof.
  intros Hn Hin. unfold dict_get.
  destruct (find (fun kv => fst kv =? k) d) as [[k0 v0]|] eqn:E.
  - apply find_some in E as [Hin0 Heq%Z.eqb_eq]. cbn in *. subst k0.
    pose proof (NoDup_map_eq fst d (k, v0) (k, v) Hn Hin0 Hin eq_refl) as [= ->].
    reflexivity.
  - pose proof (find_none _ _ E _ Hin) as Hb. cbn in Hb.
    rewrite Z.eqb_refl in Hb. discriminate.
Qed.

(** X22. The dictionary the suggestion list builds has one key per author
    of the suggestions given, no key twice, and under each key that user's
    row and exactly that author's suggestions, in the order given; a user
    without suggestions has no key. *)
Theorem X22_suggestions_grouped_by_author s l k :
  NoDup (map fst (sugestoes_por_usuario s l))
  /\ (In k (map fst (sugestoes_por_usuario s l))
      <-> In k (map SugestaoPresente.usuario_id l))
  /\ (In k (map SugestaoPresente.usuario_id l) ->
      dict_get k (sugestoes_por_usuario s l)
      = Some (mkSugestoesDoUsuario (User_get k s) (sugestoes_do_autor k l)))
  /\ (~ In k (map SugestaoPresente.usuario_id l) ->
      dict_get k (sugestoes_por_usuario s l) = None).
Proof.
  destruct (sugestoes_por_usuario_agrupado s l) as (Hn & Hv & Hk).
  assert (In k (map fst (sugestoes_por_usuario s l))
          -> In k (map SugestaoPresente.usuario_id l)) as Hback.
  { intros ([k0 v] & Hk0 & Hin)%in_map_iff. cbn in Hk0. subst k0.
    exact (proj1 (Hv k v Hin)). }
  split; [exact Hn|]. split; [split; [exact Hback | apply Hk]|]. split.
  - intros Hin. apply Hk in Hin. apply in_map_iff in Hin as ([k0 v] & Hk0 & Hin).
    cbn in Hk0. subst k0.
    rewrite (dict_get_In k v _ Hn Hin). f_equal. exact (proj2 (Hv k v Hin)).
  - intros Hnot. unfold dict_get.
    destruct (find _ (sugestoes_por_usuario s l)) as [[k0 v]|] eqn:E; [|reflexivity].
    apply find_some in E as [Hin Heq%Z.eqb_eq]. cbn in Heq. subst k0.
    exfalso. apply Hnot, Hback. apply in_map_iff. exists (k, v). auto.
Qed.

Lemma X22_witness :
  dict_get 2 (sugestoes_por_usuario db_com_sugestoes (sugestoes db_com_sugestoes))
  = Some (mkSugestoesDoUsuario
            (Some (User.mk 2 "bia@example.org" "hash:b" "Bia" (Some 2)))
            [SugestaoPresente.mk 1 1 2 "Livro" None (Some 8) (Some 8);
             SugestaoPresente.mk 3 1 2 "Chocolate" None (Some 10) (Some 10)]).
Proof.
  apply (proj1 (proj2 (proj2 (X22_suggestions_grouped_by_author db_com_sugestoes
                                (sugestoes db_com_sugestoes) 2)))).
  vm_compute. left. reflexivity.
Defined.

Lemma sugestoes_do_autor_grupo G k s :
  sugestoes_do_autor k (SugestaoPresente_grupo G s)
  = SugestaoPresente_grupo_usuario G k s.
Proof.
  unfold sugestoes_do_autor, SugestaoPresente_grupo, SugestaoPresente_grupo_usuario.
  induction (sugestoes s) as [|x l IH]; cbn [filter]; [reflexivity|].
  destruct (SugestaoPresente.grupo_id x =? G); cbn [filter andb]; [|exact IH].
  destruct (SugestaoPresente.usuario_id x =? k); [now rewrite IH | exact IH].
Qed.

(** X23. The suggestion list of a group, for a logged-in user and a stored
    group, writes nothing; a user with no Membership row of the group is
    sent to the dashboard with the error flash; a member gets the group and
    its suggestions grouped by author, where the entry of an author is that
    user's row with that author's suggestions in the group, the same list
    the reveal page shows for a recipient. *)
Theorem X23_suggestion_list e U G g s :
  logged_in e U s -> Grupo_get G s = Some g ->
  (~ is_member U G s ->
     lista_sugestoes e G s
     = (inr (redirect (Some ("Você não é membro deste grupo!", "error"))
                      url_for_dashboard), s))
  /\ (is_member U G s ->
      lista_sugestoes e G s
      = (inl (g, sugestoes_por_usuario s (SugestaoPresente_grupo G s)), s)
      /\ forall k,
           dict_get k (sugestoes_por_usuario s (SugestaoPresente_grupo G s))
           = match SugestaoPresente_grupo_usuario G k s with
             | [] => None
             | l => Some (mkSugestoesDoUsuario (User_get k s) l)
             end).
Proof.
  intros [Hs Hu] Hg. destruct (User_get_is_user _ _ Hu) as (u & Hget).
  pose proof (User_get_Some _ _ _ Hget) as [_ Hid]. split.
  - intros Hm%MembroGrupo_first_None.
    unfold lista_sugestoes, login_required_ctx. rewrite Hs, Hget. view_unfold.
    rewrite Hg. cbn beta iota. rewrite Hid, Hm. reflexivity.
  - intros (m & Hm)%MembroGrupo_first_member. split.
    + unfold lista_sugestoes, login_required_ctx. rewrite Hs, Hget. view_unfold.
      rewrite Hg. cbn beta iota. rewrite Hid, Hm. reflexivity.
    + intros k.
      destruct (sugestoes_por_usuario_agrupado s (SugestaoPresente_grupo G s))
        as (Hn & Hv & Hk).
      rewrite <- sugestoes_do_autor_grupo.
      destruct (sugestoes_do_autor k (SugestaoPresente_grupo G s)) as [|x l] eqn:E.
      * unfold dict_get.
        destruct (find _ (sugestoes_por_usuario s _)) as [[k0 v]|] eqn:Ef;
          [|reflexivity].
        apply find_some in Ef as [Hin Heq%Z.eqb_eq]. cbn in Heq. subst k0.
        destruct (Hv k v Hin) as [Hkin _].
        apply in_map_iff in Hkin as (y & Hy & Hyin).
        assert (In y (sugestoes_do_autor k (SugestaoPresente_grupo G s))) as Hc
          by (apply filter_In; split; [exact Hyin | now apply Z.eqb_eq]).
        rewrite E in Hc. destruct Hc.
      * assert (In k (map SugestaoPresente.usuario_id (SugestaoPresente_grupo G s)))
          as Hkin.
        { assert (In x (sugestoes_do_autor k (SugestaoPresente_grupo G s))) as Hx
            by (rewrite E; now left).
          apply filter_In in Hx as [Hx Hxk%Z.eqb_eq]. rewrite <- Hxk.
          now apply in_map. }
        apply Hk in Hkin. apply in_map_iff in Hkin as ([k0 v] & Hk0 & Hin).
        cbn in Hk0. subst k0. rewrite (dict_get_In k v _ Hn Hin).
        rewrite <- E. f_equal. exact (proj2 (Hv k v Hin)).
Qed.

Lemma X23_witness :
  logged_in (env_de (Some 1) 11 0 "" "") 1 db_com_sugestoes
  /\ is_member 1 1 db_com_sugestoes
  /\ dict_get 3 (sugestoes_por_usuario db_com_sugestoes
                   (SugestaoPresente_grupo 1 db_com_sugestoes))
     = Some (mkSugestoesDoUsuario
               (Some (User.mk 3 "caio@example.org" "hash:c" "Caio" (Some 3)))
               [SugestaoPresente.mk 2 1 3 "Caneca" (Some "https://example.org/caneca")
                  (Some 9) (Some 9)]).
Proof.
  assert (logged_in (env_de (Some 1) 11 0 "" "") 1 db_com_sugestoes) as HU
    by (apply logged_in_get; [reflexivity | vm_compute; discriminate]).
  assert (is_member 1 1 db_com_sugestoes) as HM
    by (apply is_member_first; vm_compute; discriminate).
  split; [exact HU|]. split; [exact HM|].
  destruct (X23_suggestion_list (env_de (Some 1) 11 0 "" "") 1 1
              (Grupo.mk 1 "Natal" "Amigo secreto" "NATAL" 1 (Some 4))
              db_com_sugestoes HU eq_refl) as (_ & Hlist).
  destruct (Hlist HM) as (_ & Hdict). rewrite (Hdict 3). vm_compute. reflexivity.
Defined.

(** ** Counting draws and members *)

Lemma NoDup_fst_of_par {A} (f g : A -> Z) (G : Z) l :
  NoDup (map (fun x => (f x, g x)) l) ->
  NoDup (map f (filter (fun x => g x =? G) l)).
Proof.
  induction l as [|a l IH]; cbn [filter map]; [constructor|].
  intros Hn. inversion Hn as [|? ? Ha Hl]; subst.
  destruct (Z.eqb_spec (g a) G) as [E|E]; [|auto].
  cbn [map]. constructor; [|auto].
  intros (x & Hx & Hin)%in_map_iff. apply filter_In in Hin as [Hin Hg%Z.eqb_eq].
  apply Ha. apply in_map_iff. exists x. split; [congruence | assumption].
Qed.

Lemma filter_out_one {A} (f : A -> Z) (a : Z) l :
  NoDup (map f l) -> In a (map f l) ->
  S (List.length (filter (fun x => negb (f x =? a)) l)) = List.length l.
Proof.
  induction l as [|x l IH]; cbn [map filter List.length]; [intros _ []|].
  intros Hn Hin. inversion Hn as [|? ? Hx Hl]; subst.
  destruct (Z.eqb_spec (f x) a) as [E|E]; cbn [negb].
  - f_equal. subst a. clear IH Hin Hn.
    induction l as [|y l IH]; cbn [filter List.length]; [reflexivity|].
    cbn [map] in Hx, Hl. inversion Hl; subst.
    destruct (Z.eqb_spec (f y) (f x)) as [E|E]; cbn [negb List.length].
    + exfalso. apply Hx. left. exact E.
    + f_equal. apply IH; [intros H; apply Hx; now right | assumption].
  - cbn [List.length]. f_equal. apply IH; [assumption|].
    destruct Hin as [Hin|Hin]; [contradiction | assumption].
Qed.

(** X24. In every database the application reaches, the Draw rows of a
    group are of pairwise distinct users, all members of the group: a group
    never has more draws than members. *)
Theorem X24_no_more_draws_than_members s G :
  reachable s ->
  NoDup (map SorteioIndividual.usuario_id
           (filter (fun d => SorteioIndividual.grupo_id d =? G) (sorteios s)))
  /\ incl (map SorteioIndividual.usuario_id
             (filter (fun d => SorteioIndividual.grupo_id d =? G) (sorteios s)))
          (map MembroGrupo.usuario_id (MembroGrupo_all G s))
  /\ (List.length
        (filter (fun d => (SorteioIndividual.grupo_id d =? G)%Z) (sorteios s))
      <= List.length (MembroGrupo_all G s))%nat.
Proof.
  intros R. pose proof (reachable_wf s R) as W. pose proof (reachable_chaves s R) as C.
  assert (NoDup (map SorteioIndividual.usuario_id
                   (filter (fun d => SorteioIndividual.grupo_id d =? G) (sorteios s))))
    as Hn by exact (NoDup_fst_of_par _ _ G _ (wf_sorteio_par W)).
  assert (incl (map SorteioIndividual.usuario_id
                  (filter (fun d => SorteioIndividual.grupo_id d =? G) (sorteios s)))
               (map MembroGrupo.usuario_id (MembroGrupo_all G s))) as Hi.
  { intros u (d & <- & Hd)%in_map_iff. apply filter_In in Hd as [Hd Hg%Z.eqb_eq].
    destruct (ch_sorteio_membros C d Hd) as [Hm _].
    apply in_map_iff in Hm as (m & Hpar & Hin). injection Hpar as Hu Hmg.
    apply in_map_iff. exists m. split; [exact Hu|].
    apply MembroGrupo_all_In. split; [exact Hin | congruence]. }
  split; [exact Hn|]. split; [exact Hi|].
  pose proof (NoDup_incl_length Hn Hi) as Hl. rewrite !length_map in Hl. exact Hl.
Qed.

Lemma X24_witness :
  reachable db_ana_sorteou
  /\ (List.length (filter (fun d => (SorteioIndividual.grupo_id d =? 1)%Z)
                          (sorteios db_ana_sorteou))
      <= List.length (MembroGrupo_all 1 db_ana_sorteou))%nat.
Proof.
  split; [exact db_ana_sorteou_reachable|].
  exact (proj2 (proj2 (X24_no_more_draws_than_members db_ana_sorteou 1
                         db_ana_sorteou_reachable))).
Defined.

(** X25. In every database the application reaches, the pool of a member
    is the group's Membership rows but the member's own, one fewer than
    the group has; so in a group of two or more a member who has not drawn
    always can: with a generated token that is not stored yet the draw
    succeeds, and its recipient is another user, member of the group. *)
Theorem X25_member_of_a_group_of_two_can_draw s e U G :
  reachable s -> logged_in e U s -> is_member U G s ->
  S (List.length (pool U G s)) = List.length (MembroGrupo_all G s)
  /\ (~ has_drawn U G s ->
      (2 <= List.length (MembroGrupo_all G s))%nat ->
      ~ In (token_urlsafe_32 e) (map SorteioIndividual.token_acesso (sorteios s)) ->
      exists amigo,
        run (realizar_sorteio_individual e G) s
        = (DrawResult amigo (token_urlsafe_32 e),
           com_sorteio s (novo_sorteio e U G (User.id amigo) s))
        /\ User.id amigo <> U
        /\ is_member (User.id amigo) G s).
Proof.
  intros R HU HM. pose proof (reachable_wf s R) as W.
  assert (S (List.length (pool U G s)) = List.length (MembroGrupo_all G s)) as Hlen.
  { unfold pool. apply filter_out_one; [exact (membros_do_grupo_NoDup s G W)|].
    apply in_map_iff in HM as (m & Hpar & Hin). injection Hpar as Hu Hg.
    apply in_map_iff. exists m. split; [exact Hu|].
    apply MembroGrupo_all_In. auto. }
  split; [exact Hlen|]. intros HD H2 Htok.
  assert (pool U G s <> []) as Hp
    by (intros E; rewrite E in Hlen; cbn in Hlen; lia).
  destruct (random_choice_nonempty e _ Hp) as (m & Hc & Hm).
  pose proof (proj1 (pool_In U G s m) Hm) as (Hin & Hg & Hne).
  destruct (User_get_is_user _ _ (wf_membro_usuario W m Hin)) as (amigo & Ha).
  pose proof (User_get_Some _ _ _ Ha) as [_ Hid].
  assert (is_grupo G s) as HG by (rewrite <- Hg; exact (wf_membro_grupo W m Hin)).
  exists amigo. split; [|split].
  - rewrite (realizar_chosen e U G s m amigo HU HG HM HD Hc Ha).
    apply token_existsb_false in Htok. rewrite Htok. reflexivity.
  - congruence.
  - unfold is_member. apply in_map_iff. exists m. split; [|exact Hin].
    unfold membro_par. congruence.
Qed.

Lemma X25_witness :
  reachable db_ana_sorteou /\ logged_in env_bia_colide 2 db_ana_sorteou
  /\ is_member 2 1 db_ana_sorteou
  /\ S (List.length (pool 2 1 db_ana_sorteou))
     = List.length (MembroGrupo_all 1 db_ana_sorteou).
Proof.
  assert (logged_in env_bia_colide 2 db_ana_sorteou) as HU
    by (apply logged_in_get; [reflexivity | vm_compute; discriminate]).
  assert (is_member 2 1 db_ana_sorteou) as HM
    by (apply is_member_first; vm_compute; discriminate).
  split; [exact db_ana_sorteou_reachable|]. split; [exact HU|]. split; [exact HM|].
  exact (proj1 (X25_member_of_a_group_of_two_can_draw db_ana_sorteou env_bia_colide
                  2 1 db_ana_sorteou_reachable HU HM)).
Defined.
